(** * Libri: a shallow embedding of the librarian's RPC handlers, the
    introduction response processor, the entry packer and the RocksDB wrapper.

    Every Go function that is modelled keeps its name.  Go values are modelled
    as follows:
    - a [[]byte] is a [list byte];
    - a pointer that may be [nil] is an [option];
    - a [(T, error)] return is a [result T]: a value, an error (carrying the
      message of [errors.New]) or a run-time panic;
    - a Go [map[string]T] is a [gmap string T];
    - an interface held by a struct (verifier, checker, storer/loader, routing
      table, searcher, storer, stream) is a record of functions, as the tests
      of the repository substitute fixed implementations for them. *)

From Stdlib Require Import ZArith NArith Lia.
From Stdlib Require Import Strings.Byte.
From Stdlib Require HexString DecimalString DecimalNat.
From stdpp Require Import gmap strings list sorting.

#[local] Open Scope string_scope.
#[local] Open Scope list_scope.

(** ** Go-level outcomes *)

(** An [error] value is identified with its message. *)
Definition error : Type := string.

Inductive result (A : Type) : Type :=
| Ok (a : A)
| Err (e : error)
| Panic (msg : string).
Arguments Ok {A} a.
Arguments Err {A} e.
Arguments Panic {A} msg.

Definition is_Ok {A} (r : result A) : bool :=
  match r with Ok _ => true | _ => false end.

Definition is_Err {A} (r : result A) : bool :=
  match r with Err _ => true | _ => false end.

Definition is_Panic {A} (r : result A) : bool :=
  match r with Panic _ => true | _ => false end.

(** Mapping over the value of an outcome. *)
#[global] Instance result_fmap : FMap result := fun A B f r =>
  match r with
  | Ok a => Ok (f a)
  | Err e => Err e
  | Panic msg => Panic msg
  end.

(** The message of Go's nil-pointer dereference. *)
Definition nil_dereference : string :=
  "invalid memory address or nil pointer dereference".

(** ** Bytes *)

#[global] Instance byte_eq_decision : EqDecision byte := Byte.byte_eq_dec.

#[global] Program Instance byte_countable : Countable byte :=
  inj_countable Byte.to_N Byte.of_N _.
Next Obligation. intros x. apply Byte.of_to_N. Qed.

Abbreviation bytes := (list byte).

(** * Package [db]: the key-value store wrapper (kvdb.go) *)

Module db.

  (** The [gorocksdb] handles are an external library.  A [gorocksdb.DB] is
      modelled by its contents and by the I/O failure (if any) the engine
      reports on its next operation; the option structs carry no data. *)
Record gorocksdb_DB : Type := {
    cells : gmap bytes bytes;
    io_failure : option error }.

Inductive gorocksdb_ReadOptions : Type := DefaultReadOptions.
Inductive gorocksdb_WriteOptions : Type := DefaultWriteOptions.

  (** [GetBytes] of a [gorocksdb.DB] pointer: a method of the handle, which reads the
      fields of its receiver and of its options. A missing key yields the nil
      slice. *)
Definition gorocksdb_GetBytes (d : option gorocksdb_DB)
      (ro : option gorocksdb_ReadOptions) (key : bytes) : result (option bytes) :=
    match d, ro with
    | Some h, Some _ =>
        match io_failure h with
        | Some e => Err e
        | None => Ok (cells h !! key)
        end
    | _, _ => Panic nil_dereference
    end.

Definition gorocksdb_Put (d : option gorocksdb_DB)
      (wo : option gorocksdb_WriteOptions) (key value : bytes)
      : result gorocksdb_DB :=
    match d, wo with
    | Some h, Some _ =>
        match io_failure h with
        | Some e => Err e
        | None => Ok {| cells := <[key := value]> (cells h); io_failure := None |}
        end
    | _, _ => Panic nil_dereference
    end.

Definition gorocksdb_Delete (d : option gorocksdb_DB)
      (wo : option gorocksdb_WriteOptions) (key : bytes) : result gorocksdb_DB :=
    match d, wo with
    | Some h, Some _ =>
        match io_failure h with
        | Some e => Err e
        | None => Ok {| cells := delete key (cells h); io_failure := None |}
        end
    | _, _ => Panic nil_dereference
    end.

  (** The struct [RocksDB]: three pointers, to the handle and to its read and
      write options. *)
Record RocksDB : Type := {
    rdb : option gorocksdb_DB;
    ro : option gorocksdb_ReadOptions;
    wo : option gorocksdb_WriteOptions }.

  (** [RocksDB.Get], on a pointer receiver. *)
Definition Get (db : option RocksDB) (key : bytes) : result (option bytes) :=
    match db with
    | None => Err "RocksDB struct is nil!"
    | Some s =>
        match rdb s with
        | None => Err "rdb is nil!"
        | Some _ => gorocksdb_GetBytes (rdb s) (ro s) key
        end
    end.

  (** [RocksDB.Put], on a pointer receiver: evaluating
      [db.rdb] on a nil receiver panics; the updated receiver is returned on
      success. *)
Definition Put (db : option RocksDB) (key value : bytes) : result RocksDB :=
    match db with
    | None => Panic nil_dereference
    | Some s =>
        match gorocksdb_Put (rdb s) (wo s) key value with
        | Ok h => Ok {| rdb := Some h; ro := ro s; wo := wo s |}
        | Err e => Err e
        | Panic m => Panic m
        end
    end.

  (** [RocksDB.Delete], on a pointer receiver. *)
Definition Delete (db : option RocksDB) (key : bytes) : result RocksDB :=
    match db with
    | None => Panic nil_dereference
    | Some s =>
        match gorocksdb_Delete (rdb s) (wo s) key with
        | Ok h => Ok {| rdb := Some h; ro := ro s; wo := wo s |}
        | Err e => Err e
        | Panic m => Panic m
        end
    end.

End db.

(** * Package [id]: 256-bit identifiers *)

Module id.

  (** An [ID] wraps the big integer read from a big-endian byte string. *)
Definition ID : Type := N.

Definition FromBytes (b : bytes) : ID :=
    fold_left (fun acc x => (acc * 256 + Byte.to_N x)%N) b 0%N.

Definition Length : nat := 32.

Definition byte_of_N (x : N) : byte :=
    default "000"%byte (Byte.of_N (x mod 256)).

  (** The [n] low-order bytes of [x], most significant first. *)
Fixpoint big_endian (n : nat) (x : N) : bytes :=
    match n with
    | O => []
    | S n' => big_endian n' (x / 256) ++ [byte_of_N x]
    end.

  (** Modelled from the spec: [Bytes] is absent from the sources; an ID is "a
      32-byte big-endian integer", so [Bytes] is its 32-byte big-endian
      rendering. *)
Definition Bytes (x : ID) : bytes := big_endian Length x.

  (** Modelled from the spec: [String] is absent from the sources; it is only
      used for map keys, and is taken to be the hexadecimal numeral of the
      integer. *)
Definition String (x : ID) : string := HexString.of_N x.

  (** Modelled from the spec: "Distance(a,b) = a XOR b interpreted as an
      unsigned 256-bit integer". *)
Definition Distance (a b : ID) : N := N.lxor a b.

  (** [Cmp] of two IDs, as [big.Int.Cmp]: -1, 0 or 1. *)
Definition Cmp (a b : ID) : Z :=
    match N.compare a b with Lt => (-1)%Z | Eq => 0%Z | Gt => 1%Z end.

End id.

(** * Package [api]: the protobuf messages (documents.proto, librarian.proto)

    A message field that is a pointer is an [option] where the modelled code
    itself reads through it (the metadata of a request, the [Self] of an
    introduce response, the subscription of a subscribe request, the value of
    a store or put request).  A pointer that the code only hands on to helpers
    absent from the sources (the [Self] of an introduce request, the value of
    a keyed publication) is taken as set. *)

Module api.

Module Page.
Record t : Type := {
      AuthorPublicKey : bytes;
      Index : N;
      Ciphertext : bytes;
      CiphertextMac : bytes }.
End Page.

Module PageKeys.
Record t : Type := { Keys : list bytes }.
End PageKeys.

Module Envelope.
Record t : Type := {
      EntryKey : bytes;
      AuthorPublicKey : bytes;
      ReaderPublicKey : bytes }.
End Envelope.

  (** The [oneof contents] of an entry. *)
Inductive isEntry_Contents : Type :=
  | Entry_Page (Page : Page.t)
  | Entry_PageKeys (PageKeys : PageKeys.t).

Module Entry.
Record t : Type := {
      AuthorPublicKey : bytes;
      Contents : isEntry_Contents;
      CreatedTime : Z;
      MetadataCiphertext : bytes;
      MetadataCiphertextMac : bytes }.
End Entry.

  (** The [oneof contents] of a document; the interface value may be nil. *)
Inductive isDocument_Contents : Type :=
  | Document_Envelope (Envelope : Envelope.t)
  | Document_Entry (Entry : Entry.t)
  | Document_Page (Page : Page.t).

Module Document.
Record t : Type := { Contents : option isDocument_Contents }.
End Document.

  (** Two documents are identical when they agree field by field. *)
#[global] Instance Page_eq_dec : EqDecision Page.t := ltac:(solve_decision).
#[global] Instance PageKeys_eq_dec : EqDecision PageKeys.t := ltac:(solve_decision).
#[global] Instance Envelope_eq_dec : EqDecision Envelope.t := ltac:(solve_decision).
#[global] Instance isEntry_Contents_eq_dec : EqDecision isEntry_Contents :=
  ltac:(solve_decision).
#[global] Instance Entry_eq_dec : EqDecision Entry.t := ltac:(solve_decision).
#[global] Instance isDocument_Contents_eq_dec : EqDecision isDocument_Contents :=
  ltac:(solve_decision).
#[global] Instance Document_eq_dec : EqDecision Document.t := ltac:(solve_decision).

Module Publication.
Record t : Type := {
      EnvelopeKey : bytes;
      EntryKey : bytes;
      AuthorPublicKey : bytes;
      ReaderPublicKey : bytes }.
End Publication.

Module PeerAddress.
Record t : Type := {
      PeerId : bytes;
      PeerName : string;
      Ip : string;
      Port : N }.
End PeerAddress.

Module RequestMetadata.
Record t : Type := { RequestId : bytes; PubKey : bytes }.
End RequestMetadata.

  (** Modelled from the spec: "Response metadata echoes the request's
      request_id and carries a fresh server-generated 32-byte response_id". *)
Module ResponseMetadata.
Record t : Type := { RequestId : bytes; ResponseId : bytes }.
End ResponseMetadata.

Module PingRequest.
Inductive t : Type := Build.
End PingRequest.

Module PingResponse.
Record t : Type := { Message : string }.
End PingResponse.

Module IntroduceRequest.
Record t : Type := {
      Metadata : option RequestMetadata.t;
      Self : PeerAddress.t;
      NumPeers : N }.
End IntroduceRequest.

Module IntroduceResponse.
Record t : Type := {
      Metadata : ResponseMetadata.t;
      Self : option PeerAddress.t;
      Peers : list PeerAddress.t }.
End IntroduceResponse.

Module FindRequest.
Record t : Type := {
      Metadata : option RequestMetadata.t;
      Key : bytes;
      NumPeers : N }.
End FindRequest.

Module FindResponse.
Record t : Type := {
      Metadata : ResponseMetadata.t;
      Peers : list PeerAddress.t;
      Value : option Document.t }.
End FindResponse.

Module StoreRequest.
Record t : Type := {
      Metadata : option RequestMetadata.t;
      Key : bytes;
      Value : option Document.t }.
End StoreRequest.

Module StoreResponse.
Record t : Type := { Metadata : ResponseMetadata.t }.
End StoreResponse.

Module GetRequest.
Record t : Type := {
      Metadata : option RequestMetadata.t;
      Key : bytes }.
End GetRequest.

Module GetResponse.
Record t : Type := {
      Metadata : ResponseMetadata.t;
      Value : option Document.t }.
End GetResponse.

Module PutRequest.
Record t : Type := {
      Metadata : option RequestMetadata.t;
      Key : bytes;
      Value : option Document.t }.
End PutRequest.

Inductive PutOperation : Type := PutOperation_STORED | PutOperation_LEFT_EXISTING.

Module PutResponse.
Record t : Type := {
      Metadata : ResponseMetadata.t;
      Operation : PutOperation;
      NReplicas : N }.
End PutResponse.

  (** The wire form of a Bloom filter: its encoding, which may be missing. *)
Module BloomFilter.
Record t : Type := { Encoded : option bytes }.
End BloomFilter.

Module Subscription.
Record t : Type := {
      AuthorPublicKeys : BloomFilter.t;
      ReaderPublicKeys : BloomFilter.t }.
End Subscription.

Module SubscribeRequest.
Record t : Type := {
      Metadata : option RequestMetadata.t;
      Subscription : option Subscription.t }.
End SubscribeRequest.

Module SubscribeResponse.
Record t : Type := {
      Metadata : ResponseMetadata.t;
      Key : bytes;
      Value : Publication.t }.
End SubscribeResponse.

  (** A [proto.Message] handed to the request verifier. *)
Inductive Message : Type :=
  | MsgPing (rq : PingRequest.t)
  | MsgIntroduce (rq : IntroduceRequest.t)
  | MsgFind (rq : FindRequest.t)
  | MsgStore (rq : StoreRequest.t)
  | MsgGet (rq : GetRequest.t)
  | MsgPut (rq : PutRequest.t)
  | MsgSubscribe (rq : SubscribeRequest.t).

  (** Modelled from the spec: [GetPublication] is absent from the sources; a
      publication is "(key, Publication{entry_key, author_pub, reader_pub})",
      "published whenever a Store RPC succeeds for a fresh envelope"; other
      documents yield no publication. *)
Definition GetPublication (key : bytes) (value : option Document.t)
      : option Publication.t :=
    match value with
    | Some {| Document.Contents := Some (Document_Envelope e) |} =>
        Some {| Publication.EnvelopeKey := key;
                Publication.EntryKey := Envelope.EntryKey e;
                Publication.AuthorPublicKey := Envelope.AuthorPublicKey e;
                Publication.ReaderPublicKey := Envelope.ReaderPublicKey e |}
    | _ => None
    end.

End api.


(** * Package [peer] *)

Module peer.

(** Modelled from the spec: the peer implementation is absent from the
    sources; a peer record is "{ id, name, public_address: (ipv4, port),
    query_outcomes }".  The outcomes are kept in the server's log of recorded
    outcomes rather than in the record. *)
Record Peer : Type := {
  ID : id.ID;
  Name : string;
  Ip : string;
  Port : N }.

Definition ToAPI (p : Peer) : api.PeerAddress.t :=
  {| api.PeerAddress.PeerId := id.Bytes (ID p);
     api.PeerAddress.PeerName := Name p;
     api.PeerAddress.Ip := Ip p;
     api.PeerAddress.Port := Port p |}.

Definition ToAPIs (ps : list Peer) : list api.PeerAddress.t := map ToAPI ps.

(** The [Fromer] interface. *)
Record Fromer : Type := { FromAPI : api.PeerAddress.t -> Peer }.

Definition NewFromer : Fromer :=
  {| FromAPI := fun pa =>
       {| ID := id.FromBytes (api.PeerAddress.PeerId pa);
          Name := api.PeerAddress.PeerName pa;
          Ip := api.PeerAddress.Ip pa;
          Port := api.PeerAddress.Port pa |} |}.

Inductive QueryType : Type := Request | Response.
Inductive Outcome : Type := Success | Error.

End peer.

(** * External libraries *)

(** [math/rand]: a generator freshly made from a source is determined by the
    seed of the source. *)
Module rand.
Inductive Source : Type := NewSource (seed : Z).
Inductive Rand : Type := New (src : Source).
End rand.

(** [willf/bloom]: only the membership test of a filter is used. *)
Module bloom.
Record BloomFilter : Type := { Test : bytes -> bool }.
End bloom.

(** [google.golang.org/grpc/codes] and [status]: the status code gRPC reports
    for the error a handler returns.  An error made by [errors.New], which is
    what an [error] is here, is no status error: [status.Code] gives
    [Unknown] for it, and [OK] for [nil]. *)
Module codes.
Inductive Code : Type := OK | Unknown | InvalidArgument | NotFound.
End codes.

Module status.
Definition Code (err : option error) : codes.Code :=
  match err with
  | None => codes.OK
  | Some _ => codes.Unknown
  end.
End status.

(** [encoding/binary]: [BigEndian.Uint64] reads the first eight bytes of its
    argument and panics on a shorter one. *)
Module binary.
Definition BigEndian_Uint64 (b : bytes) : result N :=
  if decide (8 <= length b)%nat then Ok (id.FromBytes (take 8 b))
  else Panic "index out of range".
End binary.

(** Conversions between Go's integer types, with their wrap-around. *)
Definition int64 (x : N) : Z :=
  let u := (Z.of_N x mod 2 ^ 64)%Z in
  if decide (u < 2 ^ 63)%Z then u else (u - 2 ^ 64)%Z.

Definition uint32 (x : Z) : N := Z.to_N (x mod 2 ^ 32)%Z.

(** [b[:n]] on a slice whose capacity is its length. *)
Definition slice_to (b : bytes) (n : nat) : result bytes :=
  if decide (n <= length b)%nat then Ok (take n b)
  else Panic "slice bounds out of range".

(** The cryptographic and encoding primitives the repository takes from
    libraries: SHA-256, protobuf marshalling of a document, the derivation of
    a peer ID from the bytes of a public key (which fails on bytes that are
    not a key), and the decoding of a Bloom filter. *)
Class Primitives : Type := {
  sha256 : bytes -> bytes;
  proto_Marshal : api.Document.t -> bytes;
  ecid_FromPublicKeyBytes : bytes -> option id.ID;
  bloom_GobDecode : bytes -> option bloom.BloomFilter }.

(** * Package [storage] *)

Module storage.

Definition EntriesKeyLength : nat := 32.

Module Checker.
Record t : Type := { Check : bytes -> option error }.
End Checker.

Module KeyValueChecker.
Record t : Type := { Check : bytes -> option api.Document.t -> option error }.
End KeyValueChecker.

(** Modelled from the spec: the checkers are absent from the sources;
    "KeyChecker. Rejects keys whose length ≠ 32 bytes." *)
Definition NewExactLengthChecker (n : nat) : Checker.t :=
  {| Checker.Check := fun key =>
       if decide (length key = n) then None
       else Some "key does not have the expected length" |}.

(** Whether [key] is the content address of [value]. *)
Definition hash_matches `{Primitives} (key : bytes) (value : option api.Document.t)
    : bool :=
  match value with
  | Some v => bool_decide (sha256 (proto_Marshal v) = key)
  | None => false
  end.

(** Modelled from the spec: "KeyValueChecker. In addition, for document values
    verifies SHA-256(serialize(value)) == key"; a missing value is a missing
    field, which the spec lists among the validation errors. *)
Definition NewHashKeyValueChecker `{Primitives} : KeyValueChecker.t :=
  {| KeyValueChecker.Check := fun key value =>
       match Checker.Check (NewExactLengthChecker EntriesKeyLength) key with
       | Some e => Some e
       | None =>
           match value with
           | None => Some "value is missing"
           | Some _ =>
               if hash_matches key value then None
               else Some "hash of value does not match key"
           end
       end |}.

(** The [DocumentStorerLoader] interface over a store whose state has type
    [D]; [Load] of an absent key returns the nil document and no error. *)
Module DocumentStorerLoader.
Record t (D : Type) : Type := {
  Store : id.ID -> option api.Document.t -> D -> option error * D;
  Load : id.ID -> D -> result (option api.Document.t) }.
Arguments Store {D} _ _ _ _.
Arguments Load {D} _ _ _.
End DocumentStorerLoader.

(** The [DocumentLoader] interface: the loading half of the above. *)
Module DocumentLoader.
Record t (D : Type) : Type := {
  Load : id.ID -> D -> result (option api.Document.t) }.
Arguments Load {D} _ _ _.
End DocumentLoader.

End storage.

(** * Package [routing] *)

Module routing.

(** The [Table] interface over a table whose state has type [RT]. *)
Module Table.
Record t (RT : Type) : Type := {
  Push : peer.Peer -> RT -> RT;
  Peak : id.ID -> N -> RT -> list peer.Peer;
  Sample : N -> rand.Rand -> RT -> list peer.Peer }.
Arguments Push {RT} _ _ _.
Arguments Peak {RT} _ _ _ _.
Arguments Sample {RT} _ _ _ _.
End Table.

(** [p] is no farther from [key] than [q]. *)
Definition closer (key : id.ID) (p q : peer.Peer) : Prop :=
  (id.Distance (peer.ID p) key <= id.Distance (peer.ID q) key)%N.

#[global] Instance closer_dec key p q : Decision (closer key p q).
Proof. unfold closer. apply _. Defined.

(** Modelled from the spec: the routing table is absent from the sources;
    "Peak(key, n) returns the n peers with smallest XOR distance to key", "in
    ascending XOR distance from key".  [closest key n ps] is that answer over
    the active peers [ps] of a table. *)
Definition closest (key : id.ID) (n : N) (ps : list peer.Peer) : list peer.Peer :=
  take (N.to_nat n) (merge_sort (closer key) ps).

(** A table implementation meets the spec of [Peak] for the observer [active]
    of its active peers. *)
Definition PeakSpec {RT} (T : Table.t RT) (active : RT -> list peer.Peer) : Prop :=
  forall key n rt, Table.Peak T key n rt = closest key n (active rt).

End routing.


(** * Package [search] *)

Module search.

Module Parameters.
Record t : Type := {
  NClosestResponses : N;
  NMaxErrors : N;
  Concurrency : N }.
End Parameters.

(** The fields of a search result that the server reads: the value found (if
    any), the heap of closest peers (by its [Peers()]), the unqueried peers,
    the peers that responded, the number of errors and the fatal error. *)
Module Result.
Record t : Type := {
  Value : option api.Document.t;
  Closest : list peer.Peer;
  Unqueried : list peer.Peer;
  Responded : gmap string peer.Peer;
  NErrors : N;
  FatalErr : option error }.
End Result.

Module Search.
Record t : Type := {
  Key : id.ID;
  Result : Result.t;
  Params : Parameters.t }.
End Search.

Definition NewInitialResult (key : id.ID) (params : Parameters.t) : Result.t :=
  {| Result.Value := None;
     Result.Closest := [];
     Result.Unqueried := [];
     Result.Responded := ∅;
     Result.NErrors := 0%N;
     Result.FatalErr := None |}.

Definition NewSearch (selfID key : id.ID) (params : Parameters.t) : Search.t :=
  {| Search.Key := key;
     Search.Result := NewInitialResult key params;
     Search.Params := params |}.

(** The termination predicates of a search are absent from the sources; the
    handlers only branch on them, so they are taken as they come. *)
Record Predicates : Type := {
  FoundValue : Search.t -> bool;
  FoundClosestPeers : Search.t -> bool;
  Errored : Search.t -> bool;
  Exhausted : Search.t -> bool }.

(** The [Searcher] interface: a search runs against the network, updates the
    search it is given and may touch the peers of the routing table. *)
Record Searcher (RT : Type) : Type := {
  Search : Search.t -> list peer.Peer -> RT -> option error * Search.t * RT }.
Arguments Search {RT} _ _ _ _.

End search.

(** * Package [store] *)

Module store.

Module Parameters.
Record t : Type := {
  NReplicas : N;
  NMaxErrors : N;
  Concurrency : N }.
End Parameters.

Module Result.
Record t : Type := {
  Unqueried : list peer.Peer;
  Responded : list peer.Peer;
  Search : search.Result.t;
  NErrors : N;
  FatalErr : option error }.
End Result.

Module Store.
Record t : Type := {
  Search : search.Search.t;
  Value : option api.Document.t;
  Result : Result.t;
  Params : Parameters.t }.
End Store.

Definition NewInitialResult (sr : search.Result.t) : Result.t :=
  {| Result.Unqueried := [];
     Result.Responded := [];
     Result.Search := sr;
     Result.NErrors := 0%N;
     Result.FatalErr := None |}.

Definition NewStore (selfID key : id.ID) (value : option api.Document.t)
    (searchParams : search.Parameters.t) (storeParams : Parameters.t) : Store.t :=
  let s := search.NewSearch selfID key searchParams in
  {| Store.Search := s;
     Store.Value := value;
     Store.Result := NewInitialResult (search.Search.Result s);
     Store.Params := storeParams |}.

(** Modelled from the spec: the predicates of a store are absent from the
    sources.  "Stored() ↔ replication achieved NReplicas ≥ NClosestResponses",
    the replicas being the peers that responded to the store request. *)
Definition Stored (s : Store.t) : bool :=
  bool_decide (search.Parameters.NClosestResponses (search.Search.Params (Store.Search s))
               <= N.of_nat (length (Result.Responded (Store.Result s))))%N.

(** Modelled from the spec: "Search yielded FoundValue with an identical value
    → Exists() ↔ true": the search result held by the store result carries a
    value, and that value is identical to the value the store is to store. *)
Definition Exists (s : Store.t) : bool :=
  match search.Result.Value (Result.Search (Store.Result s)), Store.Value s with
  | Some found, Some value => bool_decide (found = value)
  | _, _ => false
  end.

(** Modelled from the spec: "Errored() ↔ FatalErr set or |Errored| ≥ maxErrors". *)
Definition Errored (s : Store.t) : bool :=
  bool_decide (is_Some (Result.FatalErr (Store.Result s)))
  || bool_decide (Parameters.NMaxErrors (Store.Params s) <= Result.NErrors (Store.Result s))%N.

(** Modelled from the spec: "Exhausted() ↔ Unqueried empty and no in-flight
    queries"; no query is in flight once the storer has returned. *)
Definition Exhausted (s : Store.t) : bool :=
  bool_decide (Result.Unqueried (Store.Result s) = []).

(** The [Storer] interface. *)
Record Storer (RT : Type) : Type := {
  Store : Store.t -> list peer.Peer -> RT -> option error * Store.t * RT }.
Arguments Store {RT} _ _ _ _.

End store.

(** * Package [subscribe] *)

Module subscribe.

Module KeyedPub.
Record t : Type := { Key : id.ID; Value : api.Publication.t }.
End KeyedPub.

(** Modelled from the spec: [FromAPI] is absent from the sources; it decodes
    the wire form of a filter and fails on a missing encoding, as the tests of
    the Subscribe handler expect. *)
Definition FromAPI `{Primitives} (f : api.BloomFilter.t) : result bloom.BloomFilter :=
  match api.BloomFilter.Encoded f with
  | None => Err "filter encoding is missing"
  | Some b =>
      match bloom_GobDecode b with
      | Some bf => Ok bf
      | None => Err "filter encoding is invalid"
      end
  end.

(** The [From] interface: [New] yields the channel of publications, here the
    publications it delivers before it is closed, and the [done] channel,
    here whether it is closed. *)
Record From : Type := { New : result (list KeyedPub.t * bool) }.

(** The [To] interface: [Send] offers a publication to the queue of new
    publications. *)
Record To : Type := {
  Send : option api.Publication.t -> list api.Publication.t
         -> option error * list api.Publication.t }.

End subscribe.


(** * Package [client]: signature contexts (the client part of server.go) *)

(** [google.golang.org/grpc/metadata]: metadata is a map from keys to lists
    of values; [Pairs] lower-cases its key. *)
Module metadata.

Definition lowerAscii (c : Ascii.ascii) : Ascii.ascii :=
  let n := Ascii.nat_of_ascii c in
  if (65 <=? n)%nat && (n <=? 90)%nat then Ascii.ascii_of_nat (n + 32) else c.

Fixpoint ToLower (s : string) : string :=
  match s with
  | EmptyString => EmptyString
  | String c s' => String (lowerAscii c) (ToLower s')
  end.

Definition Pairs (k v : string) : gmap string (list string) :=
  {[ ToLower k := [v] ]}.

End metadata.

(** [context]: the parts of a context the repository uses, its incoming and
    outgoing metadata and its timeout (in nanoseconds), if any. *)
Module gocontext.

Record Context : Type := {
  incoming : option (gmap string (list string));
  outgoing : option (gmap string (list string));
  timeout : option Z }.

Definition Background : Context :=
  {| incoming := None; outgoing := None; timeout := None |}.

(** [context.WithTimeout]: the earlier of the deadlines of the parent and of
    the new timeout holds. *)
Definition WithTimeout (parent : Context) (t : Z) : Context :=
  {| incoming := incoming parent;
     outgoing := outgoing parent;
     timeout := Some (match timeout parent with
                      | Some t0 => Z.min t0 t
                      | None => t
                      end) |}.

(** [metadata.NewOutgoingContext], [metadata.NewIncomingContext] and
    [metadata.FromIncomingContext]. *)
Definition NewOutgoingContext (ctx : Context) (md : gmap string (list string))
    : Context :=
  {| incoming := incoming ctx; outgoing := Some md; timeout := timeout ctx |}.

Definition NewIncomingContext (ctx : Context) (md : gmap string (list string))
    : Context :=
  {| incoming := Some md; outgoing := outgoing ctx; timeout := timeout ctx |}.

Definition FromIncomingContext (ctx : Context)
    : option (gmap string (list string)) :=
  incoming ctx.

(** What the transport does to the context of a call: the metadata the
    caller sends out is the metadata the callee finds incoming. *)
Definition transmit (ctx : Context) : Context :=
  {| incoming := outgoing ctx; outgoing := None; timeout := timeout ctx |}.

End gocontext.

Module client.

Definition signatureKey : string := "signature".

Definition errContextMissingMetadata : error :=
  "context unexpectedly missing metadata".
Definition errContextMissingSignature : error :=
  "metadata signature key unexpectedly does not exist".

(** The [Signer] interface. *)
Record Signer : Type := { Sign : api.Message -> result string }.

(** [NewSignatureContext] *)
Definition NewSignatureContext (ctx : gocontext.Context) (signedJWT : string)
    : gocontext.Context :=
  gocontext.NewOutgoingContext ctx (metadata.Pairs signatureKey signedJWT).

(** [NewIncomingSignatureContext] *)
Definition NewIncomingSignatureContext (ctx : gocontext.Context) (signedJWT : string)
    : gocontext.Context :=
  gocontext.NewIncomingContext ctx (metadata.Pairs signatureKey signedJWT).

(** [FromSignatureContext]; indexing an empty list of values panics. *)
Definition FromSignatureContext (ctx : gocontext.Context) : result string :=
  match gocontext.FromIncomingContext ctx with
  | None => Err errContextMissingMetadata
  | Some md =>
      match md !! signatureKey with
      | None => Err errContextMissingSignature
      | Some signedJWTs =>
          match signedJWTs with
          | [] => Panic "index out of range"
          | signedJWT :: _ => Ok signedJWT
          end
      end
  end.

(** [NewSignedContext] *)
Definition NewSignedContext (signer : Signer) (request : api.Message)
    : result gocontext.Context :=
  let ctx := gocontext.Background in
  match Sign signer request with
  | Err e => Err e
  | Panic m => Panic m
  | Ok signedJWT => Ok (NewSignatureContext ctx signedJWT)
  end.

(** [NewSignedTimeoutContext]; the cancel function is left out. *)
Definition NewSignedTimeoutContext (signer : Signer) (request : api.Message)
    (timeout : Z) : result gocontext.Context :=
  match NewSignedContext signer request with
  | Err e => Err e
  | Panic m => Panic m
  | Ok ctx => Ok (gocontext.WithTimeout ctx timeout)
  end.

(** The [IntroduceQuerier] interface, over connectors of type [Conn]. *)
Record IntroduceQuerier (Conn : Type) : Type := {
  Query : gocontext.Context -> Conn -> api.IntroduceRequest.t
          -> result api.IntroduceResponse.t }.
Arguments Query {Conn} _ _ _ _.

End client.

(** [fmt]: the verb [%02d] on a non-negative integer, its decimal numeral
    padded with a zero to two digits. *)
Module fmt.

Definition decimal (i : nat) : string :=
  DecimalString.NilEmpty.string_of_uint (Nat.to_uint i).

Definition Sprintf_02d (i : nat) : string :=
  let s := decimal i in
  if (String.length s <? 2)%nat then String (Ascii.ascii_of_nat 48) s else s.

End fmt.

(** * Package [introduce]: the response processor of the introduction iterator *)

Module introduce.

Module Result.
Record t : Type := {
  Unqueried : gmap string peer.Peer;
  Responded : gmap string peer.Peer;
  NErrors : N;
  FatalErr : option error }.
End Result.

(** The struct [responseProcessor]. *)
Record responseProcessor : Type := { fromer : peer.Fromer }.

Definition NewResponseProcessor (f : peer.Fromer) : responseProcessor :=
  {| fromer := f |}.

(** The map key of a peer address: [cid.FromBytes(pa.PeerId).String()]. *)
Definition idStr (pa : api.PeerAddress.t) : string :=
  id.String (id.FromBytes (api.PeerAddress.PeerId pa)).

(** The body of the loop of [Process] over [rp.Peers]: one address [pa],
    against the responded map and the unqueried map built so far. *)
Definition addDiscovered (irp : responseProcessor) (responded : gmap string peer.Peer)
    (unqueried : gmap string peer.Peer) (pa : api.PeerAddress.t)
    : gmap string peer.Peer :=
  let newIDStr := idStr pa in
  let inResponded := bool_decide (is_Some (responded !! newIDStr)) in
  let inUnqueried := bool_decide (is_Some (unqueried !! newIDStr)) in
  if negb inResponded && negb inUnqueried
  then <[newIDStr := peer.FromAPI (fromer irp) pa]> unqueried
  else unqueried.

(** [responseProcessor.Process]: the error it returns is always nil, so the
    outcome is the updated result, or a panic when [rp.Self] is nil. *)
Definition Process (irp : responseProcessor) (rp : api.IntroduceResponse.t)
    (res : Result.t) : result Result.t :=
  match api.IntroduceResponse.Self rp with
  | None => Panic nil_dereference
  | Some self =>
      let responded :=
        <[idStr self := peer.FromAPI (fromer irp) self]> (Result.Responded res) in
      Ok {| Result.Unqueried :=
              fold_left (addDiscovered irp responded)
                        (api.IntroduceResponse.Peers rp) (Result.Unqueried res);
            Result.Responded := responded;
            Result.NErrors := Result.NErrors res;
            Result.FatalErr := Result.FatalErr res |}
  end.

(** The key under which [Introduce] files its [i]-th seed:
    [fmt.Sprintf("seed%02d", i)]. *)
Definition seedIDStr (i : nat) : string := "seed" +:+ fmt.Sprintf_02d i.

(** The seeding loop of [introducer.Introduce], from index [i] on. *)
Fixpoint seedFrom (i : nat) (seeds : list peer.Peer)
    (unqueried : gmap string peer.Peer) : gmap string peer.Peer :=
  match seeds with
  | [] => unqueried
  | seed :: seeds' => seedFrom (S i) seeds' (<[seedIDStr i := seed]> unqueried)
  end.

Definition seedUnqueried (seeds : list peer.Peer) (res : Result.t) : Result.t :=
  {| Result.Unqueried := seedFrom 0 seeds (Result.Unqueried res);
     Result.Responded := Result.Responded res;
     Result.NErrors := Result.NErrors res;
     Result.FatalErr := Result.FatalErr res |}.

(** The struct [introducer], over connectors of type [Conn]. *)
Record introducer (Conn : Type) : Type := {
  signer : client.Signer;
  querier : client.IntroduceQuerier Conn;
  repProcessor : responseProcessor }.
Arguments signer {Conn} _.
Arguments querier {Conn} _.
Arguments repProcessor {Conn} _.

(** [introducer.query]; [rq] is the request [intro.NewRequest()] makes and
    [timeout] is [intro.Params.Timeout].  The last error of the source also
    prints the two request IDs. *)
Definition query {Conn} (i : introducer Conn) (pConn : Conn)
    (rq : api.IntroduceRequest.t) (timeout : Z) : result api.IntroduceResponse.t :=
  match client.NewSignedTimeoutContext (signer i) (api.MsgIntroduce rq) timeout with
  | Err e => Err e
  | Panic m => Panic m
  | Ok ctx =>
      match client.Query (querier i) ctx pConn rq with
      | Err e => Err e
      | Panic m => Panic m
      | Ok rp =>
          match api.IntroduceRequest.Metadata rq with
          | None => Panic nil_dereference
          | Some m =>
              if bool_decide
                   (api.ResponseMetadata.RequestId (api.IntroduceResponse.Metadata rp)
                    = api.RequestMetadata.RequestId m)
              then Ok rp
              else Err "unexpected response request ID received"
          end
      end
  end.

(** The locked block that ends a round of [introduceWork]: the peer that
    answered is deleted from the unqueried map under the key it was drawn
    with, and its response is processed. *)
Definition processResponse {Conn} (i : introducer Conn) (nextIDStr : string)
    (response : api.IntroduceResponse.t) (res : Result.t) : result Result.t :=
  Process (repProcessor i) response
    {| Result.Unqueried := delete nextIDStr (Result.Unqueried res);
       Result.Responded := Result.Responded res;
       Result.NErrors := Result.NErrors res;
       Result.FatalErr := Result.FatalErr res |}.

End introduce.

(** * Package [pack]: the entry packer (entry.go) *)

Module enc.

Record Keys : Type := {
  AESKey : bytes;
  PageIVSeed : bytes;
  HMACKey : bytes;
  MetadataIV : bytes }.

Record EncryptedMetadata : Type := {
  Ciphertext : bytes;
  CiphertextMAC : bytes }.

(** The [MetadataEncrypter] interface. *)
Record MetadataEncrypter : Type := {
  Encrypt : gmap string bytes -> Keys -> result EncryptedMetadata }.

(** The [MetadataDecrypter] interface. *)
Record MetadataDecrypter : Type := {
  Decrypt : EncryptedMetadata -> Keys -> result (gmap string bytes) }.

End enc.

Module print.

(** The [Printer] interface: [Print] reads the content, stores its pages in
    the document store and returns their IDs and the metadata. *)
Record Printer (D : Type) : Type := {
  Print : bytes -> string -> enc.Keys -> bytes -> D
          -> result (list id.ID * gmap string bytes) * D }.
Arguments Print {D} _ _ _ _ _ _.

(** The [Scanner] interface: [Scan] loads the pages of the given keys from
    the document store and writes their content to a writer of state [W]. *)
Record Scanner (D W : Type) : Type := {
  Scan : list id.ID -> enc.Keys -> gmap string bytes -> D -> W -> option error * W }.
Arguments Scan {D W} _ _ _ _ _ _.

End print.

Module pack.

Section Packer.
Context {D : Type}.

(** The struct [entryPacker]; [docL] loads from the store the printer writes to. *)
Record entryPacker : Type := {
  metadataEnc : enc.MetadataEncrypter;
  printer : print.Printer D;
  docL : storage.DocumentLoader.t D }.

(** [newSinglePageEntry]; [now] is the reading of [time.Now().Unix()]. *)
Definition newSinglePageEntry (now : Z) (authorPub : bytes) (pageKey : id.ID)
    (encMeta : enc.EncryptedMetadata) (docL : storage.DocumentLoader.t D) (d : D)
    : result api.Entry.t :=
  match storage.DocumentLoader.Load docL pageKey d with
  | Err e => Err e
  | Panic m => Panic m
  | Ok None => Panic nil_dereference
  | Ok (Some pageDoc) =>
      match api.Document.Contents pageDoc with
      | Some (api.Document_Page page) =>
          Ok {| api.Entry.AuthorPublicKey := authorPub;
                api.Entry.Contents := api.Entry_Page page;
                api.Entry.CreatedTime := now;
                api.Entry.MetadataCiphertext := enc.Ciphertext encMeta;
                api.Entry.MetadataCiphertextMac := enc.CiphertextMAC encMeta |}
      | _ => Err "not a page"
      end
  end.

(** [newMultiPageEntry] *)
Definition newMultiPageEntry (now : Z) (authorPub : bytes) (pageKeys : list id.ID)
    (encMeta : enc.EncryptedMetadata) : result api.Entry.t :=
  let pageKeyBytes := map id.Bytes pageKeys in
  Ok {| api.Entry.AuthorPublicKey := authorPub;
        api.Entry.Contents :=
          api.Entry_PageKeys {| api.PageKeys.Keys := pageKeyBytes |};
        api.Entry.CreatedTime := now;
        api.Entry.MetadataCiphertext := enc.Ciphertext encMeta;
        api.Entry.MetadataCiphertextMac := enc.CiphertextMAC encMeta |}.

(** [newEntryDoc] *)
Definition newEntryDoc (now : Z) (authorPub : bytes) (pageIDs : list id.ID)
    (encMeta : enc.EncryptedMetadata) (docL : storage.DocumentLoader.t D) (d : D)
    : result api.Document.t :=
  let entry :=
    match pageIDs with
    | [pageID] => newSinglePageEntry now authorPub pageID encMeta docL d
    | _ => newMultiPageEntry now authorPub pageIDs encMeta
    end in
  match entry with
  | Err e => Err e
  | Panic m => Panic m
  | Ok entry =>
      Ok {| api.Document.Contents := Some (api.Document_Entry entry) |}
  end.

(** [entryPacker.Pack] *)
Definition Pack (p : entryPacker) (now : Z) (content : bytes) (mediaType : string)
    (keys : enc.Keys) (authorPub : bytes) (d : D)
    : result (api.Document.t * gmap string bytes) * D :=
  match print.Print (printer p) content mediaType keys authorPub d with
  | (Err e, d') => (Err e, d')
  | (Panic m, d') => (Panic m, d')
  | (Ok (pageKeys, metadata), d') =>
      match enc.Encrypt (metadataEnc p) metadata keys with
      | Err e => (Err e, d')
      | Panic m => (Panic m, d')
      | Ok encMetadata =>
          match newEntryDoc now authorPub pageKeys encMetadata (docL p) d' with
          | Ok doc => (Ok (doc, metadata), d')
          | Err e => (Err e, d')
          | Panic m => (Panic m, d')
          end
      end
  end.

End Packer.
Arguments entryPacker D : clear implicits.

Section Unpacker.
Context {D W : Type}.

(** The functions of the packages [enc] and [api] that [Unpack] calls and
    that are absent from the sources. *)
Record unpackHelpers : Type := {
  NewEncryptedMetadata : bytes -> bytes -> result enc.EncryptedMetadata;
  GetEntryPageKeys : api.Document.t -> result (list id.ID);
  GetPageDocument : api.Page.t -> result (api.Document.t * id.ID) }.

(** The struct [entryUnpacker]. *)
Record entryUnpacker : Type := {
  metadataDec : enc.MetadataDecrypter;
  scanner : print.Scanner D W }.

(** The page keys [Unpack] hands to the scanner for an entry. *)
Definition unpackPageKeys (h : unpackHelpers) (doc : api.Document.t)
    (e : api.Entry.t) : result (list id.ID) :=
  match api.Entry.Contents e with
  | api.Entry_PageKeys _ => GetEntryPageKeys h doc
  | api.Entry_Page page =>
      match GetPageDocument h page with
      | Ok (_, docKey) => Ok [docKey]
      | Err err => Err err
      | Panic m => Panic m
      end
  end.

(** [entryUnpacker.Unpack], on the state of the content writer; the type
    assertions on the contents of the document panic on a document that is
    not an entry.  The value returned last is the metadata together with the
    error of the scanner. *)
Definition Unpack (u : entryUnpacker) (h : unpackHelpers)
    (entry : option api.Document.t) (keys : enc.Keys) (d : D) (content : W)
    : result (gmap string bytes * option error) * W :=
  match entry with
  | None => (Panic nil_dereference, content)
  | Some doc =>
      match api.Document.Contents doc with
      | Some (api.Document_Entry e) =>
          match NewEncryptedMetadata h (api.Entry.MetadataCiphertext e)
                  (api.Entry.MetadataCiphertextMac e) with
          | Err err => (Err err, content)
          | Panic m => (Panic m, content)
          | Ok encMetadata =>
              match enc.Decrypt (metadataDec u) encMetadata keys with
              | Err err => (Err err, content)
              | Panic m => (Panic m, content)
              | Ok metadata =>
                  match unpackPageKeys h doc e with
                  | Err err => (Err err, content)
                  | Panic m => (Panic m, content)
                  | Ok pageKeys =>
                      let '(err, content') :=
                        print.Scan (scanner u) pageKeys keys metadata d content in
                      (Ok (metadata, err), content')
                  end
              end
          end
      | _ => (Panic "interface conversion: not a Document_Entry", content)
      end
  end.

End Unpacker.
Arguments entryUnpacker : clear implicits.

End pack.


(** * A state-and-error monad for the handlers

    A handler runs against mutable state of type [S]; it ends with a value,
    an error or a panic, and the state reached so far is kept in all three
    cases (a write made before a later error stays made). *)

Definition M (S A : Type) : Type := S -> result A * S.

Definition ret {S A} (a : A) : M S A := fun s => (Ok a, s).

Definition fail {S A} (e : error) : M S A := fun s => (Err e, s).

Definition panic {S A} (msg : string) : M S A := fun s => (Panic msg, s).

Definition bind {S A B} (m : M S A) (k : A -> M S B) : M S B :=
  fun s =>
    match m s with
    | (Ok a, s') => k a s'
    | (Err e, s') => (Err e, s')
    | (Panic msg, s') => (Panic msg, s')
    end.

Notation "'do' x <-- m ;; k" := (bind m (fun x => k))
  (at level 10, x name, m at level 99, k at level 200).
Notation "'do_' m ;; k" := (bind m (fun _ => k))
  (at level 10, m at level 99, k at level 200).

(** Reading and updating the state. *)
Definition gets {S A} (f : S -> A) : M S A := fun s => (Ok (f s), s).
Definition modify {S} (f : S -> S) : M S unit := fun s => (Ok tt, f s).

(** Running a computation on the first or second component of a pair. *)
Definition onFst {S T A} (m : M S A) : M (S * T) A :=
  fun st => let '(r, s') := m (fst st) in (r, (s', snd st)).
Definition onSnd {S T A} (m : M T A) : M (S * T) A :=
  fun st => let '(r, t') := m (snd st) in (r, (fst st, t')).

(** Lifting an [(T, error)] return and an [error] return. *)
Definition liftResult {S A} (r : result A) : M S A := fun s => (r, s).
Definition liftError {S} (e : option error) : M S unit :=
  match e with Some e => fail e | None => ret tt end.


(** * Package [server]: the librarian and its RPC handlers (server.go) *)

Module server.

(** The part of a [context.Context] the server reads: the incoming metadata
    of the call, if any. *)
Definition Context : Type := option (gmap string (list string)).

(** The [RequestVerifier] interface. *)
Record RequestVerifier : Type := {
  Verify : Context -> api.Message -> api.RequestMetadata.t -> option error }.

Module Config.
Record t : Type := {
  Search : search.Parameters.t;
  Store : store.Parameters.t }.
End Config.

(** The server end of a Subscribe stream: its context, the responses handed
    to [Send] so far, and the error (if any) with which the transport fails
    each [Send]. *)
Record Librarian_SubscribeServer : Type := {
  stream_Context : Context;
  handed : list api.SubscribeResponse.t;
  failure : option error }.

(** [from.Send(rp)] *)
Definition stream_Send (rp : api.SubscribeResponse.t) : M Librarian_SubscribeServer unit :=
  fun from =>
    let from' := {| stream_Context := stream_Context from;
                    handed := handed from ++ [rp];
                    failure := failure from |} in
    match failure from with
    | Some e => (Err e, from')
    | None => (Ok tt, from')
    end.

(** The stream of a subscription together with its [done] channel, which is
    either open or closed. *)
Record Fanout : Type := {
  from : Librarian_SubscribeServer;
  done : bool }.

(** [close(done)]: closing a closed channel panics. *)
Definition close_done : M Fanout unit :=
  fun f =>
    if done f then (Panic "close of closed channel", f)
    else (Ok tt, {| from := from f; done := true |}).

Definition onFrom {A} (m : M Librarian_SubscribeServer A) : M Fanout A :=
  fun f => let '(r, from') := m (from f) in (r, {| from := from'; done := done f |}).

Section Librarian.
Context {RT DS : Type} `{Primitives}.
Context (searchPredicates : search.Predicates).

(** The mutable state behind a librarian: the routing table, the document
    store, the outcomes recorded against peers, the queue of new publications,
    and the source of fresh response IDs with the number of IDs drawn.

    The spec keeps the query outcomes of a peer in its peer record, which
    lives in the routing table.  The table is known here through [Push],
    [Peak] and [Sample] only, so the state of the table is split in two:
    [w_rt] holds the peers of the table, without their outcome counters, and
    [w_outcomes] holds the outcomes recorded against them, oldest first. *)
Record World : Type := {
  w_rt : RT;
  w_docs : DS;
  w_outcomes : list (id.ID * peer.QueryType * peer.Outcome);
  w_newPubs : list api.Publication.t;
  w_entropy : nat -> bytes;
  w_drawn : nat }.

Definition set_rt (f : RT -> RT) (w : World) : World :=
  {| w_rt := f (w_rt w); w_docs := w_docs w; w_outcomes := w_outcomes w;
     w_newPubs := w_newPubs w; w_entropy := w_entropy w; w_drawn := w_drawn w |}.

Definition set_docs (d : DS) (w : World) : World :=
  {| w_rt := w_rt w; w_docs := d; w_outcomes := w_outcomes w;
     w_newPubs := w_newPubs w; w_entropy := w_entropy w; w_drawn := w_drawn w |}.

Definition set_outcomes (o : list (id.ID * peer.QueryType * peer.Outcome))
    (w : World) : World :=
  {| w_rt := w_rt w; w_docs := w_docs w; w_outcomes := o;
     w_newPubs := w_newPubs w; w_entropy := w_entropy w; w_drawn := w_drawn w |}.

Definition set_newPubs (q : list api.Publication.t) (w : World) : World :=
  {| w_rt := w_rt w; w_docs := w_docs w; w_outcomes := w_outcomes w;
     w_newPubs := q; w_entropy := w_entropy w; w_drawn := w_drawn w |}.

Definition set_drawn (n : nat) (w : World) : World :=
  {| w_rt := w_rt w; w_docs := w_docs w; w_outcomes := w_outcomes w;
     w_newPubs := w_newPubs w; w_entropy := w_entropy w; w_drawn := n |}.

(** The struct [Librarian]: the fields the handlers use.  The interfaces it
    holds act on the state of the [World]. *)
Record Librarian : Type := {
  selfID : id.ID;
  config : Config.t;
  apiSelf : option api.PeerAddress.t;
  searcher : search.Searcher RT;
  storer : store.Storer RT;
  subscribeFrom : subscribe.From;
  subscribeTo : subscribe.To;
  rqv : RequestVerifier;
  documentSL : storage.DocumentStorerLoader.t DS;
  kc : storage.Checker.t;
  kvc : storage.KeyValueChecker.t;
  fromer : peer.Fromer;
  rt : routing.Table.t RT }.

(** ** Helpers of the handlers that are absent from the sources *)

(** Modelled from the spec: [checkRequest] is absent from the sources;
    "verify request (§4.1)", which "returns the caller's PeerID".  The peer ID
    is derived first: the tests of the handlers expect an error, not a panic,
    from a corrupted public key on a librarian without verifier.  Missing
    metadata is a missing field, a validation error. *)
Definition checkRequest (l : Librarian) (ctx : Context) (rq : api.Message)
    (meta : option api.RequestMetadata.t) : M World id.ID :=
  match meta with
  | None => fail "request metadata is missing"
  | Some m =>
      match ecid_FromPublicKeyBytes (api.RequestMetadata.PubKey m) with
      | None => fail "public key is invalid"
      | Some requesterID =>
          match Verify (rqv l) ctx rq m with
          | Some e => fail e
          | None => ret requesterID
          end
      end
  end.

(** Modelled from the spec: "(1) verify request (§4.1); (2) apply key/value
    validity checks (§4.5)", here the key checker. *)
Definition checkRequestAndKey (l : Librarian) (ctx : Context) (rq : api.Message)
    (meta : option api.RequestMetadata.t) (key : bytes) : M World id.ID :=
  do requesterID <-- checkRequest l ctx rq meta ;;
  do_ liftError (storage.Checker.Check (kc l) key) ;;
  ret requesterID.

(** Modelled from the spec: as above, with the key/value checker. *)
Definition checkRequestAndKeyValue (l : Librarian) (ctx : Context) (rq : api.Message)
    (meta : option api.RequestMetadata.t) (key : bytes)
    (value : option api.Document.t) : M World id.ID :=
  do requesterID <-- checkRequest l ctx rq meta ;;
  do_ liftError (storage.KeyValueChecker.Check (kvc l) key value) ;;
  ret requesterID.

(** Modelled from the spec: "(3) record request outcome against the caller's
    peer record".  The outcome goes to [w_outcomes], the part of the state
    that stands for the outcome counters of the peer records; the peers of the
    table, [w_rt], are those that [Push] put there. *)
Definition record (l : Librarian) (requesterID : id.ID) (t : peer.QueryType)
    (o : peer.Outcome) : M World unit :=
  modify (fun w => set_outcomes (w_outcomes w ++ [(requesterID, t, o)]) w).

(** Modelled from the spec: "Response metadata echoes the request's request_id
    and carries a fresh server-generated 32-byte response_id". *)
Definition NewResponseMetadata (l : Librarian) (m : option api.RequestMetadata.t)
    : M World api.ResponseMetadata.t :=
  match m with
  | None => panic nil_dereference
  | Some m =>
      fun w =>
        (Ok {| api.ResponseMetadata.RequestId := api.RequestMetadata.RequestId m;
               api.ResponseMetadata.ResponseId := w_entropy w (w_drawn w) |},
         set_drawn (S (w_drawn w)) w)
  end.

(** ** Calls through the interfaces of the librarian *)

Definition rt_Push (l : Librarian) (p : peer.Peer) : M World unit :=
  modify (set_rt (routing.Table.Push (rt l) p)).

Definition rt_Peak (l : Librarian) (key : id.ID) (n : N) : M World (list peer.Peer) :=
  gets (fun w => routing.Table.Peak (rt l) key n (w_rt w)).

Definition rt_Sample (l : Librarian) (n : N) (rng : rand.Rand)
    : M World (list peer.Peer) :=
  gets (fun w => routing.Table.Sample (rt l) n rng (w_rt w)).

Fixpoint rt_PushAll (l : Librarian) (ps : list peer.Peer) : M World unit :=
  match ps with
  | [] => ret tt
  | p :: ps' => do_ rt_Push l p ;; rt_PushAll l ps'
  end.

Definition documentSL_Load (l : Librarian) (key : id.ID)
    : M World (option api.Document.t) :=
  fun w => (storage.DocumentStorerLoader.Load (documentSL l) key (w_docs w), w).

Definition documentSL_Store (l : Librarian) (key : id.ID)
    (value : option api.Document.t) : M World unit :=
  fun w =>
    let '(e, d) := storage.DocumentStorerLoader.Store (documentSL l) key value (w_docs w) in
    liftError e (set_docs d w).

Definition subscribeTo_Send (l : Librarian) (pub : option api.Publication.t)
    : M World unit :=
  fun w =>
    let '(e, q) := subscribe.Send (subscribeTo l) pub (w_newPubs w) in
    liftError e (set_newPubs q w).

(** [l.searcher.Search(s, seeds)]: the error and the updated search. *)
Definition searcher_Search (l : Librarian) (s : search.Search.t)
    (seeds : list peer.Peer) : M World search.Search.t :=
  fun w =>
    let '(e, s', t) := search.Search (searcher l) s seeds (w_rt w) in
    (do_ liftError e ;; ret s') (set_rt (fun _ => t) w).

(** [l.storer.Store(s, seeds)] *)
Definition storer_Store (l : Librarian) (s : store.Store.t)
    (seeds : list peer.Peer) : M World store.Store.t :=
  fun w =>
    let '(e, s', t) := store.Store (storer l) s seeds (w_rt w) in
    (do_ liftError e ;; ret s') (set_rt (fun _ => t) w).

(** ** The handlers *)

(** [Librarian.Ping] *)
Definition Ping (l : Librarian) (ctx : Context) (rq : api.PingRequest.t)
    : M World api.PingResponse.t :=
  ret {| api.PingResponse.Message := "pong" |}.

(** The seed of the sample of [Introduce]:
    [int64(binary.BigEndian.Uint64(rq.Metadata.RequestId[:8]))]. *)
Definition sampleSeed (requestId : bytes) : result Z :=
  match slice_to requestId 8 with
  | Ok b8 =>
      match binary.BigEndian_Uint64 b8 with
      | Ok u => Ok (int64 u)
      | Err e => Err e
      | Panic m => Panic m
      end
  | Err e => Err e
  | Panic m => Panic m
  end.

(** [Librarian.Introduce] *)
Definition Introduce (l : Librarian) (ctx : Context) (rq : api.IntroduceRequest.t)
    : M World api.IntroduceResponse.t :=
  do requesterID <-- checkRequest l ctx (api.MsgIntroduce rq)
                       (api.IntroduceRequest.Metadata rq) ;;
  let requester := peer.FromAPI (fromer l) (api.IntroduceRequest.Self rq) in
  if negb (id.Cmp (peer.ID requester) requesterID =? 0)%Z
  then fail "stated client peer ID does not match signature"
  else
    do_ record l requesterID peer.Request peer.Success ;;
    do_ rt_Push l requester ;;
    match api.IntroduceRequest.Metadata rq with
    | None => panic nil_dereference
    | Some m =>
        do seed <-- liftResult (sampleSeed (api.RequestMetadata.RequestId m)) ;;
        do peers <-- rt_Sample l (api.IntroduceRequest.NumPeers rq)
                       (rand.New (rand.NewSource seed)) ;;
        do md <-- NewResponseMetadata l (api.IntroduceRequest.Metadata rq) ;;
        ret {| api.IntroduceResponse.Metadata := md;
               api.IntroduceResponse.Self := apiSelf l;
               api.IntroduceResponse.Peers := peer.ToAPIs peers |}
    end.

(** [Librarian.Find] *)
Definition Find (l : Librarian) (ctx : Context) (rq : api.FindRequest.t)
    : M World api.FindResponse.t :=
  do requesterID <-- checkRequestAndKey l ctx (api.MsgFind rq)
                       (api.FindRequest.Metadata rq) (api.FindRequest.Key rq) ;;
  do_ record l requesterID peer.Request peer.Success ;;
  do value <-- documentSL_Load l (id.FromBytes (api.FindRequest.Key rq)) ;;
  match value with
  | Some v =>
      do md <-- NewResponseMetadata l (api.FindRequest.Metadata rq) ;;
      ret {| api.FindResponse.Metadata := md;
             api.FindResponse.Peers := [];
             api.FindResponse.Value := Some v |}
  | None =>
      let key := id.FromBytes (api.FindRequest.Key rq) in
      do closest <-- rt_Peak l key (api.FindRequest.NumPeers rq) ;;
      do md <-- NewResponseMetadata l (api.FindRequest.Metadata rq) ;;
      ret {| api.FindResponse.Metadata := md;
             api.FindResponse.Peers := peer.ToAPIs closest;
             api.FindResponse.Value := None |}
  end.

(** [Librarian.Store] *)
Definition Store (l : Librarian) (ctx : Context) (rq : api.StoreRequest.t)
    : M World api.StoreResponse.t :=
  do requesterID <-- checkRequestAndKeyValue l ctx (api.MsgStore rq)
                       (api.StoreRequest.Metadata rq) (api.StoreRequest.Key rq)
                       (api.StoreRequest.Value rq) ;;
  do_ record l requesterID peer.Request peer.Success ;;
  do_ documentSL_Store l (id.FromBytes (api.StoreRequest.Key rq))
        (api.StoreRequest.Value rq) ;;
  do_ subscribeTo_Send l
        (api.GetPublication (api.StoreRequest.Key rq) (api.StoreRequest.Value rq)) ;;
  do md <-- NewResponseMetadata l (api.StoreRequest.Metadata rq) ;;
  ret {| api.StoreResponse.Metadata := md |}.

(** [Librarian.Get] *)
Definition Get (l : Librarian) (ctx : Context) (rq : api.GetRequest.t)
    : M World api.GetResponse.t :=
  do requesterID <-- checkRequestAndKey l ctx (api.MsgGet rq)
                       (api.GetRequest.Metadata rq) (api.GetRequest.Key rq) ;;
  do_ record l requesterID peer.Request peer.Success ;;
  let key := id.FromBytes (api.GetRequest.Key rq) in
  let s := search.NewSearch (selfID l) key (Config.Search (config l)) in
  do seeds <-- rt_Peak l key
                 (search.Parameters.Concurrency (search.Search.Params s)) ;;
  do s <-- searcher_Search l s seeds ;;
  do_ rt_PushAll l (search.Result.Closest (search.Search.Result s)) ;;
  if search.FoundValue searchPredicates s then
    do md <-- NewResponseMetadata l (api.GetRequest.Metadata rq) ;;
    ret {| api.GetResponse.Metadata := md;
           api.GetResponse.Value := search.Result.Value (search.Search.Result s) |}
  else if search.FoundClosestPeers searchPredicates s then
    do md <-- NewResponseMetadata l (api.GetRequest.Metadata rq) ;;
    ret {| api.GetResponse.Metadata := md;
           api.GetResponse.Value := None |}
  else if search.Errored searchPredicates s then
    fail "search for key errored"
  else if search.Exhausted searchPredicates s then
    fail "search for key exhausted"
  else fail "unexpected search result".

(** [Librarian.Put]; the last error of the source also prints the result. *)
Definition Put (l : Librarian) (ctx : Context) (rq : api.PutRequest.t)
    : M World api.PutResponse.t :=
  do requesterID <-- checkRequestAndKeyValue l ctx (api.MsgPut rq)
                       (api.PutRequest.Metadata rq) (api.PutRequest.Key rq)
                       (api.PutRequest.Value rq) ;;
  do_ record l requesterID peer.Request peer.Success ;;
  let key := id.FromBytes (api.PutRequest.Key rq) in
  let s := store.NewStore (selfID l) key (api.PutRequest.Value rq)
             (Config.Search (config l)) (Config.Store (config l)) in
  do seeds <-- rt_Peak l key
                 (search.Parameters.Concurrency
                    (search.Search.Params (store.Store.Search s))) ;;
  do s <-- storer_Store l s seeds ;;
  do_ rt_PushAll l (store.Result.Responded (store.Store.Result s)) ;;
  if store.Stored s then
    do md <-- NewResponseMetadata l (api.PutRequest.Metadata rq) ;;
    ret {| api.PutResponse.Metadata := md;
           api.PutResponse.Operation := api.PutOperation_STORED;
           api.PutResponse.NReplicas :=
             uint32 (Z.of_nat (length (store.Result.Responded (store.Store.Result s)))) |}
  else if store.Exists s then
    do md <-- NewResponseMetadata l (api.PutRequest.Metadata rq) ;;
    ret {| api.PutResponse.Metadata := md;
           api.PutResponse.Operation := api.PutOperation_LEFT_EXISTING;
           api.PutResponse.NReplicas :=
             uint32 (Z.of_nat (length (store.Result.Responded (store.Store.Result s)))) |}
  else if store.Errored s then
    fail "received error during search or store operations"
  else if store.Exhausted s then
    fail "store for key exhausted"
  else fail "unexpected store result".

(** [Librarian.maybeSend] *)
Definition maybeSend (l : Librarian) (pub : subscribe.KeyedPub.t)
    (authorFilter readerFilter : bloom.BloomFilter)
    (responseMetadata : api.ResponseMetadata.t) : M Fanout unit :=
  if negb (bloom.Test authorFilter
             (api.Publication.AuthorPublicKey (subscribe.KeyedPub.Value pub)))
  then ret tt
  else if negb (bloom.Test readerFilter
                  (api.Publication.ReaderPublicKey (subscribe.KeyedPub.Value pub)))
  then ret tt
  else
    let rp := {| api.SubscribeResponse.Metadata := responseMetadata;
                 api.SubscribeResponse.Key := id.Bytes (subscribe.KeyedPub.Key pub);
                 api.SubscribeResponse.Value := subscribe.KeyedPub.Value pub |} in
    fun f =>
      match onFrom (stream_Send rp) f with
      | (Err err, f') =>
          match close_done f' with
          | (Ok _, f'') => (Err err, f'')
          | (Err e, f'') => (Err e, f'')
          | (Panic m, f'') => (Panic m, f'')
          end
      | other => other
      end.

(** The loop of [Subscribe] over the channel of publications. *)
Fixpoint sendEach (l : Librarian) (pubs : list subscribe.KeyedPub.t)
    (authorFilter readerFilter : bloom.BloomFilter)
    (responseMetadata : api.ResponseMetadata.t) : M Fanout unit :=
  match pubs with
  | [] => ret tt
  | pub :: pubs' =>
      do_ maybeSend l pub authorFilter readerFilter responseMetadata ;;
      sendEach l pubs' authorFilter readerFilter responseMetadata
  end.

(** [Librarian.Subscribe], on the state of the server and of the stream. *)
Definition Subscribe (l : Librarian) (rq : api.SubscribeRequest.t)
    : M (World * Fanout) unit :=
  do ctx <-- onSnd (gets (fun f => stream_Context (from f))) ;;
  do _requesterID <-- onFst (checkRequest l ctx (api.MsgSubscribe rq)
                               (api.SubscribeRequest.Metadata rq)) ;;
  match api.SubscribeRequest.Subscription rq with
  | None => panic nil_dereference
  | Some sub =>
      do authorFilter <--
        liftResult (subscribe.FromAPI (api.Subscription.AuthorPublicKeys sub)) ;;
      do readerFilter <--
        liftResult (subscribe.FromAPI (api.Subscription.ReaderPublicKeys sub)) ;;
      do new <-- liftResult (subscribe.New (subscribeFrom l)) ;;
      let '(pubs, isClosed) := new in
      do_ onSnd (modify (fun f => {| from := from f; done := isClosed |})) ;;
      do responseMetadata <--
        onFst (NewResponseMetadata l (api.SubscribeRequest.Metadata rq)) ;;
      do_ onSnd (sendEach l pubs authorFilter readerFilter responseMetadata) ;;
      onSnd (fun f => if done f then (Ok tt, f) else close_done f)
  end.

End Librarian.

Arguments World : clear implicits.
Arguments Librarian : clear implicits.

End server.


(** * Fixed implementations of the interfaces

    The doubles of the repository's tests (server_test.go), and small
    implementations of the remaining interfaces, on which the handlers can be
    run. *)

Module fixed.

(** [alwaysRequestVerifier] "just blindly verifies every request". *)
Definition alwaysRequestVerifier : server.RequestVerifier :=
  {| server.Verify := fun _ _ _ => None |}.

(** [neverRequestVerifier] rejects every request. *)
Definition neverRequestVerifier : server.RequestVerifier :=
  {| server.Verify := fun _ _ _ => Some "some verify error" |}.

(** [errDocStorerLoader] *)
Definition errDocStorerLoader {D} : storage.DocumentStorerLoader.t D :=
  {| storage.DocumentStorerLoader.Store := fun _ _ d => (Some "some store error", d);
     storage.DocumentStorerLoader.Load := fun _ _ => Err "some load error" |}.

(** A document store kept in a finite map. *)
Definition mapDocStorerLoader : storage.DocumentStorerLoader.t (gmap N api.Document.t) :=
  {| storage.DocumentStorerLoader.Store := fun key value d =>
       match value with
       | Some v => (None, <[key := v]> d)
       | None => (Some "value is missing", d)
       end;
     storage.DocumentStorerLoader.Load := fun key d => Ok (d !! key) |}.

Definition mapDocLoader : storage.DocumentLoader.t (gmap N api.Document.t) :=
  {| storage.DocumentLoader.Load := fun key d => Ok (d !! key) |}.

(** [fixedSearcher] *)
Definition fixedSearcher {RT} (res : search.Result.t) (err : option error)
    : search.Searcher RT :=
  {| search.Search := fun s seeds t =>
       match err with
       | Some e => (Some e, s, t)
       | None =>
           (None,
            {| search.Search.Key := search.Search.Key s;
               search.Search.Result := res;
               search.Search.Params := search.Search.Params s |}, t)
       end |}.

(** [fixedStorer] *)
Definition fixedStorer {RT} (res : store.Result.t) (err : option error)
    : store.Storer RT :=
  {| store.Store := fun s seeds t =>
       match err with
       | Some e => (Some e, s, t)
       | None =>
           (None,
            {| store.Store.Search := store.Store.Search s;
               store.Store.Value := store.Store.Value s;
               store.Store.Result := res;
               store.Store.Params := store.Store.Params s |}, t)
       end |}.

(** [fixedFrom] and [fixedTo] *)
Definition fixedFrom (new : list subscribe.KeyedPub.t) (isClosed : bool)
    (err : option error) : subscribe.From :=
  {| subscribe.New :=
       match err with Some e => Err e | None => Ok (new, isClosed) end |}.

Definition fixedTo (sendErr : option error) : subscribe.To :=
  {| subscribe.Send := fun pub q =>
       match sendErr, pub with
       | Some e, _ => (Some e, q)
       | None, Some p => (None, (q ++ [p])%list)
       | None, None => (None, q)
       end |}.

(** A routing table kept as the list of its active peers, least recently
    pushed first. *)
Definition listTable : routing.Table.t (list peer.Peer) :=
  {| routing.Table.Push := fun p ps =>
       (filter (fun q => peer.ID q <> peer.ID p) ps ++ [p])%list;
     routing.Table.Peak := fun key n ps => routing.closest key n ps;
     routing.Table.Sample := fun n rng ps =>
       match rng with
       | rand.New (rand.NewSource seed) =>
           take (N.to_nat n) (rotate (Z.to_nat (seed mod 7)) ps)
       end |}.

(** Stand-ins for the primitives: the "hash" pads or cuts its input to 32
    bytes, a document is "marshalled" to the entry key, key or ciphertext it
    carries, every non-empty byte string is a public key, and a filter is
    encoded by the one string it holds. *)
Definition padTo32 (b : bytes) : bytes := take 32 (b ++ replicate 32 "000"%byte).

Definition marshalStub (d : api.Document.t) : bytes :=
  match api.Document.Contents d with
  | Some (api.Document_Envelope e) => api.Envelope.EntryKey e
  | Some (api.Document_Entry e) => api.Entry.MetadataCiphertext e
  | Some (api.Document_Page p) => api.Page.Ciphertext p
  | None => []
  end.

Definition primitives : Primitives :=
  {| sha256 := padTo32;
     proto_Marshal := marshalStub;
     ecid_FromPublicKeyBytes := fun b =>
       match b with [] => None | _ => Some (id.FromBytes b) end;
     bloom_GobDecode := fun b =>
       Some {| bloom.Test := fun x => bool_decide (x = b) |} |}.

(** Predicates of a search that agree with the results the tests build. *)
Definition predicates : search.Predicates :=
  {| search.FoundValue := fun s =>
       bool_decide (is_Some (search.Result.Value (search.Search.Result s)));
     search.FoundClosestPeers := fun s =>
       bool_decide (search.Parameters.NClosestResponses (search.Search.Params s)
                    <= N.of_nat (length (search.Result.Closest (search.Search.Result s))))%N;
     search.Errored := fun s =>
       bool_decide (is_Some (search.Result.FatalErr (search.Search.Result s)));
     search.Exhausted := fun s =>
       bool_decide (search.Result.Unqueried (search.Search.Result s) = []) |}.

Definition searchParameters : search.Parameters.t :=
  {| search.Parameters.NClosestResponses := 2%N;
     search.Parameters.NMaxErrors := 3%N;
     search.Parameters.Concurrency := 3%N |}.

Definition storeParameters : store.Parameters.t :=
  {| store.Parameters.NReplicas := 2%N;
     store.Parameters.NMaxErrors := 3%N;
     store.Parameters.Concurrency := 3%N |}.

Definition testPeer (n : N) : peer.Peer :=
  {| peer.ID := n; peer.Name := "peer"; peer.Ip := "192.168.1.1"; peer.Port := (11000 + n)%N |}.

(** A librarian over the list table and the map store, with given verifier,
    searcher and storer. *)
Definition newTestLibrarian (v : server.RequestVerifier)
    (se : search.Searcher (list peer.Peer)) (st : store.Storer (list peer.Peer))
    : server.Librarian (list peer.Peer) (gmap N api.Document.t) :=
  {| server.selfID := 1000%N;
     server.config := {| server.Config.Search := searchParameters;
                         server.Config.Store := storeParameters |};
     server.apiSelf := Some (peer.ToAPI (testPeer 1000%N));
     server.searcher := se;
     server.storer := st;
     server.subscribeFrom := fixedFrom [] false None;
     server.subscribeTo := fixedTo None;
     server.rqv := v;
     server.documentSL := mapDocStorerLoader;
     server.kc := storage.NewExactLengthChecker storage.EntriesKeyLength;
     server.kvc := @storage.NewHashKeyValueChecker primitives;
     server.fromer := peer.NewFromer;
     server.rt := listTable |}.

Definition newTestWorld (ps : list peer.Peer) (docs : gmap N api.Document.t)
    : server.World (list peer.Peer) (gmap N api.Document.t) :=
  {| server.w_rt := ps;
     server.w_docs := docs;
     server.w_outcomes := [];
     server.w_newPubs := [];
     server.w_entropy := fun n => id.Bytes (N.of_nat n);
     server.w_drawn := 0 |}.

End fixed.


(** * Package [author]: helpers (helpers.go) *)

Module author.

Section HealthClients.
Context {Addr Conn Client : Type}.

(** What [getLibrarianHealthClients] takes from libraries: the string of a
    TCP address, [grpc.Dial] (insecure) and the constructor of a health
    client on a connection. *)
Variable addrString : Addr -> string.
Variable grpc_Dial : string -> result Conn.
Variable NewHealthClient : Conn -> Client.

(** The loop of [getLibrarianHealthClients] over the addresses left. *)
Fixpoint dialEach (librarianAddrs : list Addr) (healthClients : gmap string Client)
    : result (gmap string Client) :=
  match librarianAddrs with
  | [] => Ok healthClients
  | librarianAddr :: rest =>
      let addrStr := addrString librarianAddr in
      match grpc_Dial addrStr with
      | Err e => Err e
      | Panic m => Panic m
      | Ok conn => dialEach rest (<[addrStr := NewHealthClient conn]> healthClients)
      end
  end.

(** [getLibrarianHealthClients] *)
Definition getLibrarianHealthClients (librarianAddrs : list Addr)
    : result (gmap string Client) :=
  dialEach librarianAddrs ∅.

End HealthClients.

End author.

(** * Observers used in the statements *)

(** A printer files its pages: after a print, every page key it returns
    loads a page document. *)
Definition printerFilesPages {D} (p : pack.entryPacker D) : Prop :=
  forall content mediaType keys authorPub d pageKeys metadata d',
    print.Print (pack.printer p) content mediaType keys authorPub d
      = (Ok (pageKeys, metadata), d') ->
    forall pageKey, pageKey ∈ pageKeys ->
      exists page,
        storage.DocumentLoader.Load (pack.docL p) pageKey d'
        = Ok (Some {| api.Document.Contents := Some (api.Document_Page page) |}).

(** The table after the peers of a list are pushed, first to last. *)
Definition pushedAll {RT} (T : routing.Table.t RT) (ps : list peer.Peer) (t : RT) : RT :=
  fold_left (fun t p => routing.Table.Push T p t) ps t.

(** A storer/loader loads what it has stored: after a store of [v] under a
    key that reports no error, a load of the key yields [v]. *)
Definition loadsWhatItStores {D} (SL : storage.DocumentStorerLoader.t D) : Prop :=
  forall key v d d',
    storage.DocumentStorerLoader.Store SL key (Some v) d = (None, d') ->
    storage.DocumentStorerLoader.Load SL key d' = Ok (Some v).

(** The index a seed key stands for, if the string is a seed key. *)
Definition seedIndex (k : string) : option nat :=
  match k with
  | String a (String b (String c (String d rest))) =>
      if bool_decide ((String a (String b (String c (String d EmptyString)))) = "seed")
      then Nat.of_uint <$> DecimalString.NilEmpty.uint_of_string rest
      else None
  | _ => None
  end.


(** The page keys of an entry document, if it lists page keys. *)
Definition pageKeysOf (doc : api.Document.t) : option (list bytes) :=
  match api.Document.Contents doc with
  | Some (api.Document_Entry e) =>
      match api.Entry.Contents e with
      | api.Entry_PageKeys ks => Some (api.PageKeys.Keys ks)
      | api.Entry_Page _ => None
      end
  | _ => None
  end.

(** The page inlined in an entry document, if it inlines one. *)
Definition inlinedPageOf (doc : api.Document.t) : option api.Page.t :=
  match api.Document.Contents doc with
  | Some (api.Document_Entry e) =>
      match api.Entry.Contents e with
      | api.Entry_Page p => Some p
      | api.Entry_PageKeys _ => None
      end
  | _ => None
  end.

(** The first address of a list whose map key is [k]. *)
Definition firstWithKey (k : string) (peers : list api.PeerAddress.t)
    : option api.PeerAddress.t :=
  List.find (fun pa => bool_decide (introduce.idStr pa = k)) peers.

(** Sample data for running the response processor. *)
Definition sampleAddress (n : N) : api.PeerAddress.t := peer.ToAPI (fixed.testPeer n).

Definition sampleIntroduceResponse : api.IntroduceResponse.t :=
  {| api.IntroduceResponse.Metadata :=
       {| api.ResponseMetadata.RequestId := []; api.ResponseMetadata.ResponseId := [] |};
     api.IntroduceResponse.Self := Some (sampleAddress 1%N);
     api.IntroduceResponse.Peers :=
       [sampleAddress 2; sampleAddress 1; sampleAddress 3; sampleAddress 2;
        sampleAddress 4] |}.

Definition sampleIntroduceResult : introduce.Result.t :=
  {| introduce.Result.Unqueried :=
       {[ introduce.idStr (sampleAddress 3) :=
            {| peer.ID := 3%N; peer.Name := "known"; peer.Ip := "10.0.0.3";
               peer.Port := 9%N |} ]};
     introduce.Result.Responded :=
       {[ introduce.idStr (sampleAddress 4) := fixed.testPeer 4 ]};
     introduce.Result.NErrors := 0%N;
     introduce.Result.FatalErr := None |}.

(** A peer with the peer ID of the address [pa] is filed in the map [m],
    under whatever key. *)
Definition holdsPeerID (m : gmap string peer.Peer) (pa : api.PeerAddress.t) : Prop :=
  exists k p, m !! k = Some p /\ peer.ID p = id.FromBytes (api.PeerAddress.PeerId pa).

(** The peer of the address [pa] is filed in [m'] under a key that [m] does
    not have. *)
Definition addedTo (irp : introduce.responseProcessor) (m m' : gmap string peer.Peer)
    (pa : api.PeerAddress.t) : Prop :=
  exists k, m !! k = None
            /\ m' !! k = Some (peer.FromAPI (introduce.fromer irp) pa).

(** Membership decided by peer ID: an address of the response is added to
    [Unqueried] if and only if no peer with its ID is in [Responded], the
    responder included, or in [Unqueried]. *)
Definition addsUnknownPeerIDsOnly (irp : introduce.responseProcessor) : Prop :=
  forall (rp : api.IntroduceResponse.t) (res res' : introduce.Result.t) pa,
    introduce.Process irp rp res = Ok res' ->
    pa ∈ api.IntroduceResponse.Peers rp ->
    addedTo irp (introduce.Result.Unqueried res) (introduce.Result.Unqueried res') pa
    <-> ~ holdsPeerID (introduce.Result.Responded res') pa
        /\ ~ holdsPeerID (introduce.Result.Unqueried res) pa.

(** The result of an introduction in which nothing has happened yet, and the
    result [Introduce] starts its workers with when peer 2 is its only seed. *)
Definition emptyIntroduceResult : introduce.Result.t :=
  {| introduce.Result.Unqueried := ∅;
     introduce.Result.Responded := ∅;
     introduce.Result.NErrors := 0%N;
     introduce.Result.FatalErr := None |}.

Definition seededIntroduceResult : introduce.Result.t :=
  introduce.seedUnqueried [fixed.testPeer 2] emptyIntroduceResult.

(** Peer 1 answers and lists peer 2. *)
Definition seedIntroduceResponse : api.IntroduceResponse.t :=
  {| api.IntroduceResponse.Metadata :=
       {| api.ResponseMetadata.RequestId := []; api.ResponseMetadata.ResponseId := [] |};
     api.IntroduceResponse.Self := Some (sampleAddress 1%N);
     api.IntroduceResponse.Peers := [sampleAddress 2] |}.

(** The response [maybeSend] hands to the stream for a publication. *)
Definition responseFor (responseMetadata : api.ResponseMetadata.t)
    (pub : subscribe.KeyedPub.t) : api.SubscribeResponse.t :=
  {| api.SubscribeResponse.Metadata := responseMetadata;
     api.SubscribeResponse.Key := id.Bytes (subscribe.KeyedPub.Key pub);
     api.SubscribeResponse.Value := subscribe.KeyedPub.Value pub |}.

(** Both filters of a subscription test positive on a publication. *)
Definition bothPositive (authorFilter readerFilter : bloom.BloomFilter)
    (pub : subscribe.KeyedPub.t) : bool :=
  bloom.Test authorFilter (api.Publication.AuthorPublicKey (subscribe.KeyedPub.Value pub))
  && bloom.Test readerFilter (api.Publication.ReaderPublicKey (subscribe.KeyedPub.Value pub)).

(** A stream after [rp] was handed to its [Send]. *)
Definition afterSend (rp : api.SubscribeResponse.t) (from : server.Librarian_SubscribeServer)
    : server.Librarian_SubscribeServer :=
  {| server.stream_Context := server.stream_Context from;
     server.handed := server.handed from ++ [rp];
     server.failure := server.failure from |}.

(** The request does not pass the verifier of the librarian: the verifier
    rejects its metadata or, when the request carries none, every metadata. *)
Definition rejected {RT DS} (l : server.Librarian RT DS) (ctx : server.Context)
    (msg : api.Message) (meta : option api.RequestMetadata.t) : Prop :=
  match meta with
  | Some m => server.Verify (server.rqv l) ctx msg m <> None
  | None => forall m, server.Verify (server.rqv l) ctx msg m <> None
  end.

(** A handler verifies first: on a request that does not pass the verifier it
    returns an error and leaves the state as it found it. *)
Definition verifiesFirst {RT DS S Rq Rp} (msg : Rq -> api.Message)
    (meta : Rq -> option api.RequestMetadata.t)
    (handler : server.Librarian RT DS -> server.Context -> Rq -> M S Rp) : Prop :=
  forall l ctx rq s,
    rejected l ctx (msg rq) (meta rq) ->
    exists e, handler l ctx rq s = (Err e, s).

(** The Subscribe handler verifies first; the context of the call is that of
    its stream. *)
Definition subscribeVerifiesFirst (RT DS : Type) `{Primitives} : Prop :=
  forall (l : server.Librarian RT DS) rq (w : server.World RT DS) (f : server.Fanout),
    rejected l (server.stream_Context (server.from f)) (api.MsgSubscribe rq)
      (api.SubscribeRequest.Metadata rq) ->
    exists e, server.Subscribe l rq (w, f) = (Err e, (w, f)).

(** The six handlers other than Ping verify first. *)
Definition handlersButPingVerifyFirst (RT DS : Type) `{Primitives}
    (searchPredicates : search.Predicates) : Prop :=
  verifiesFirst (RT:=RT) (DS:=DS) (S:=server.World RT DS)
    api.MsgIntroduce api.IntroduceRequest.Metadata server.Introduce
  /\ verifiesFirst (RT:=RT) (DS:=DS) (S:=server.World RT DS)
       api.MsgFind api.FindRequest.Metadata server.Find
  /\ verifiesFirst (RT:=RT) (DS:=DS) (S:=server.World RT DS)
       api.MsgStore api.StoreRequest.Metadata server.Store
  /\ verifiesFirst (RT:=RT) (DS:=DS) (S:=server.World RT DS)
       api.MsgGet api.GetRequest.Metadata (server.Get searchPredicates)
  /\ verifiesFirst (RT:=RT) (DS:=DS) (S:=server.World RT DS)
       api.MsgPut api.PutRequest.Metadata server.Put
  /\ subscribeVerifiesFirst RT DS.

(** Every handler, Ping included, verifies first; a Ping request carries no
    metadata. *)
Definition everyHandlerVerifiesFirst (RT DS : Type) `{Primitives}
    (searchPredicates : search.Predicates) : Prop :=
  verifiesFirst (RT:=RT) (DS:=DS) (S:=server.World RT DS)
    api.MsgPing (fun _ => None) server.Ping
  /\ handlersButPingVerifyFirst RT DS searchPredicates.

(** Sample data for running the handlers: a librarian that accepts every
    request and one that rejects every request, a table of four peers, a page
    document with its content address under the stand-in hash, and requests
    from peer 5. *)
Definition sampleDocument : api.Document.t :=
  {| api.Document.Contents := Some (api.Document_Page
       {| api.Page.AuthorPublicKey := [Byte.x0a]; api.Page.Index := 0%N;
          api.Page.Ciphertext := [Byte.x01; Byte.x02]; api.Page.CiphertextMac := [] |}) |}.

Definition sampleKey : bytes := fixed.padTo32 [Byte.x01; Byte.x02].

Definition zeroKey : bytes := replicate 32 Byte.x00.

Definition sampleMetadata (tail : byte) : api.RequestMetadata.t :=
  {| api.RequestMetadata.RequestId :=
       [Byte.x00; Byte.x00; Byte.x00; Byte.x00; Byte.x00; Byte.x00; Byte.x00; Byte.x03]
       ++ replicate 24 tail;
     api.RequestMetadata.PubKey := id.Bytes 5%N |}.

Definition sampleSearchResult (value : option api.Document.t) (closest : list peer.Peer)
    : search.Result.t :=
  {| search.Result.Value := value;
     search.Result.Closest := closest;
     search.Result.Unqueried := [];
     search.Result.Responded := ∅;
     search.Result.NErrors := 0%N;
     search.Result.FatalErr := None |}.

Definition sampleStoreResult (responded : list peer.Peer) : store.Result.t :=
  {| store.Result.Unqueried := [];
     store.Result.Responded := responded;
     store.Result.Search := search.NewInitialResult (id.FromBytes sampleKey)
                              fixed.searchParameters;
     store.Result.NErrors := 0%N;
     store.Result.FatalErr := None |}.

Definition sampleLibrarian (res : search.Result.t) (stored : store.Result.t)
    : server.Librarian (list peer.Peer) (gmap N api.Document.t) :=
  fixed.newTestLibrarian fixed.alwaysRequestVerifier
    (fixed.fixedSearcher res None) (fixed.fixedStorer stored None).

Definition rejectingLibrarian
    : server.Librarian (list peer.Peer) (gmap N api.Document.t) :=
  fixed.newTestLibrarian fixed.neverRequestVerifier
    (fixed.fixedSearcher (sampleSearchResult None []) None)
    (fixed.fixedStorer (sampleStoreResult []) None).

Definition samplePeers : list peer.Peer := map fixed.testPeer [1; 4; 7; 12]%N.

Definition sampleWorld (docs : gmap N api.Document.t)
    : server.World (list peer.Peer) (gmap N api.Document.t) :=
  fixed.newTestWorld samplePeers docs.

Definition sampleFindRequest : api.FindRequest.t :=
  {| api.FindRequest.Metadata := Some (sampleMetadata Byte.x00);
     api.FindRequest.Key := sampleKey;
     api.FindRequest.NumPeers := 2%N |}.

Definition sampleStoreRequest (key : bytes) : api.StoreRequest.t :=
  {| api.StoreRequest.Metadata := Some (sampleMetadata Byte.x00);
     api.StoreRequest.Key := key;
     api.StoreRequest.Value := Some sampleDocument |}.

Definition sampleGetRequest : api.GetRequest.t :=
  {| api.GetRequest.Metadata := Some (sampleMetadata Byte.x00);
     api.GetRequest.Key := sampleKey |}.

Definition samplePutRequest : api.PutRequest.t :=
  {| api.PutRequest.Metadata := Some (sampleMetadata Byte.x00);
     api.PutRequest.Key := sampleKey;
     api.PutRequest.Value := Some sampleDocument |}.

Definition sampleIntroduceRequest (tail : byte) : api.IntroduceRequest.t :=
  {| api.IntroduceRequest.Metadata := Some (sampleMetadata tail);
     api.IntroduceRequest.Self := sampleAddress 5%N;
     api.IntroduceRequest.NumPeers := 3%N |}.

(** The value of a result, or a default. *)
Definition okOr {A} (d : A) (r : result A) : A :=
  match r with Ok a => a | _ => d end.

Definition noIntroduceResponse : api.IntroduceResponse.t :=
  {| api.IntroduceResponse.Metadata :=
       {| api.ResponseMetadata.RequestId := []; api.ResponseMetadata.ResponseId := [] |};
     api.IntroduceResponse.Self := None;
     api.IntroduceResponse.Peers := [] |}.


(** A printer that files one page, the page of the sample document, under
    key 5, and a packer around it on the map store. *)
Definition onePagePrinter : print.Printer (gmap N api.Document.t) :=
  {| print.Print := fun content mediaType keys authorPub d =>
       (Ok ([5%N], {[ "media_type" := [Byte.x01] ]}), <[5%N := sampleDocument]> d) |}.

Definition onePagePacker : pack.entryPacker (gmap N api.Document.t) :=
  {| pack.metadataEnc :=
       {| enc.Encrypt := fun metadata keys =>
            Ok {| enc.Ciphertext := [Byte.x0c]; enc.CiphertextMAC := [Byte.x0d] |} |};
     pack.printer := onePagePrinter;
     pack.docL := fixed.mapDocLoader |}.

Definition sampleKeys : enc.Keys :=
  {| enc.AESKey := []; enc.PageIVSeed := []; enc.HMACKey := []; enc.MetadataIV := [] |}.

(** The accepting sample librarian with another storer/loader and another
    sender of publications. *)
Definition librarianWith (sl : storage.DocumentStorerLoader.t (gmap N api.Document.t))
    (to : subscribe.To) (from : subscribe.From)
    : server.Librarian (list peer.Peer) (gmap N api.Document.t) :=
  {| server.selfID := 1000%N;
     server.config := {| server.Config.Search := fixed.searchParameters;
                         server.Config.Store := fixed.storeParameters |};
     server.apiSelf := Some (peer.ToAPI (fixed.testPeer 1000%N));
     server.searcher := fixed.fixedSearcher (sampleSearchResult None []) None;
     server.storer := fixed.fixedStorer (sampleStoreResult []) None;
     server.subscribeFrom := from;
     server.subscribeTo := to;
     server.rqv := fixed.alwaysRequestVerifier;
     server.documentSL := sl;
     server.kc := storage.NewExactLengthChecker storage.EntriesKeyLength;
     server.kvc := @storage.NewHashKeyValueChecker fixed.primitives;
     server.fromer := peer.NewFromer;
     server.rt := fixed.listTable |}.

(** Sample publications, a subscription to author 10 and reader 11, and a
    stream that has handed nothing yet. *)
Definition samplePub (key : N) (author reader : byte) : subscribe.KeyedPub.t :=
  {| subscribe.KeyedPub.Key := key;
     subscribe.KeyedPub.Value :=
       {| api.Publication.EnvelopeKey := id.Bytes key;
          api.Publication.EntryKey := [];
          api.Publication.AuthorPublicKey := [author];
          api.Publication.ReaderPublicKey := [reader] |} |}.

Definition samplePubs : list subscribe.KeyedPub.t :=
  [samplePub 1 Byte.x0a Byte.x0b; samplePub 2 Byte.x0a Byte.x0c;
   samplePub 3 Byte.x0d Byte.x0b; samplePub 4 Byte.x0a Byte.x0b].

Definition sampleSubscribeRequest : api.SubscribeRequest.t :=
  {| api.SubscribeRequest.Metadata := Some (sampleMetadata Byte.x00);
     api.SubscribeRequest.Subscription :=
       Some {| api.Subscription.AuthorPublicKeys :=
                 {| api.BloomFilter.Encoded := Some [Byte.x0a] |};
               api.Subscription.ReaderPublicKeys :=
                 {| api.BloomFilter.Encoded := Some [Byte.x0b] |} |} |}.

Definition sampleFilter (b : bytes) : bloom.BloomFilter :=
  {| bloom.Test := fun x => bool_decide (x = b) |}.

Definition sampleStream (failure : option error) (done : bool) : server.Fanout :=
  {| server.from := {| server.stream_Context := None; server.handed := [];
                       server.failure := failure |};
     server.done := done |}.

(** The last part of the mapping of Get with a NotFound status: whenever the
    search of a checked Get has not found the value and is errored or
    exhausted, the handler returns an error whose gRPC code is [NotFound]. *)
Definition unfoundGetsNotFound {RT DS : Type} `{Primitives}
    (searchPredicates : search.Predicates) (l : server.Librarian RT DS) : Prop :=
  forall ctx (rq : api.GetRequest.t) w requesterID s t,
    server.checkRequestAndKey l ctx (api.MsgGet rq) (api.GetRequest.Metadata rq)
      (api.GetRequest.Key rq) w = (Ok requesterID, w) ->
    search.Search (server.searcher l)
      (search.NewSearch (server.selfID l) (id.FromBytes (api.GetRequest.Key rq))
         (server.Config.Search (server.config l)))
      (routing.Table.Peak (server.rt l) (id.FromBytes (api.GetRequest.Key rq))
         (search.Parameters.Concurrency (server.Config.Search (server.config l)))
         (server.w_rt w))
      (server.w_rt w) = (None, s, t) ->
    search.FoundValue searchPredicates s = false ->
    search.Errored searchPredicates s = true
    \/ search.Exhausted searchPredicates s = true ->
    exists e, fst (server.Get searchPredicates l ctx rq w) = Err e
              /\ status.Code (Some e) = codes.NotFound.

(** The result of a search that met a fatal error after peers 4 and 7, as
    many as the closest responses asked for, had answered. *)
Definition erroredSearchResult : search.Result.t :=
  {| search.Result.Value := None;
     search.Result.Closest := map fixed.testPeer [4; 7]%N;
     search.Result.Unqueried := [];
     search.Result.Responded := ∅;
     search.Result.NErrors := 0%N;
     search.Result.FatalErr := Some "some fatal error" |}.

(** The sampled peers of Introduce as a function of the request ID, the
    number of peers and the routing table the request is processed against:
    two successful requests that agree on the three get the same peers. *)
Definition sampleDeterminedByRequestIdAndTable {RT DS : Type} `{Primitives}
    (l : server.Librarian RT DS) : Prop :=
  forall ctx1 ctx2 (rq1 rq2 : api.IntroduceRequest.t) w1 w2 m1 m2 rp1 rp2 w1' w2',
    api.IntroduceRequest.Metadata rq1 = Some m1 ->
    api.IntroduceRequest.Metadata rq2 = Some m2 ->
    api.RequestMetadata.RequestId m1 = api.RequestMetadata.RequestId m2 ->
    api.IntroduceRequest.NumPeers rq1 = api.IntroduceRequest.NumPeers rq2 ->
    server.w_rt w1 = server.w_rt w2 ->
    server.Introduce l ctx1 rq1 w1 = (Ok rp1, w1') ->
    server.Introduce l ctx2 rq2 w2 = (Ok rp2, w2') ->
    api.IntroduceResponse.Peers rp1 = api.IntroduceResponse.Peers rp2.

(** The Introduce request of peer [n], with the request ID of the sample
    metadata. *)
Definition introduceRequestFrom (n : N) : api.IntroduceRequest.t :=
  {| api.IntroduceRequest.Metadata :=
       Some {| api.RequestMetadata.RequestId :=
                 api.RequestMetadata.RequestId (sampleMetadata Byte.x00);
               api.RequestMetadata.PubKey := id.Bytes n |};
     api.IntroduceRequest.Self := sampleAddress n;
     api.IntroduceRequest.NumPeers := 3%N |}.

(** Another document than the sample document. *)
Definition otherDocument : api.Document.t :=
  {| api.Document.Contents := Some (api.Document_Page
       {| api.Page.AuthorPublicKey := [Byte.x0a]; api.Page.Index := 1%N;
          api.Page.Ciphertext := [Byte.x03]; api.Page.CiphertextMac := [] |}) |}.

(** * Properties *)

(** ** Big-endian bytes *)

Lemma FromBytes_snoc (b : bytes) (x : byte) :
  id.FromBytes (b ++ [x]) = (id.FromBytes b * 256 + Byte.to_N x)%N.
Proof. unfold id.FromBytes. by rewrite fold_left_app. Qed.

Lemma to_N_byte_of_N (x : N) : Byte.to_N (id.byte_of_N x) = (x mod 256)%N.
Proof.
  unfold id.byte_of_N.
  pose proof (Byte.to_of_N_option_map (x mod 256)) as Hmap.
  assert (Hlt : (x mod 256 < 256)%N) by (apply N.mod_lt; lia).
  destruct (N.leb_spec (x mod 256) 255) as [_|Hgt]; [|lia].
  destruct (Byte.of_N (x mod 256)) as [y|]; simpl in *; congruence.
Qed.

Lemma length_big_endian (n : nat) (x : N) : length (id.big_endian n x) = n.
Proof.
  revert x. induction n as [|n IH]; intros x; simpl; [done|].
  rewrite length_app, IH. simpl. lia.
Qed.

Lemma FromBytes_big_endian (n : nat) (x : N) :
  id.FromBytes (id.big_endian n x) = (x mod 256 ^ N.of_nat n)%N.
Proof.
  revert x. induction n as [|n IH]; intros x.
  - simpl. by rewrite N.mod_1_r.
  - cbn [id.big_endian]. rewrite FromBytes_snoc, IH, to_N_byte_of_N.
    rewrite Nat2N.inj_succ, N.pow_succ_r by lia.
    rewrite (N.Div0.mod_mul_r x 256 (256 ^ N.of_nat n)). lia.
Qed.

(** [Bytes] loses nothing of a 256-bit ID. *)
Lemma FromBytes_Bytes (x : id.ID) :
  (x < 2 ^ 256)%N -> id.FromBytes (id.Bytes x) = x.
Proof.
  intros Hx. unfold id.Bytes. rewrite FromBytes_big_endian.
  apply N.mod_small. unfold id.Length.
  replace (256 ^ N.of_nat 32)%N with (2 ^ 256)%N by reflexivity. exact Hx.
Qed.

Lemma map_FromBytes_Bytes (xs : list id.ID) :
  Forall (fun x => (x < 2 ^ 256)%N) xs ->
  map id.FromBytes (map id.Bytes xs) = xs.
Proof.
  induction 1 as [|x xs Hx _ IH]; simpl; [done|].
  by rewrite FromBytes_Bytes, IH.
Qed.

(** ** The key-value store wrapper *)

(** C10. [Get] on a nil [RocksDB] pointer, and on one whose [rdb] handle is
    nil, returns an error for every key and does not panic; [Put] and
    [Delete] have no such guard and panic on the nil pointer. *)
Theorem RocksDB_Get_guards_nil (key value : bytes)
    (ro : option db.gorocksdb_ReadOptions) (wo : option db.gorocksdb_WriteOptions) :
  db.Get None key = Err "RocksDB struct is nil!"
  /\ db.Get (Some {| db.rdb := None; db.ro := ro; db.wo := wo |}) key
     = Err "rdb is nil!"
  /\ db.Put None key value = Panic nil_dereference
  /\ db.Delete None key = Panic nil_dereference.
Proof. repeat split. Qed.

(** On a handle that is set, [Get] is the read of the engine. *)
Lemma RocksDB_Get_set (s : db.RocksDB) (h : db.gorocksdb_DB) (key : bytes) :
  db.rdb s = Some h ->
  db.Get (Some s) key = db.gorocksdb_GetBytes (Some h) (db.ro s) key.
Proof. intros Hh. unfold db.Get. by rewrite Hh. Qed.

(** ** The entry packer *)

Section PackerProperties.
Context {D : Type}.
Implicit Types (docL : storage.DocumentLoader.t D) (d : D).

Lemma newEntryDoc_single now authorPub pageID encMeta docL d page :
  storage.DocumentLoader.Load docL pageID d
    = Ok (Some {| api.Document.Contents := Some (api.Document_Page page) |}) ->
  pack.newEntryDoc now authorPub [pageID] encMeta docL d
  = Ok {| api.Document.Contents := Some (api.Document_Entry
            {| api.Entry.AuthorPublicKey := authorPub;
               api.Entry.Contents := api.Entry_Page page;
               api.Entry.CreatedTime := now;
               api.Entry.MetadataCiphertext := enc.Ciphertext encMeta;
               api.Entry.MetadataCiphertextMac := enc.CiphertextMAC encMeta |}) |}.
Proof.
  intros Hload. unfold pack.newEntryDoc, pack.newSinglePageEntry.
  by rewrite Hload.
Qed.

Lemma newEntryDoc_multi now authorPub pageIDs encMeta docL d :
  length pageIDs <> 1%nat ->
  pack.newEntryDoc now authorPub pageIDs encMeta docL d
  = Ok {| api.Document.Contents := Some (api.Document_Entry
            {| api.Entry.AuthorPublicKey := authorPub;
               api.Entry.Contents :=
                 api.Entry_PageKeys {| api.PageKeys.Keys := map id.Bytes pageIDs |};
               api.Entry.CreatedTime := now;
               api.Entry.MetadataCiphertext := enc.Ciphertext encMeta;
               api.Entry.MetadataCiphertextMac := enc.CiphertextMAC encMeta |}) |}.
Proof.
  intros Hlen. unfold pack.newEntryDoc.
  destruct pageIDs as [|p [|q rest]]; simpl in *; done.
Qed.

(** C9. When [newEntryDoc] assembles an entry from a list of page IDs: with
    exactly one page ID, whose page the document store loads, the entry
    inlines that page; with any other number of page IDs the entry carries
    the list of page keys, one per page ID and in the order of the page IDs
    (the k-th key is the 32 bytes of the k-th ID, from which the IDs are read
    back). *)
Theorem newEntryDoc_inlines_one_page_else_lists_keys
    now authorPub (pageIDs : list id.ID) encMeta docL d :
  (forall pageID page,
      pageIDs = [pageID] ->
      storage.DocumentLoader.Load docL pageID d
        = Ok (Some {| api.Document.Contents := Some (api.Document_Page page) |}) ->
      exists doc,
        pack.newEntryDoc now authorPub pageIDs encMeta docL d = Ok doc
        /\ inlinedPageOf doc = Some page
        /\ pageKeysOf doc = None)
  /\ (length pageIDs <> 1%nat ->
      exists doc,
        pack.newEntryDoc now authorPub pageIDs encMeta docL d = Ok doc
        /\ inlinedPageOf doc = None
        /\ pageKeysOf doc = Some (map id.Bytes pageIDs)
        /\ (Forall (fun x => (x < 2 ^ 256)%N) pageIDs ->
            map id.FromBytes (map id.Bytes pageIDs) = pageIDs)).
Proof.
  split.
  - intros pageID page -> Hload.
    eexists. split; [by apply newEntryDoc_single|]. done.
  - intros Hlen. eexists. split; [by apply newEntryDoc_multi|].
    repeat split. apply map_FromBytes_Bytes.
Qed.

End PackerProperties.

(** A witness of the above on a map store: one page ID inlines the stored
    page, two page IDs are listed in order. *)
Lemma newEntryDoc_inlines_one_page_else_lists_keys_witness :
  let page := {| api.Page.AuthorPublicKey := []; api.Page.Index := 0%N;
                 api.Page.Ciphertext := [Byte.x01]; api.Page.CiphertextMac := [] |} in
  let d : gmap N api.Document.t :=
    {[ 5%N := {| api.Document.Contents := Some (api.Document_Page page) |} ]} in
  let encMeta := {| enc.Ciphertext := []; enc.CiphertextMAC := [] |} in
  (exists doc,
      pack.newEntryDoc 0 [] [5%N] encMeta fixed.mapDocLoader d = Ok doc
      /\ inlinedPageOf doc = Some page /\ pageKeysOf doc = None)
  /\ (exists doc,
      pack.newEntryDoc 0 [] [7%N; 5%N] encMeta fixed.mapDocLoader d = Ok doc
      /\ inlinedPageOf doc = None
      /\ pageKeysOf doc = Some (map id.Bytes [7%N; 5%N])
      /\ (Forall (fun x => (x < 2 ^ 256)%N) [7%N; 5%N] ->
          map id.FromBytes (map id.Bytes [7%N; 5%N]) = [7%N; 5%N])).
Proof.
  intros page d encMeta. split.
  - apply (proj1 (newEntryDoc_inlines_one_page_else_lists_keys
                    0 [] [5%N] encMeta fixed.mapDocLoader d) 5%N page);
      reflexivity.
  - apply (proj2 (newEntryDoc_inlines_one_page_else_lists_keys
                    0 [] [7%N; 5%N] encMeta fixed.mapDocLoader d)).
    simpl. lia.
Defined.

(** ** The response processor of the introduction iterator *)

(** The map key of an address is the string of its peer ID and of nothing
    else: two addresses have the same key exactly when they have the same
    peer ID. *)
Lemma idStr_eq_iff (pa pb : api.PeerAddress.t) :
  introduce.idStr pa = introduce.idStr pb
  <-> id.FromBytes (api.PeerAddress.PeerId pa) = id.FromBytes (api.PeerAddress.PeerId pb).
Proof.
  unfold introduce.idStr, id.String. split; [|by intros ->].
  intros Heq. apply (f_equal HexString.to_N) in Heq.
  by rewrite !HexString.to_N_of_N in Heq.
Qed.

(** The key of an address is never one of the temporary keys of the seeds. *)
Lemma idStr_not_seedIDStr (pa : api.PeerAddress.t) (i : nat) :
  introduce.idStr pa <> introduce.seedIDStr i.
Proof.
  unfold introduce.idStr, id.String, introduce.seedIDStr, HexString.of_N.
  destruct (id.FromBytes _); discriminate.
Qed.

Section ProcessProperties.
Variable irp : introduce.responseProcessor.
Implicit Types (responded unqueried : gmap string peer.Peer).
Implicit Types (peers : list api.PeerAddress.t) (k : string).

Local Abbreviation fromAPI := (peer.FromAPI (introduce.fromer irp)).

(** One round of the loop: the address is added exactly when its key is in
    neither map. *)
Lemma addDiscovered_lookup responded unqueried pa k :
  introduce.addDiscovered irp responded unqueried pa !! k
  = match unqueried !! k, responded !! k with
    | Some p, _ => Some p
    | None, Some _ => None
    | None, None => if bool_decide (introduce.idStr pa = k) then Some (fromAPI pa) else None
    end.
Proof.
  unfold introduce.addDiscovered.
  destruct (decide (introduce.idStr pa = k)) as [<-|Hne].
  - rewrite (bool_decide_eq_true_2 (introduce.idStr pa = introduce.idStr pa)) by done.
    destruct (unqueried !! introduce.idStr pa) as [p|] eqn:Hu;
      destruct (responded !! introduce.idStr pa) as [q|] eqn:Hr; cbn;
      rewrite ?lookup_insert_eq, ?Hu; done.
  - rewrite (bool_decide_eq_false_2 (introduce.idStr pa = k)) by done.
    transitivity (unqueried !! k).
    + case_match; [by rewrite lookup_insert_ne|done].
    + destruct (unqueried !! k), (responded !! k); done.
Qed.

(** The whole loop: a key already unqueried keeps its peer, a key that
    responded is not added, and any other key gets the first address of the
    response that carries it. *)
Lemma fold_addDiscovered_lookup responded peers unqueried k :
  fold_left (introduce.addDiscovered irp responded) peers unqueried !! k
  = match unqueried !! k, responded !! k with
    | Some p, _ => Some p
    | None, Some _ => None
    | None, None => fromAPI <$> firstWithKey k peers
    end.
Proof.
  revert unqueried. induction peers as [|pa peers IH]; intros unqueried.
  - simpl. destruct (unqueried !! k), (responded !! k); done.
  - cbn [fold_left]. rewrite IH, addDiscovered_lookup.
    unfold firstWithKey. cbn [List.find].
    destruct (unqueried !! k), (responded !! k); try done.
    destruct (bool_decide (introduce.idStr pa = k)); done.
Qed.

Lemma firstWithKey_elem_of pa peers :
  pa ∈ peers -> is_Some (firstWithKey (introduce.idStr pa) peers).
Proof.
  induction 1 as [pa peers|pa pb peers _ IH]; unfold firstWithKey; cbn [List.find].
  - rewrite bool_decide_eq_true_2 by done. eauto.
  - destruct (bool_decide (introduce.idStr pb = introduce.idStr pa)); eauto.
Qed.

(** C7. Processing an introduce response (whose [Self] is set) inserts the
    responder into [Responded]; a key is in [Unqueried] afterwards with the
    peer it had before if it had one, is absent if it was absent and is in
    [Responded], and otherwise holds the first address of [rp.Peers] with that
    key: so each address of [rp.Peers] is added if and only if its key was in
    neither map, known peers stay as they are, and nothing else changes.  The
    key of an address is the string of its peer ID: two addresses have the
    same key exactly when they have the same peer ID, and no address has the
    temporary key of a seed, so that a peer waiting under such a key is not
    recognised. *)
Theorem Process_adds_responder_and_new_peers
    (rp : api.IntroduceResponse.t) (res : introduce.Result.t)
    (self : api.PeerAddress.t) :
  api.IntroduceResponse.Self rp = Some self ->
  exists res',
    introduce.Process irp rp res = Ok res'
    /\ introduce.Result.Responded res'
       = <[introduce.idStr self := fromAPI self]> (introduce.Result.Responded res)
    /\ (forall k,
          introduce.Result.Unqueried res' !! k
          = match introduce.Result.Unqueried res !! k,
                  introduce.Result.Responded res' !! k with
            | Some p, _ => Some p
            | None, Some _ => None
            | None, None => fromAPI <$> firstWithKey k (api.IntroduceResponse.Peers rp)
            end)
    /\ (forall pa, pa ∈ api.IntroduceResponse.Peers rp ->
          (introduce.Result.Unqueried res !! introduce.idStr pa = None
           /\ is_Some (introduce.Result.Unqueried res' !! introduce.idStr pa))
          <->
          (introduce.Result.Unqueried res !! introduce.idStr pa = None
           /\ introduce.Result.Responded res' !! introduce.idStr pa = None))
    /\ introduce.Result.NErrors res' = introduce.Result.NErrors res
    /\ introduce.Result.FatalErr res' = introduce.Result.FatalErr res
    /\ (forall pa pb,
          introduce.idStr pa = introduce.idStr pb
          <-> id.FromBytes (api.PeerAddress.PeerId pa)
              = id.FromBytes (api.PeerAddress.PeerId pb))
    /\ (forall pa i, introduce.idStr pa <> introduce.seedIDStr i).
Proof.
  intros Hself. unfold introduce.Process. rewrite Hself.
  eexists. split; [reflexivity|]. cbn [introduce.Result.Responded
    introduce.Result.Unqueried introduce.Result.NErrors introduce.Result.FatalErr].
  split; [done|]. split; [intros k; apply fold_addDiscovered_lookup|].
  split; [|split; [done|split; [done|split;
    [apply idStr_eq_iff|apply idStr_not_seedIDStr]]]].
  intros pa Hpa. rewrite fold_addDiscovered_lookup.
  destruct (introduce.Result.Unqueried res !! introduce.idStr pa) as [p|] eqn:Hu.
  { split; intros [? _]; done. }
  destruct (<[_ := _]> _ !! introduce.idStr pa) as [q|] eqn:Hr.
  - split; intros [_ Hx]; [destruct Hx|]; done.
  - split; intros _; (split; [done|]); [done|].
    destruct (firstWithKey_elem_of pa _ Hpa) as [x ->]. simpl. eauto.
Qed.

End ProcessProperties.

(** A run of the processor: peer 1 responds and lists peers 2, 1, 3, 2, 4,
    where 3 is already unqueried and 4 has already responded; only peer 2 is
    added, once, and peer 3 keeps the record it had. *)
Example Process_sample :
  match introduce.Process (introduce.NewResponseProcessor peer.NewFromer)
          sampleIntroduceResponse sampleIntroduceResult with
  | Ok res' =>
      map fst (map_to_list (introduce.Result.Responded res'))
        ≡ₚ [introduce.idStr (sampleAddress 1); introduce.idStr (sampleAddress 4)]
      /\ introduce.Result.Unqueried res' !! introduce.idStr (sampleAddress 2)
         = Some (fixed.testPeer 2)
      /\ introduce.Result.Unqueried res' !! introduce.idStr (sampleAddress 3)
         = Some {| peer.ID := 3%N; peer.Name := "known"; peer.Ip := "10.0.0.3";
                   peer.Port := 9%N |}
      /\ introduce.Result.Unqueried res' !! introduce.idStr (sampleAddress 1) = None
      /\ introduce.Result.Unqueried res' !! introduce.idStr (sampleAddress 4) = None
      /\ size (introduce.Result.Unqueried res') = 2%nat
  | _ => False
  end.
Proof. vm_compute. repeat split; reflexivity. Qed.

Lemma Process_adds_responder_and_new_peers_witness :
  exists res',
    introduce.Process (introduce.NewResponseProcessor peer.NewFromer)
      sampleIntroduceResponse sampleIntroduceResult = Ok res'
    /\ introduce.Result.Responded res'
       = <[introduce.idStr (sampleAddress 1) := peer.FromAPI peer.NewFromer (sampleAddress 1)]>
           (introduce.Result.Responded sampleIntroduceResult)
    /\ (forall k,
          introduce.Result.Unqueried res' !! k
          = match introduce.Result.Unqueried sampleIntroduceResult !! k,
                  introduce.Result.Responded res' !! k with
            | Some p, _ => Some p
            | None, Some _ => None
            | None, None =>
                peer.FromAPI peer.NewFromer
                  <$> firstWithKey k (api.IntroduceResponse.Peers sampleIntroduceResponse)
            end)
    /\ (forall pa, pa ∈ api.IntroduceResponse.Peers sampleIntroduceResponse ->
          (introduce.Result.Unqueried sampleIntroduceResult !! introduce.idStr pa = None
           /\ is_Some (introduce.Result.Unqueried res' !! introduce.idStr pa))
          <->
          (introduce.Result.Unqueried sampleIntroduceResult !! introduce.idStr pa = None
           /\ introduce.Result.Responded res' !! introduce.idStr pa = None))
    /\ introduce.Result.NErrors res' = introduce.Result.NErrors sampleIntroduceResult
    /\ introduce.Result.FatalErr res' = introduce.Result.FatalErr sampleIntroduceResult
    /\ (forall pa pb,
          introduce.idStr pa = introduce.idStr pb
          <-> id.FromBytes (api.PeerAddress.PeerId pa)
              = id.FromBytes (api.PeerAddress.PeerId pb))
    /\ (forall pa i, introduce.idStr pa <> introduce.seedIDStr i).
Proof.
  apply (Process_adds_responder_and_new_peers
           (introduce.NewResponseProcessor peer.NewFromer)
           sampleIntroduceResponse sampleIntroduceResult (sampleAddress 1)).
  reflexivity.
Defined.

(** C7 as stated does not hold: membership is not decided by peer ID.
    [Introduce] files its seeds under the temporary keys seed00, seed01, ...;
    when peer 2 waits under seed00 and peer 1 lists it in its response,
    [Process] files peer 2 a second time, under the string of its ID. *)
Lemma Process_adds_a_seeded_peer_again :
  ~ addsUnknownPeerIDsOnly (introduce.NewResponseProcessor peer.NewFromer).
Proof.
  intros Hclaim.
  destruct (introduce.Process (introduce.NewResponseProcessor peer.NewFromer)
              seedIntroduceResponse seededIntroduceResult) as [res'|e|m] eqn:Hp;
    [|vm_compute in Hp; discriminate..].
  destruct (proj1 (Hclaim seedIntroduceResponse seededIntroduceResult res'
                     (sampleAddress 2) Hp ltac:(by apply list_elem_of_singleton)))
    as [_ Hunknown].
  - exists (introduce.idStr (sampleAddress 2)).
    injection Hp as <-. split; vm_compute; reflexivity.
  - apply Hunknown. exists (introduce.seedIDStr 0), (fixed.testPeer 2).
    split; vm_compute; reflexivity.
Qed.

(** The two entries of peer 2 after that run. *)
Example Process_seeded_peer_twice :
  (fun res' => (peer.ID <$> introduce.Result.Unqueried res' !! "seed00",
                peer.ID <$> introduce.Result.Unqueried res'
                              !! introduce.idStr (sampleAddress 2)))
    <$> introduce.Process (introduce.NewResponseProcessor peer.NewFromer)
          seedIntroduceResponse seededIntroduceResult
  = Ok (Some 2%N, Some 2%N).
Proof. vm_compute. reflexivity. Qed.

(** ** The monad of the handlers *)

Lemma bind_Ok {S A B} (m : M S A) (k : A -> M S B) s a s' :
  m s = (Ok a, s') -> bind m k s = k a s'.
Proof. intros Hm. unfold bind. by rewrite Hm. Qed.

Lemma bind_Err {S A B} (m : M S A) (k : A -> M S B) s e s' :
  m s = (Err e, s') -> bind m k s = (Err e, s').
Proof. intros Hm. unfold bind. by rewrite Hm. Qed.

Lemma bind_Panic {S A B} (m : M S A) (k : A -> M S B) s msg s' :
  m s = (Panic msg, s') -> bind m k s = (Panic msg, s').
Proof. intros Hm. unfold bind. by rewrite Hm. Qed.

Lemma onFst_Err {S T A} (m : M S A) (st : S * T) e :
  m (fst st) = (Err e, fst st) -> onFst m st = (Err e, st).
Proof. intros Hm. unfold onFst. rewrite Hm. by destruct st. Qed.

(** ** The Subscribe stream *)

Section SubscribeProperties.
Context {RT DS : Type}.
Variable l : server.Librarian RT DS.

(** [maybeSend], case by case. *)
Lemma maybeSend_unfold pub authorFilter readerFilter responseMetadata (f : server.Fanout) :
  server.maybeSend l pub authorFilter readerFilter responseMetadata f
  = if bothPositive authorFilter readerFilter pub then
      let from' := afterSend (responseFor responseMetadata pub) (server.from f) in
      match server.failure (server.from f) with
      | None => (Ok tt, {| server.from := from'; server.done := server.done f |})
      | Some e =>
          if server.done f
          then (Panic "close of closed channel",
                {| server.from := from'; server.done := true |})
          else (Err e, {| server.from := from'; server.done := true |})
      end
    else (Ok tt, f).
Proof.
  unfold server.maybeSend, bothPositive.
  destruct (bloom.Test authorFilter _); [|done].
  destruct (bloom.Test readerFilter _); [|done].
  cbn [negb andb]. unfold server.onFrom, server.stream_Send, server.close_done.
  fold (responseFor responseMetadata pub).
  fold (afterSend (responseFor responseMetadata pub) (server.from f)).
  destruct f as [fr dn]. cbn [server.from server.done].
  destruct (server.failure fr); [|done].
  cbn [server.from server.done]. by destruct dn.
Qed.

(** C8. In the Subscribe handler a publication is handed to the stream of the
    subscriber if and only if its author key tests positive in the author
    filter and its reader key tests positive in the reader filter; when either
    test is negative [maybeSend] returns no error and leaves the stream and
    the [done] channel as they were. *)
Theorem maybeSend_sends_iff_both_filters_positive
    pub authorFilter readerFilter responseMetadata (f : server.Fanout) :
  let out := server.maybeSend l pub authorFilter readerFilter responseMetadata f in
  let author := api.Publication.AuthorPublicKey (subscribe.KeyedPub.Value pub) in
  let reader := api.Publication.ReaderPublicKey (subscribe.KeyedPub.Value pub) in
  (server.handed (server.from (snd out))
     = server.handed (server.from f) ++ [responseFor responseMetadata pub]
   <-> bloom.Test authorFilter author = true /\ bloom.Test readerFilter reader = true)
  /\ (server.handed (server.from (snd out)) = server.handed (server.from f)
      /\ out = (Ok tt, f)
      <-> ~ (bloom.Test authorFilter author = true /\ bloom.Test readerFilter reader = true)).
Proof.
  intros out author reader. subst out.
  rewrite maybeSend_unfold. unfold bothPositive. fold author reader.
  assert (Hgrow : forall (xs : list api.SubscribeResponse.t) x, xs ++ [x] <> xs).
  { intros xs x Heq. apply (f_equal length) in Heq.
    rewrite length_app in Heq. simpl in Heq. lia. }
  destruct (bloom.Test authorFilter author), (bloom.Test readerFilter reader);
    cbn [andb].
  - split.
    + split; [done|]. intros _.
      destruct (server.failure (server.from f)); [destruct (server.done f)|]; done.
    + split; [|intros Hn; destruct Hn; done].
      intros [Hsame _]. exfalso.
      destruct (server.failure (server.from f)); [destruct (server.done f)|];
        cbn in Hsame; by apply Hgrow in Hsame.
  - split.
    + split; [|intros [_ ?]; done]. intros Heq. cbn in Heq.
      symmetry in Heq. by apply Hgrow in Heq.
    + split; [intros _ [_ ?]; done|done].
  - split.
    + split; [|intros [? _]; done]. intros Heq. cbn in Heq.
      symmetry in Heq. by apply Hgrow in Heq.
    + split; [intros _ [? _]; done|done].
  - split.
    + split; [|intros [? _]; done]. intros Heq. cbn in Heq.
      symmetry in Heq. by apply Hgrow in Heq.
    + split; [intros _ [? _]; done|done].
Qed.

End SubscribeProperties.

(** ** Request checks *)

Section CheckProperties.
Context {RT DS : Type} `{Primitives}.
Implicit Types (l : server.Librarian RT DS) (w : server.World RT DS).

(** The checks read the request and never touch the state. *)
Lemma checkRequest_state l ctx msg meta w :
  snd (server.checkRequest l ctx msg meta w) = w.
Proof.
  unfold server.checkRequest.
  destruct meta as [m|]; [|done].
  destruct (ecid_FromPublicKeyBytes _); [|done].
  by destruct (server.Verify _ _ _ _).
Qed.

(** A request passes [checkRequest] exactly when it carries metadata whose
    public key yields the requester's ID and which the verifier accepts. *)
Lemma checkRequest_Ok l ctx msg meta w requesterID w' :
  server.checkRequest l ctx msg meta w = (Ok requesterID, w') <->
  w' = w /\ exists m,
    meta = Some m
    /\ ecid_FromPublicKeyBytes (api.RequestMetadata.PubKey m) = Some requesterID
    /\ server.Verify (server.rqv l) ctx msg m = None.
Proof.
  unfold server.checkRequest. split.
  - destruct meta as [m|]; [|done].
    destruct (ecid_FromPublicKeyBytes _) as [i|] eqn:Hid; [|done].
    destruct (server.Verify _ _ _ _) eqn:Hv; [done|].
    unfold ret. intros [= -> ->]. eauto 6.
  - intros [-> (m & -> & Hid & Hv)]. by rewrite Hid, Hv.
Qed.

(** A request that does not pass the verifier fails [checkRequest] with an
    error. *)
Lemma checkRequest_rejected l ctx msg meta w :
  rejected l ctx msg meta ->
  exists e, server.checkRequest l ctx msg meta w = (Err e, w).
Proof.
  unfold rejected, server.checkRequest. intros Hrej.
  destruct meta as [m|]; [|by eexists].
  destruct (ecid_FromPublicKeyBytes _); [|by eexists].
  destruct (server.Verify _ _ _ _) as [e|]; [by eexists|done].
Qed.

Lemma checkRequestAndKey_rejected l ctx msg meta key w :
  rejected l ctx msg meta ->
  exists e, server.checkRequestAndKey l ctx msg meta key w = (Err e, w).
Proof.
  intros Hrej. destruct (checkRequest_rejected l ctx msg meta w Hrej) as [e He].
  exists e. unfold server.checkRequestAndKey. by apply bind_Err.
Qed.

Lemma checkRequestAndKeyValue_rejected l ctx msg meta key value w :
  rejected l ctx msg meta ->
  exists e, server.checkRequestAndKeyValue l ctx msg meta key value w = (Err e, w).
Proof.
  intros Hrej. destruct (checkRequest_rejected l ctx msg meta w Hrej) as [e He].
  exists e. unfold server.checkRequestAndKeyValue. by apply bind_Err.
Qed.

(** [checkRequestAndKey] and [checkRequestAndKeyValue] end in a value or an
    error, and leave the state alone. *)
Lemma checkRequestAndKey_cases l ctx msg meta key w :
  (exists requesterID,
      server.checkRequestAndKey l ctx msg meta key w = (Ok requesterID, w)
      /\ server.checkRequest l ctx msg meta w = (Ok requesterID, w)
      /\ storage.Checker.Check (server.kc l) key = None)
  \/ (exists e, server.checkRequestAndKey l ctx msg meta key w = (Err e, w)).
Proof.
  unfold server.checkRequestAndKey, bind.
  pose proof (checkRequest_state l ctx msg meta w) as Hst.
  destruct (server.checkRequest l ctx msg meta w) as [[i|e|msg'] w'] eqn:Hc;
    simpl in Hst; subst w'.
  - destruct (storage.Checker.Check _ _) as [e|]; cbn; eauto 6.
  - eauto.
  - exfalso. unfold server.checkRequest in Hc.
    destruct meta; [|done]. destruct (ecid_FromPublicKeyBytes _); [|done].
    by destruct (server.Verify _ _ _ _).
Qed.

Lemma checkRequestAndKeyValue_cases l ctx msg meta key value w :
  (exists requesterID,
      server.checkRequestAndKeyValue l ctx msg meta key value w = (Ok requesterID, w)
      /\ server.checkRequest l ctx msg meta w = (Ok requesterID, w)
      /\ storage.KeyValueChecker.Check (server.kvc l) key value = None)
  \/ (exists e, server.checkRequestAndKeyValue l ctx msg meta key value w = (Err e, w)).
Proof.
  unfold server.checkRequestAndKeyValue, bind.
  pose proof (checkRequest_state l ctx msg meta w) as Hst.
  destruct (server.checkRequest l ctx msg meta w) as [[i|e|msg'] w'] eqn:Hc;
    simpl in Hst; subst w'.
  - destruct (storage.KeyValueChecker.Check _ _ _) as [e|]; cbn; eauto 6.
  - eauto.
  - exfalso. unfold server.checkRequest in Hc.
    destruct meta; [|done]. destruct (ecid_FromPublicKeyBytes _); [|done].
    by destruct (server.Verify _ _ _ _).
Qed.

(** The hash checker accepts a key and a value only if the key is the hash
    of the marshalled value. *)
Lemma NewHashKeyValueChecker_accepts key value :
  storage.KeyValueChecker.Check storage.NewHashKeyValueChecker key value = None ->
  length key = storage.EntriesKeyLength /\ storage.hash_matches key value = true.
Proof.
  cbn. destruct (decide (length key = storage.EntriesKeyLength)); [|done].
  destruct value as [v|]; [|done].
  destruct (storage.hash_matches key (Some v)); done.
Qed.

(** ** The Store handler *)

(** C1. A Store request whose value does not hash to its key (the key is not
    the SHA-256 of the serialized value) is answered with an error, and the
    state of the server, the document store included, is what it was: the
    key/value check comes before the write, which is not made. *)
Theorem Store_hash_mismatch_persists_nothing l ctx (rq : api.StoreRequest.t) w :
  server.kvc l = storage.NewHashKeyValueChecker ->
  storage.hash_matches (api.StoreRequest.Key rq) (api.StoreRequest.Value rq) = false ->
  exists e,
    server.Store l ctx rq w = (Err e, w)
    /\ server.w_docs (snd (server.Store l ctx rq w)) = server.w_docs w.
Proof.
  intros Hkvc Hmis.
  destruct (checkRequestAndKeyValue_cases l ctx (api.MsgStore rq)
              (api.StoreRequest.Metadata rq) (api.StoreRequest.Key rq)
              (api.StoreRequest.Value rq) w) as [(i & _ & _ & Hok)|[e He]].
  - rewrite Hkvc in Hok. apply NewHashKeyValueChecker_accepts in Hok.
    destruct Hok as [_ Hok]. congruence.
  - exists e. unfold server.Store. rewrite (bind_Err _ _ _ _ _ He). done.
Qed.

End CheckProperties.

(** ** The closest peers of a table *)

Section ClosestProperties.
Variable key : id.ID.

#[local] Instance closer_Total : Total (routing.closer key).
Proof. intros p q. unfold routing.closer. lia. Qed.

#[local] Instance closer_Transitive : Transitive (routing.closer key).
Proof. intros p q r. unfold routing.closer. lia. Qed.

Lemma closest_split (n : N) (ps : list peer.Peer) :
  exists rest,
    routing.closest key n ps ++ rest ≡ₚ ps
    /\ StronglySorted (routing.closer key) (routing.closest key n ps ++ rest).
Proof.
  exists (drop (N.to_nat n) (merge_sort (routing.closer key) ps)).
  unfold routing.closest. rewrite take_drop. split.
  - apply merge_sort_Permutation.
  - apply StronglySorted_merge_sort; apply _.
Qed.

Lemma closest_length (n : N) (ps : list peer.Peer) :
  length (routing.closest key n ps) = min (N.to_nat n) (length ps).
Proof.
  unfold routing.closest. rewrite length_take.
  by rewrite (Permutation_length (merge_sort_Permutation _ ps)).
Qed.

Lemma closest_sorted (n : N) (ps : list peer.Peer) :
  StronglySorted (routing.closer key) (routing.closest key n ps).
Proof.
  destruct (closest_split n ps) as (rest & _ & Hs).
  by apply StronglySorted_app_1_l in Hs.
Qed.

Lemma closest_elem_of (n : N) (ps : list peer.Peer) (p : peer.Peer) :
  p ∈ routing.closest key n ps -> p ∈ ps.
Proof.
  destruct (closest_split n ps) as (rest & Hperm & _).
  intros Hp. rewrite <- Hperm. apply elem_of_app. by left.
Qed.

(** Every peer left out is at least as far from the key as every peer
    returned. *)
Lemma closest_nearest (n : N) (ps : list peer.Peer) (p q : peer.Peer) :
  p ∈ routing.closest key n ps -> q ∈ ps -> q ∉ routing.closest key n ps ->
  routing.closer key p q.
Proof.
  destruct (closest_split n ps) as (rest & Hperm & Hs).
  intros Hp Hq Hnq. rewrite <- Hperm in Hq.
  apply elem_of_app in Hq as [Hq|Hq]; [done|].
  by apply (StronglySorted_app_1_elem_of _ _ _ _ _ Hs).
Qed.

End ClosestProperties.

Example closest_sample :
  map peer.ID (routing.closest 5%N 2%N (map fixed.testPeer [1; 4; 7; 12]%N)) = [4; 7]%N.
Proof. reflexivity. Qed.

(** ** The handlers *)

Section HandlerProperties.
Context {RT DS : Type} `{Primitives}.
Variable searchPredicates : search.Predicates.
Implicit Types (l : server.Librarian RT DS) (w : server.World RT DS).

(** The state once the outcome of a request is recorded. *)
Local Abbreviation recorded requesterID w :=
  (server.set_outcomes
     (server.w_outcomes w ++ [(requesterID, peer.Request, peer.Success)]) w).

Lemma NewResponseMetadata_Some l m w :
  server.NewResponseMetadata l (Some m) w
  = (Ok {| api.ResponseMetadata.RequestId := api.RequestMetadata.RequestId m;
           api.ResponseMetadata.ResponseId := server.w_entropy w (server.w_drawn w) |},
     server.set_drawn (S (server.w_drawn w)) w).
Proof. reflexivity. Qed.

Lemma checkRequestAndKey_Ok l ctx msg meta key w requesterID w' :
  server.checkRequestAndKey l ctx msg meta key w = (Ok requesterID, w') ->
  w' = w /\ exists m, meta = Some m.
Proof.
  intros Hc.
  destruct (checkRequestAndKey_cases l ctx msg meta key w)
    as [(i & Hk & Hr & _)|[e He]]; [|congruence].
  rewrite Hk in Hc. injection Hc as -> ->.
  apply checkRequest_Ok in Hr as [_ (m & -> & _)]. eauto.
Qed.

Lemma checkRequestAndKeyValue_Ok l ctx msg meta key value w requesterID w' :
  server.checkRequestAndKeyValue l ctx msg meta key value w = (Ok requesterID, w') ->
  w' = w /\ exists m, meta = Some m.
Proof.
  intros Hc.
  destruct (checkRequestAndKeyValue_cases l ctx msg meta key value w)
    as [(i & Hk & Hr & _)|[e He]]; [|congruence].
  rewrite Hk in Hc. injection Hc as -> ->.
  apply checkRequest_Ok in Hr as [_ (m & -> & _)]. eauto.
Qed.

(** The calls through the interfaces, run on a state. *)
Lemma record_run l requesterID w :
  server.record l requesterID peer.Request peer.Success w
  = (Ok tt, recorded requesterID w).
Proof. reflexivity. Qed.

Lemma rt_Peak_run l key n w :
  server.rt_Peak l key n w = (Ok (routing.Table.Peak (server.rt l) key n (server.w_rt w)), w).
Proof. reflexivity. Qed.

Lemma rt_Push_run l p w :
  server.rt_Push l p w = (Ok tt, server.set_rt (routing.Table.Push (server.rt l) p) w).
Proof. reflexivity. Qed.

Lemma rt_Sample_run l n rng w :
  server.rt_Sample l n rng w
  = (Ok (routing.Table.Sample (server.rt l) n rng (server.w_rt w)), w).
Proof. reflexivity. Qed.

Lemma searcher_Search_run l s0 seeds w err s t :
  search.Search (server.searcher l) s0 seeds (server.w_rt w) = (err, s, t) ->
  server.searcher_Search l s0 seeds w
  = (match err with Some e => Err e | None => Ok s end,
     server.set_rt (fun _ => t) w).
Proof.
  intros Hs. unfold server.searcher_Search. rewrite Hs. by destruct err.
Qed.

Lemma storer_Store_run l s0 seeds w err s t :
  store.Store (server.storer l) s0 seeds (server.w_rt w) = (err, s, t) ->
  server.storer_Store l s0 seeds w
  = (match err with Some e => Err e | None => Ok s end,
     server.set_rt (fun _ => t) w).
Proof.
  intros Hs. unfold server.storer_Store. rewrite Hs. by destruct err.
Qed.

(** *** Find *)

(** [Find] once the checks have passed. *)
Lemma Find_checked l ctx (rq : api.FindRequest.t) w requesterID m :
  server.checkRequestAndKey l ctx (api.MsgFind rq) (api.FindRequest.Metadata rq)
    (api.FindRequest.Key rq) w = (Ok requesterID, w) ->
  api.FindRequest.Metadata rq = Some m ->
  server.Find l ctx rq w
  = let key := id.FromBytes (api.FindRequest.Key rq) in
    let md := {| api.ResponseMetadata.RequestId := api.RequestMetadata.RequestId m;
                 api.ResponseMetadata.ResponseId := server.w_entropy w (server.w_drawn w) |} in
    let w' := server.set_drawn (S (server.w_drawn w)) (recorded requesterID w) in
    match storage.DocumentStorerLoader.Load (server.documentSL l) key (server.w_docs w) with
    | Ok (Some v) =>
        (Ok {| api.FindResponse.Metadata := md;
               api.FindResponse.Peers := [];
               api.FindResponse.Value := Some v |}, w')
    | Ok None =>
        (Ok {| api.FindResponse.Metadata := md;
               api.FindResponse.Peers :=
                 peer.ToAPIs (routing.Table.Peak (server.rt l) key
                                (api.FindRequest.NumPeers rq) (server.w_rt w));
               api.FindResponse.Value := None |}, w')
    | Err e => (Err e, recorded requesterID w)
    | Panic msg => (Panic msg, recorded requesterID w)
    end.
Proof.
  intros Hc Hm. unfold server.Find. rewrite (bind_Ok _ _ _ _ _ Hc), Hm.
  unfold bind, server.record, modify, server.documentSL_Load. cbn.
  destruct (storage.DocumentStorerLoader.Load _ _ _) as [[v|]|e|msg]; done.
Qed.

(** C2. A Find request that passes the request and key checks is answered,
    when the document store loads a value for the key, with that value and no
    peers; and, when the store holds none, with no value and no error but
    with the peers [Peak] returns for the key and [num_peers]: at most
    [num_peers] active peers of the table, in ascending XOR distance from the
    key, none farther than an active peer that is left out. *)
Theorem Find_returns_value_or_closest_peers
    l ctx (rq : api.FindRequest.t) w requesterID (active : RT -> list peer.Peer) :
  server.checkRequestAndKey l ctx (api.MsgFind rq) (api.FindRequest.Metadata rq)
    (api.FindRequest.Key rq) w = (Ok requesterID, w) ->
  routing.PeakSpec (server.rt l) active ->
  let key := id.FromBytes (api.FindRequest.Key rq) in
  let loaded := storage.DocumentStorerLoader.Load (server.documentSL l) key (server.w_docs w) in
  (forall v, loaded = Ok (Some v) ->
     exists rp w',
       server.Find l ctx rq w = (Ok rp, w')
       /\ api.FindResponse.Value rp = Some v
       /\ api.FindResponse.Peers rp = [])
  /\ (loaded = Ok None ->
     exists rp w' ps,
       server.Find l ctx rq w = (Ok rp, w')
       /\ api.FindResponse.Value rp = None
       /\ api.FindResponse.Peers rp = peer.ToAPIs ps
       /\ ps = routing.Table.Peak (server.rt l) key (api.FindRequest.NumPeers rq)
                 (server.w_rt w)
       /\ length ps = min (N.to_nat (api.FindRequest.NumPeers rq))
                          (length (active (server.w_rt w)))
       /\ StronglySorted (routing.closer key) ps
       /\ (forall p, p ∈ ps -> p ∈ active (server.w_rt w))
       /\ (forall p q, p ∈ ps -> q ∈ active (server.w_rt w) -> q ∉ ps ->
                       (id.Distance (peer.ID p) key <= id.Distance (peer.ID q) key)%N)).
Proof.
  intros Hc Hpeak key loaded.
  destruct (checkRequestAndKey_Ok _ _ _ _ _ _ _ _ Hc) as [_ [m Hm]].
  pose proof (Find_checked l ctx rq w requesterID m Hc Hm) as Hfind.
  cbv zeta in Hfind. fold key in Hfind. fold loaded in Hfind. split.
  - intros v Hv. rewrite Hv in Hfind. eauto.
  - intros Hnone. rewrite Hnone in Hfind.
    eexists _, _, _. split; [exact Hfind|]. cbn.
    split; [done|]. split; [done|]. split; [done|].
    pose proof (Hpeak key (api.FindRequest.NumPeers rq) (server.w_rt w)) as ->.
    split; [apply closest_length|].
    split; [apply closest_sorted|].
    split; [intros p; apply closest_elem_of|].
    intros p q. apply closest_nearest.
Qed.

(** *** Get *)

Lemma rt_PushAll_Ok l ps w : exists w', server.rt_PushAll l ps w = (Ok tt, w').
Proof.
  revert w. induction ps as [|p ps IH]; intros w; cbn [server.rt_PushAll].
  - by eexists.
  - unfold bind, server.rt_Push, modify. apply IH.
Qed.

(** C3. A Get request that passes the request and key checks launches a
    search from the peers closest to the key; an error of the searcher is
    returned as it is; otherwise the outcome of the search is mapped, in this
    order: a found value yields a response carrying the value of the search;
    else found closest peers yield a response with a null value, also when the
    search errored or is exhausted; else the handler returns no response but
    a plain error, whose message is "search for key errored" for an errored
    search, "search for key exhausted" for an exhausted one and "unexpected
    search result" otherwise, and whose gRPC code is [Unknown]. *)
Theorem Get_maps_search_outcome
    l ctx (rq : api.GetRequest.t) w requesterID err s t :
  server.checkRequestAndKey l ctx (api.MsgGet rq) (api.GetRequest.Metadata rq)
    (api.GetRequest.Key rq) w = (Ok requesterID, w) ->
  let key := id.FromBytes (api.GetRequest.Key rq) in
  let s0 := search.NewSearch (server.selfID l) key (server.Config.Search (server.config l)) in
  let seeds := routing.Table.Peak (server.rt l) key
                 (search.Parameters.Concurrency (search.Search.Params s0)) (server.w_rt w) in
  search.Search (server.searcher l) s0 seeds (server.w_rt w) = (err, s, t) ->
  let out := fst (server.Get searchPredicates l ctx rq w) in
  match err with
  | Some e => out = Err e
  | None =>
      if search.FoundValue searchPredicates s then
        exists md, out = Ok {| api.GetResponse.Metadata := md;
                               api.GetResponse.Value :=
                                 search.Result.Value (search.Search.Result s) |}
      else if search.FoundClosestPeers searchPredicates s then
        exists md, out = Ok {| api.GetResponse.Metadata := md;
                               api.GetResponse.Value := None |}
      else
        exists e, out = Err e
          /\ e = (if search.Errored searchPredicates s
                  then "search for key errored"
                  else if search.Exhausted searchPredicates s
                       then "search for key exhausted"
                       else "unexpected search result")
          /\ status.Code (Some e) = codes.Unknown
  end.
Proof.
  intros Hc key s0 seeds Hsearch out. subst out.
  destruct (checkRequestAndKey_Ok _ _ _ _ _ _ _ _ Hc) as [_ [m Hm]].
  unfold server.Get. rewrite (bind_Ok _ _ _ _ _ Hc), Hm.
  rewrite (bind_Ok _ _ _ _ _ (record_run l requesterID w)).
  rewrite (bind_Ok _ _ _ _ _ (rt_Peak_run l _ _ _)).
  pose proof (searcher_Search_run l s0 seeds (recorded requesterID w) err s t Hsearch)
    as Hrun.
  destruct err as [e|].
  { by rewrite (bind_Err _ _ _ _ _ Hrun). }
  rewrite (bind_Ok _ _ _ _ _ Hrun).
  destruct (rt_PushAll_Ok l (search.Result.Closest (search.Search.Result s))
              (server.set_rt (fun _ => t) (recorded requesterID w))) as [w2 Hpush].
  rewrite (bind_Ok _ _ _ _ _ Hpush).
  destruct (search.FoundValue searchPredicates s).
  { rewrite (bind_Ok _ _ _ _ _ (NewResponseMetadata_Some l m w2)). cbn. eauto. }
  destruct (search.FoundClosestPeers searchPredicates s).
  { rewrite (bind_Ok _ _ _ _ _ (NewResponseMetadata_Some l m w2)). cbn. eauto. }
  destruct (search.Errored searchPredicates s).
  { cbn. eexists. split; [done|]. split; done. }
  destruct (search.Exhausted searchPredicates s).
  { cbn. eexists. split; [done|]. split; done. }
  cbn. eexists. split; [done|]. split; done.
Qed.

(** *** Put *)





(** *** Introduce *)

Lemma sampleSeed_unfold (requestId : bytes) :
  server.sampleSeed requestId
  = if decide (8 <= length requestId)%nat
    then Ok (int64 (id.FromBytes (take 8 requestId)))
    else Panic "slice bounds out of range".
Proof.
  unfold server.sampleSeed, slice_to, binary.BigEndian_Uint64.
  destruct (decide (8 <= length requestId)%nat) as [Hlen|Hlen]; [|done].
  rewrite decide_True by (rewrite length_take; lia).
  by rewrite take_take.
Qed.

(** The seed only depends on the first eight bytes of the request ID. *)
Lemma sampleSeed_first_8_bytes (rid1 rid2 : bytes) :
  take 8 rid1 = take 8 rid2 -> server.sampleSeed rid1 = server.sampleSeed rid2.
Proof.
  intros Heq. rewrite !sampleSeed_unfold, Heq.
  assert (Hlen : min 8 (length rid1) = min 8 (length rid2)).
  { by rewrite <- !length_take, Heq. }
  destruct (decide (8 <= length rid1)%nat), (decide (8 <= length rid2)%nat);
    (done || lia).
Qed.

(** A successful [Introduce] answers with the sample drawn, from the table in
    which the requester has just been pushed, by the generator seeded with
    the first eight bytes of the request ID. *)
Lemma Introduce_Ok l ctx (rq : api.IntroduceRequest.t) w rp w' :
  server.Introduce l ctx rq w = (Ok rp, w') ->
  exists m seed,
    api.IntroduceRequest.Metadata rq = Some m
    /\ server.sampleSeed (api.RequestMetadata.RequestId m) = Ok seed
    /\ api.IntroduceResponse.Peers rp
       = peer.ToAPIs
           (routing.Table.Sample (server.rt l) (api.IntroduceRequest.NumPeers rq)
              (rand.New (rand.NewSource seed))
              (routing.Table.Push (server.rt l)
                 (peer.FromAPI (server.fromer l) (api.IntroduceRequest.Self rq))
                 (server.w_rt w))).
Proof.
  unfold server.Introduce. intros Hrun.
  pose proof (checkRequest_state l ctx (api.MsgIntroduce rq)
                (api.IntroduceRequest.Metadata rq) w) as Hst.
  destruct (server.checkRequest l ctx (api.MsgIntroduce rq)
              (api.IntroduceRequest.Metadata rq) w) as [[i|e|msg] w0] eqn:Hc;
    simpl in Hst; subst w0.
  2: { by rewrite (bind_Err _ _ _ _ _ Hc) in Hrun. }
  2: { by rewrite (bind_Panic _ _ _ _ _ Hc) in Hrun. }
  rewrite (bind_Ok _ _ _ _ _ Hc) in Hrun.
  apply checkRequest_Ok in Hc as [_ (m & Hm & _ & _)].
  destruct (negb _); [done|].
  rewrite (bind_Ok _ _ _ _ _ (record_run l i w)) in Hrun.
  rewrite (bind_Ok _ _ _ _ _ (rt_Push_run l _ _)) in Hrun.
  rewrite Hm in Hrun. exists m.
  destruct (server.sampleSeed (api.RequestMetadata.RequestId m)) as [seed|e|msg] eqn:Hseed.
  2: { by rewrite (bind_Err (liftResult (Err e)) _ _ e _ eq_refl) in Hrun. }
  2: { by rewrite (bind_Panic (liftResult (Panic msg)) _ _ msg _ eq_refl) in Hrun. }
  exists seed. split; [done|]. split; [done|].
  rewrite (bind_Ok (liftResult (Ok seed)) _ _ seed _ eq_refl) in Hrun.
  rewrite (bind_Ok _ _ _ _ _ (rt_Sample_run l _ _ _)) in Hrun.
  rewrite (bind_Ok _ _ _ _ _ (NewResponseMetadata_Some l m _)) in Hrun.
  injection Hrun as <- _. done.
Qed.

(** C6. Two Introduce requests that carry the same request ID (the same first
    eight bytes are enough) and the same number of peers, and whose samples
    are taken from the same state of the routing table, are answered with the
    same sampled peers, whatever else differs (context, rest of the metadata,
    documents, fresh response IDs): the peers are the sample of the table, as
    it is once the requester is pushed, drawn by a generator seeded with the
    big-endian integer of the first eight bytes of the request ID and with
    nothing else. *)
Theorem Introduce_sample_determined_by_request_id
    l ctx1 ctx2 (rq1 rq2 : api.IntroduceRequest.t) w1 w2 m1 m2 rp1 rp2 w1' w2' :
  api.IntroduceRequest.Metadata rq1 = Some m1 ->
  api.IntroduceRequest.Metadata rq2 = Some m2 ->
  take 8 (api.RequestMetadata.RequestId m1) = take 8 (api.RequestMetadata.RequestId m2) ->
  api.IntroduceRequest.NumPeers rq1 = api.IntroduceRequest.NumPeers rq2 ->
  routing.Table.Push (server.rt l)
    (peer.FromAPI (server.fromer l) (api.IntroduceRequest.Self rq1)) (server.w_rt w1)
  = routing.Table.Push (server.rt l)
      (peer.FromAPI (server.fromer l) (api.IntroduceRequest.Self rq2)) (server.w_rt w2) ->
  server.Introduce l ctx1 rq1 w1 = (Ok rp1, w1') ->
  server.Introduce l ctx2 rq2 w2 = (Ok rp2, w2') ->
  api.IntroduceResponse.Peers rp1 = api.IntroduceResponse.Peers rp2
  /\ api.IntroduceResponse.Peers rp1
     = peer.ToAPIs
         (routing.Table.Sample (server.rt l) (api.IntroduceRequest.NumPeers rq1)
            (rand.New (rand.NewSource
               (int64 (id.FromBytes (take 8 (api.RequestMetadata.RequestId m1))))))
            (routing.Table.Push (server.rt l)
               (peer.FromAPI (server.fromer l) (api.IntroduceRequest.Self rq1))
               (server.w_rt w1))).
Proof.
  intros Hm1 Hm2 Hrid Hn Hrt Hrun1 Hrun2.
  apply Introduce_Ok in Hrun1 as (m1' & seed1 & Hm1' & Hseed1 & Hp1).
  apply Introduce_Ok in Hrun2 as (m2' & seed2 & Hm2' & Hseed2 & Hp2).
  rewrite Hm1 in Hm1'. injection Hm1' as <-.
  rewrite Hm2 in Hm2'. injection Hm2' as <-.
  rewrite (sampleSeed_first_8_bytes _ _ Hrid), Hseed2 in Hseed1.
  injection Hseed1 as ->.
  rewrite sampleSeed_unfold in Hseed2.
  destruct (decide (8 <= length (api.RequestMetadata.RequestId m2))%nat); [|done].
  injection Hseed2 as <-.
  rewrite Hp1, Hp2, Hn, Hrt, Hrid. done.
Qed.

(** The same client retrying against the same table gets the same peers. *)
Corollary Introduce_retry_same_peers
    l ctx1 ctx2 (rq : api.IntroduceRequest.t) w1 w2 rp1 rp2 w1' w2' :
  server.w_rt w1 = server.w_rt w2 ->
  server.Introduce l ctx1 rq w1 = (Ok rp1, w1') ->
  server.Introduce l ctx2 rq w2 = (Ok rp2, w2') ->
  api.IntroduceResponse.Peers rp1 = api.IntroduceResponse.Peers rp2.
Proof.
  intros Hrt Hrun1 Hrun2.
  apply Introduce_Ok in Hrun1 as (m1 & seed1 & Hm1 & Hseed1 & Hp1).
  apply Introduce_Ok in Hrun2 as (m2 & seed2 & Hm2 & Hseed2 & Hp2).
  rewrite Hm1 in Hm2. injection Hm2 as <-.
  rewrite Hseed1 in Hseed2. injection Hseed2 as <-.
  by rewrite Hp1, Hp2, Hrt.
Qed.

(** *** Verification comes first, except in Ping *)

Lemma Subscribe_rejected : subscribeVerifiesFirst RT DS.
Proof.
  intros l rq w f Hrej.
  destruct (checkRequest_rejected l _ _ _ w Hrej) as [e He]. exists e.
  unfold server.Subscribe.
  rewrite (bind_Ok (onSnd (gets (fun f => server.stream_Context (server.from f))))
             _ (w, f) (server.stream_Context (server.from f)) (w, f) eq_refl).
  apply bind_Err. by apply (onFst_Err _ (w, f)).
Qed.

(** C5, as the code has it. Introduce, Find, Store, Get, Put and Subscribe
    verify the signed metadata of the request before anything else: a request
    that does not pass the verifier is answered with an error and the state
    of the server is left as it was.  Ping verifies nothing: it answers
    "pong" to every request. *)
Theorem handlers_verify_first_except_Ping :
  handlersButPingVerifyFirst RT DS searchPredicates
  /\ (forall l ctx rq w,
        server.Ping l ctx rq w = (Ok {| api.PingResponse.Message := "pong" |}, w)).
Proof.
  split; [|done]. unfold handlersButPingVerifyFirst, verifiesFirst.
  repeat split.
  - intros l ctx rq w Hrej.
    destruct (checkRequest_rejected l _ _ _ w Hrej) as [e He].
    exists e. unfold server.Introduce. by apply bind_Err.
  - intros l ctx rq w Hrej.
    destruct (checkRequestAndKey_rejected l _ _ _ (api.FindRequest.Key rq) w Hrej)
      as [e He].
    exists e. unfold server.Find. by apply bind_Err.
  - intros l ctx rq w Hrej.
    destruct (checkRequestAndKeyValue_rejected l _ _ _ (api.StoreRequest.Key rq)
                (api.StoreRequest.Value rq) w Hrej) as [e He].
    exists e. unfold server.Store. by apply bind_Err.
  - intros l ctx rq w Hrej.
    destruct (checkRequestAndKey_rejected l _ _ _ (api.GetRequest.Key rq) w Hrej)
      as [e He].
    exists e. unfold server.Get. by apply bind_Err.
  - intros l ctx rq w Hrej.
    destruct (checkRequestAndKeyValue_rejected l _ _ _ (api.PutRequest.Key rq)
                (api.PutRequest.Value rq) w Hrej) as [e He].
    exists e. unfold server.Put. by apply bind_Err.
  - apply Subscribe_rejected.
Qed.

End HandlerProperties.

(** * Runs of the handlers on the fixed implementations *)

(** The requests of peer 5 pass the checks of the accepting librarian. *)
Example sample_checkRequestAndKey :
  server.checkRequestAndKey (H:=fixed.primitives)
    (sampleLibrarian (sampleSearchResult None []) (sampleStoreResult []))
    None (api.MsgFind sampleFindRequest) (Some (sampleMetadata Byte.x00)) sampleKey
    (sampleWorld ∅)
  = (Ok 5%N, sampleWorld ∅).
Proof. vm_compute. reflexivity. Qed.

(** Scenario "content-hash mismatch": a Store of a non-empty document under
    the all-zero key is refused and nothing is persisted, while a Store under
    the content address of the document persists it. *)
Example Store_zero_key_refused :
  server.Store (H:=fixed.primitives)
    (sampleLibrarian (sampleSearchResult None []) (sampleStoreResult []))
    None (sampleStoreRequest zeroKey) (sampleWorld ∅)
  = (Err "hash of value does not match key", sampleWorld ∅).
Proof. vm_compute. reflexivity. Qed.

Example Store_content_address_persists :
  server.w_docs (snd (server.Store (H:=fixed.primitives)
    (sampleLibrarian (sampleSearchResult None []) (sampleStoreResult []))
    None (sampleStoreRequest sampleKey) (sampleWorld ∅)))
  !! id.FromBytes sampleKey = Some sampleDocument.
Proof. vm_compute. reflexivity. Qed.

Lemma Store_hash_mismatch_persists_nothing_witness :
  exists e,
    server.Store (H:=fixed.primitives)
      (sampleLibrarian (sampleSearchResult None []) (sampleStoreResult []))
      None (sampleStoreRequest zeroKey) (sampleWorld ∅)
    = (Err e, sampleWorld ∅)
    /\ server.w_docs (snd (server.Store (H:=fixed.primitives)
         (sampleLibrarian (sampleSearchResult None []) (sampleStoreResult []))
         None (sampleStoreRequest zeroKey) (sampleWorld ∅)))
       = server.w_docs (sampleWorld ∅).
Proof.
  apply (Store_hash_mismatch_persists_nothing (H:=fixed.primitives)
           (sampleLibrarian (sampleSearchResult None []) (sampleStoreResult []))
           None (sampleStoreRequest zeroKey) (sampleWorld ∅)).
  - reflexivity.
  - vm_compute. reflexivity.
Defined.

(** Find on a store that holds the document, and on an empty store with a
    table of peers 1, 4, 7 and 12: the key starts with bytes 1 and 2, and the
    two peers closest to it are returned, nearest first. *)
Example Find_present :
  let out := server.Find (H:=fixed.primitives)
               (sampleLibrarian (sampleSearchResult None []) (sampleStoreResult []))
               None sampleFindRequest
               (sampleWorld {[ id.FromBytes sampleKey := sampleDocument ]}) in
  api.FindResponse.Value <$> fst out = Ok (Some sampleDocument)
  /\ api.FindResponse.Peers <$> fst out = Ok [].
Proof. vm_compute. split; reflexivity. Qed.

Lemma Find_returns_value_or_closest_peers_witness :
  (exists rp w',
      server.Find (H:=fixed.primitives)
        (sampleLibrarian (sampleSearchResult None []) (sampleStoreResult []))
        None sampleFindRequest
        (sampleWorld {[ id.FromBytes sampleKey := sampleDocument ]}) = (Ok rp, w')
      /\ api.FindResponse.Value rp = Some sampleDocument
      /\ api.FindResponse.Peers rp = [])
  /\ (exists rp w' ps,
      server.Find (H:=fixed.primitives)
        (sampleLibrarian (sampleSearchResult None []) (sampleStoreResult []))
        None sampleFindRequest (sampleWorld ∅) = (Ok rp, w')
      /\ api.FindResponse.Value rp = None
      /\ api.FindResponse.Peers rp = peer.ToAPIs ps
      /\ ps = routing.closest (id.FromBytes sampleKey) 2 samplePeers
      /\ length ps = 2%nat).
Proof.
  split.
  - apply (proj1 (Find_returns_value_or_closest_peers (H:=fixed.primitives)
                    (sampleLibrarian (sampleSearchResult None []) (sampleStoreResult []))
                    None sampleFindRequest
                    (sampleWorld {[ id.FromBytes sampleKey := sampleDocument ]})
                    5%N (fun ps => ps)
                    ltac:(vm_compute; reflexivity)
                    ltac:(intros key n ps; reflexivity))
             sampleDocument).
    vm_compute. reflexivity.
  - destruct (proj2 (Find_returns_value_or_closest_peers (H:=fixed.primitives)
                    (sampleLibrarian (sampleSearchResult None []) (sampleStoreResult []))
                    None sampleFindRequest (sampleWorld ∅)
                    5%N (fun ps => ps)
                    ltac:(vm_compute; reflexivity)
                    ltac:(intros key n ps; reflexivity))
               ltac:(vm_compute; reflexivity))
      as (rp & w' & ps & Hrun & Hv & Hp & Hps & Hlen & _).
    exists rp, w', ps. repeat split; try assumption.
Defined.

(** The runs of [TestLibrarian_Get_FoundValue], [_FoundClosestPeers],
    [_Exhausted] and [_err]. *)
Example Get_FoundValue :
  api.GetResponse.Value <$> fst (server.Get (H:=fixed.primitives) fixed.predicates
    (sampleLibrarian (sampleSearchResult (Some sampleDocument) []) (sampleStoreResult []))
    None sampleGetRequest (sampleWorld ∅))
  = Ok (Some sampleDocument).
Proof. vm_compute. reflexivity. Qed.

Example Get_FoundClosestPeers :
  api.GetResponse.Value <$> fst (server.Get (H:=fixed.primitives) fixed.predicates
    (sampleLibrarian (sampleSearchResult None (map fixed.testPeer [4; 7]%N))
       (sampleStoreResult []))
    None sampleGetRequest (sampleWorld ∅))
  = Ok None.
Proof. vm_compute. reflexivity. Qed.

Example Get_Exhausted :
  fst (server.Get (H:=fixed.primitives) fixed.predicates
    (sampleLibrarian (sampleSearchResult None []) (sampleStoreResult []))
    None sampleGetRequest (sampleWorld ∅))
  = Err "search for key exhausted".
Proof. vm_compute. reflexivity. Qed.

Example Get_err :
  fst (server.Get (H:=fixed.primitives) fixed.predicates
    (fixed.newTestLibrarian fixed.alwaysRequestVerifier
       (fixed.fixedSearcher (sampleSearchResult None []) (Some "some unexpected search error"))
       (fixed.fixedStorer (sampleStoreResult []) None))
    None sampleGetRequest (sampleWorld ∅))
  = Err "some unexpected search error".
Proof. vm_compute. reflexivity. Qed.

Lemma Get_maps_search_outcome_witness :
  (exists md,
      fst (server.Get (H:=fixed.primitives) fixed.predicates
             (sampleLibrarian (sampleSearchResult (Some sampleDocument) [])
                (sampleStoreResult []))
             None sampleGetRequest (sampleWorld ∅))
      = Ok {| api.GetResponse.Metadata := md;
              api.GetResponse.Value := Some sampleDocument |})
  /\ (exists md,
      fst (server.Get (H:=fixed.primitives) fixed.predicates
             (sampleLibrarian (sampleSearchResult None (map fixed.testPeer [4; 7]%N))
                (sampleStoreResult []))
             None sampleGetRequest (sampleWorld ∅))
      = Ok {| api.GetResponse.Metadata := md; api.GetResponse.Value := None |})
  /\ (exists e,
      fst (server.Get (H:=fixed.primitives) fixed.predicates
             (sampleLibrarian (sampleSearchResult None []) (sampleStoreResult []))
             None sampleGetRequest (sampleWorld ∅))
      = Err e).
Proof.
  pose (searched := fun res =>
    {| search.Search.Key := id.FromBytes sampleKey;
       search.Search.Result := res;
       search.Search.Params := fixed.searchParameters |}).
  split; [|split].
  - exact (Get_maps_search_outcome (H:=fixed.primitives) fixed.predicates
             (sampleLibrarian (sampleSearchResult (Some sampleDocument) [])
                (sampleStoreResult []))
             None sampleGetRequest (sampleWorld ∅) 5%N None
             (searched (sampleSearchResult (Some sampleDocument) [])) samplePeers
             ltac:(vm_compute; reflexivity) ltac:(vm_compute; reflexivity)).
  - exact (Get_maps_search_outcome (H:=fixed.primitives) fixed.predicates
             (sampleLibrarian (sampleSearchResult None (map fixed.testPeer [4; 7]%N))
                (sampleStoreResult []))
             None sampleGetRequest (sampleWorld ∅) 5%N None
             (searched (sampleSearchResult None (map fixed.testPeer [4; 7]%N))) samplePeers
             ltac:(vm_compute; reflexivity) ltac:(vm_compute; reflexivity)).
  - destruct (Get_maps_search_outcome (H:=fixed.primitives) fixed.predicates
             (sampleLibrarian (sampleSearchResult None []) (sampleStoreResult []))
             None sampleGetRequest (sampleWorld ∅) 5%N None
             (searched (sampleSearchResult None [])) samplePeers
             ltac:(vm_compute; reflexivity) ltac:(vm_compute; reflexivity))
      as (e & He & _).
    exists e. exact He.
Defined.

(** C3 as stated does not hold.  An exhausted search that found neither the
    value nor the closest peers ends in an error made by [errors.New], whose
    gRPC code is [Unknown], not [NotFound]; and an errored search that found
    the closest peers ends in a response with a null value, not in an
    error. *)
Lemma Get_unfound_is_not_NotFound :
  ~ unfoundGetsNotFound (H:=fixed.primitives) fixed.predicates
      (sampleLibrarian (sampleSearchResult None []) (sampleStoreResult []))
  /\ ~ unfoundGetsNotFound (H:=fixed.primitives) fixed.predicates
        (sampleLibrarian erroredSearchResult (sampleStoreResult [])).
Proof.
  split; intros Hclaim.
  - edestruct (Hclaim None sampleGetRequest (sampleWorld ∅) 5%N) as (e & _ & Hcode).
    + vm_compute. reflexivity.
    + vm_compute. reflexivity.
    + vm_compute. reflexivity.
    + right. vm_compute. reflexivity.
    + discriminate Hcode.
  - edestruct (Hclaim None sampleGetRequest (sampleWorld ∅) 5%N) as (e & He & _).
    + vm_compute. reflexivity.
    + vm_compute. reflexivity.
    + vm_compute. reflexivity.
    + left. vm_compute. reflexivity.
    + vm_compute in He. discriminate He.
Qed.

(** The two runs: the error of the exhausted search with its code, and the
    answer to the errored search that found the closest peers. *)
Example Get_Exhausted_code :
  match fst (server.Get (H:=fixed.primitives) fixed.predicates
               (sampleLibrarian (sampleSearchResult None []) (sampleStoreResult []))
               None sampleGetRequest (sampleWorld ∅)) with
  | Err e => Some (e, status.Code (Some e))
  | _ => None
  end = Some ("search for key exhausted", codes.Unknown).
Proof. vm_compute. reflexivity. Qed.

Example Get_Errored_FoundClosestPeers :
  api.GetResponse.Value <$> fst (server.Get (H:=fixed.primitives) fixed.predicates
    (sampleLibrarian erroredSearchResult (sampleStoreResult []))
    None sampleGetRequest (sampleWorld ∅))
  = Ok None.
Proof. vm_compute. reflexivity. Qed.

(** The runs of [TestLibrarian_Put_Stored], [_Exists] and [_Errored]. *)
Example Put_Stored :
  (fun rp => (api.PutResponse.Operation rp, api.PutResponse.NReplicas rp))
    <$> fst (server.Put (H:=fixed.primitives)
               (sampleLibrarian (sampleSearchResult None [])
                  (sampleStoreResult (map fixed.testPeer [4; 7]%N)))
               None samplePutRequest (sampleWorld ∅))
  = Ok (api.PutOperation_STORED, 2%N).
Proof. vm_compute. reflexivity. Qed.

Example Put_Exists :
  api.PutResponse.Operation
    <$> fst (server.Put (H:=fixed.primitives)
               (sampleLibrarian (sampleSearchResult None [])
                  {| store.Result.Unqueried := [];
                     store.Result.Responded := [];
                     store.Result.Search := sampleSearchResult (Some sampleDocument) [];
                     store.Result.NErrors := 0%N;
                     store.Result.FatalErr := None |})
               None samplePutRequest (sampleWorld ∅))
  = Ok api.PutOperation_LEFT_EXISTING.
Proof. vm_compute. reflexivity. Qed.

(** A value found by the search that is not the value of the request is not
    left existing: the store of the run is exhausted, and Put fails. *)
Example Put_other_value_found :
  fst (server.Put (H:=fixed.primitives)
         (sampleLibrarian (sampleSearchResult None [])
            {| store.Result.Unqueried := [];
               store.Result.Responded := [];
               store.Result.Search := sampleSearchResult (Some otherDocument) [];
               store.Result.NErrors := 0%N;
               store.Result.FatalErr := None |})
         None samplePutRequest (sampleWorld ∅))
  = Err "store for key exhausted".
Proof. vm_compute. reflexivity. Qed.

Example Put_Errored :
  fst (server.Put (H:=fixed.primitives)
         (sampleLibrarian (sampleSearchResult None [])
            {| store.Result.Unqueried := [];
               store.Result.Responded := [];
               store.Result.Search := sampleSearchResult None [];
               store.Result.NErrors := 0%N;
               store.Result.FatalErr := Some "some fatal error" |})
         None samplePutRequest (sampleWorld ∅))
  = Err "received error during search or store operations".
Proof. vm_compute. reflexivity. Qed.


(** Ping answers "pong" on a librarian whose verifier rejects everything,
    while the same librarian refuses a Find. *)
Example Ping_unverified :
  server.Ping rejectingLibrarian None api.PingRequest.Build (sampleWorld ∅)
  = (Ok {| api.PingResponse.Message := "pong" |}, sampleWorld ∅).
Proof. reflexivity. Qed.

Example Find_unverified :
  server.Find (H:=fixed.primitives) rejectingLibrarian None sampleFindRequest (sampleWorld ∅)
  = (Err "some verify error", sampleWorld ∅).
Proof. vm_compute. reflexivity. Qed.

(** C5 as stated does not hold: Ping answers a request that its
    librarian's verifier rejects. *)
Lemma Ping_skips_verification :
  ~ everyHandlerVerifiesFirst (H:=fixed.primitives)
      (list peer.Peer) (gmap N api.Document.t) fixed.predicates.
Proof.
  intros [Hping _].
  destruct (Hping rejectingLibrarian None api.PingRequest.Build (sampleWorld ∅))
    as [e He].
  - intros m. discriminate.
  - discriminate He.
Qed.

Lemma handlers_verify_first_except_Ping_witness :
  (exists e,
      server.Find (H:=fixed.primitives) rejectingLibrarian None sampleFindRequest
        (sampleWorld ∅) = (Err e, sampleWorld ∅))
  /\ server.Ping rejectingLibrarian None api.PingRequest.Build (sampleWorld ∅)
     = (Ok {| api.PingResponse.Message := "pong" |}, sampleWorld ∅).
Proof.
  destruct (handlers_verify_first_except_Ping (H:=fixed.primitives)
              (RT:=list peer.Peer) (DS:=gmap N api.Document.t) fixed.predicates)
    as [(_ & Hfind & _) Hping].
  split.
  - apply (Hfind rejectingLibrarian None sampleFindRequest (sampleWorld ∅)).
    discriminate.
  - apply Hping.
Defined.

(** Two Introduce requests of peer 5 whose request IDs share their first
    eight bytes, run on states that share the routing table only. *)
Example Introduce_sample :
  map api.PeerAddress.PeerId
    (api.IntroduceResponse.Peers
       (okOr noIntroduceResponse
          (fst (server.Introduce (H:=fixed.primitives)
                  (sampleLibrarian (sampleSearchResult None []) (sampleStoreResult []))
                  None (sampleIntroduceRequest Byte.x00) (sampleWorld ∅)))))
  = map id.Bytes [12; 5; 1]%N.
Proof. vm_compute. reflexivity. Qed.

Lemma Introduce_sample_determined_by_request_id_witness :
  let l := sampleLibrarian (sampleSearchResult None []) (sampleStoreResult []) in
  let run1 := server.Introduce (H:=fixed.primitives) l None
                (sampleIntroduceRequest Byte.x00) (sampleWorld ∅) in
  let run2 := server.Introduce (H:=fixed.primitives) l (Some ∅)
                (sampleIntroduceRequest Byte.xff)
                (sampleWorld {[ id.FromBytes sampleKey := sampleDocument ]}) in
  api.IntroduceResponse.Peers (okOr noIntroduceResponse (fst run1))
  = api.IntroduceResponse.Peers (okOr noIntroduceResponse (fst run2)).
Proof.
  intros l run1 run2.
  apply (Introduce_sample_determined_by_request_id (H:=fixed.primitives)
           l None (Some ∅) (sampleIntroduceRequest Byte.x00)
           (sampleIntroduceRequest Byte.xff)
           (sampleWorld ∅) (sampleWorld {[ id.FromBytes sampleKey := sampleDocument ]})
           (sampleMetadata Byte.x00) (sampleMetadata Byte.xff)
           (okOr noIntroduceResponse (fst run1)) (okOr noIntroduceResponse (fst run2))
           (snd run1) (snd run2));
    vm_compute; reflexivity.
Defined.

(** C6 as stated does not hold: the request ID, the number of peers and the
    routing table the requests are processed against do not determine the
    sample.  The handler pushes the requester into the table before it
    samples: peers 5 and 6, asking with the same request ID against the same
    table of peers 1, 4, 7 and 12, are each given a sample that holds
    themselves. *)
Lemma Introduce_sample_depends_on_requester :
  ~ sampleDeterminedByRequestIdAndTable (H:=fixed.primitives)
      (sampleLibrarian (sampleSearchResult None []) (sampleStoreResult [])).
Proof.
  intros Hclaim.
  destruct (server.Introduce (H:=fixed.primitives)
              (sampleLibrarian (sampleSearchResult None []) (sampleStoreResult []))
              None (introduceRequestFrom 5) (sampleWorld ∅))
    as [[rp1|e|m] w1'] eqn:Hrun1; [|vm_compute in Hrun1; discriminate..].
  destruct (server.Introduce (H:=fixed.primitives)
              (sampleLibrarian (sampleSearchResult None []) (sampleStoreResult []))
              None (introduceRequestFrom 6) (sampleWorld ∅))
    as [[rp2|e|m] w2'] eqn:Hrun2; [|vm_compute in Hrun2; discriminate..].
  pose proof (Hclaim None None (introduceRequestFrom 5) (introduceRequestFrom 6)
                (sampleWorld ∅) (sampleWorld ∅) _ _ rp1 rp2 w1' w2'
                eq_refl eq_refl eq_refl eq_refl eq_refl Hrun1 Hrun2) as Hsame.
  vm_compute in Hrun1, Hrun2.
  injection Hrun1 as <- _. injection Hrun2 as <- _.
  vm_compute in Hsame. discriminate Hsame.
Qed.

(** The two samples. *)
Example Introduce_samples_of_two_requesters :
  (fun n => map api.PeerAddress.PeerId
     (api.IntroduceResponse.Peers
        (okOr noIntroduceResponse
           (fst (server.Introduce (H:=fixed.primitives)
                   (sampleLibrarian (sampleSearchResult None []) (sampleStoreResult []))
                   None (introduceRequestFrom n) (sampleWorld ∅))))))
    <$> [5; 6]%N
  = [map id.Bytes [12; 5; 1]%N; map id.Bytes [12; 6; 1]%N].
Proof. vm_compute. reflexivity. Qed.

(** [maybeSend] on a stream that has handed nothing yet: a publication whose
    author and reader keys are in the filters is handed to the stream, one
    whose reader key is not is skipped without error. *)
Example maybeSend_sample :
  let filter b := {| bloom.Test := fun x => bool_decide (x = b) |} in
  let pub reader :=
    {| subscribe.KeyedPub.Key := 9%N;
       subscribe.KeyedPub.Value :=
         {| api.Publication.EnvelopeKey := []; api.Publication.EntryKey := [];
            api.Publication.AuthorPublicKey := [Byte.x0a];
            api.Publication.ReaderPublicKey := reader |} |} in
  let md := {| api.ResponseMetadata.RequestId := []; api.ResponseMetadata.ResponseId := [] |} in
  let f := {| server.from := {| server.stream_Context := None; server.handed := [];
                                server.failure := None |};
              server.done := false |} in
  server.handed (server.from (snd
    (server.maybeSend rejectingLibrarian (pub [Byte.x0b]) (filter [Byte.x0a])
       (filter [Byte.x0b]) md f)))
  = [responseFor md (pub [Byte.x0b])]
  /\ server.maybeSend rejectingLibrarian (pub [Byte.x0c]) (filter [Byte.x0a])
       (filter [Byte.x0b]) md f
     = (Ok tt, f).
Proof. vm_compute. split; reflexivity. Qed.

(** * Further properties of the code *)

(** ** The key-value store wrapper *)

(** X1. On a wrapper whose handle and options are set and whose engine
    reports no failure, [Put] succeeds and a [Get] of the key then returns the
    value put, a [Get] of any other key returns what it returned before, and
    after a [Delete] of the key a [Get] returns the nil slice without error. *)
Theorem RocksDB_Put_Get_Delete (s : db.RocksDB) (h : db.gorocksdb_DB)
    (r : db.gorocksdb_ReadOptions) (o : db.gorocksdb_WriteOptions)
    (key value : bytes) :
  db.rdb s = Some h -> db.io_failure h = None ->
  db.ro s = Some r -> db.wo s = Some o ->
  exists s1 s2,
    db.Put (Some s) key value = Ok s1
    /\ db.Get (Some s1) key = Ok (Some value)
    /\ (forall key', key' <> key -> db.Get (Some s1) key' = db.Get (Some s) key')
    /\ db.Delete (Some s1) key = Ok s2
    /\ db.Get (Some s2) key = Ok None
    /\ (forall key', key' <> key -> db.Get (Some s2) key' = db.Get (Some s) key').
Proof.
  intros Hh Hio Hr Ho. destruct s as [rdb0 ro0 wo0]. simpl in *. subst.
  destruct h as [cells0 io0]. simpl in Hio. subst io0.
  exists {| db.rdb := Some {| db.cells := <[key := value]> cells0;
                              db.io_failure := None |};
            db.ro := Some r; db.wo := Some o |},
         {| db.rdb := Some {| db.cells := delete key (<[key := value]> cells0);
                              db.io_failure := None |};
            db.ro := Some r; db.wo := Some o |}.
  unfold db.Put, db.Delete, db.Get. cbn.
  rewrite lookup_insert_eq, lookup_delete_eq.
  repeat split.
  - intros key' Hne. by rewrite lookup_insert_ne.
  - intros key' Hne. rewrite lookup_delete_ne, lookup_insert_ne; done.
Qed.

Lemma RocksDB_Put_Get_Delete_witness :
  let h := {| db.cells := {[ [Byte.x01] := [Byte.x0a] ]}; db.io_failure := None |} in
  let s := {| db.rdb := Some h; db.ro := Some db.DefaultReadOptions;
              db.wo := Some db.DefaultWriteOptions |} in
  exists s1 s2,
    db.Put (Some s) [Byte.x02] [Byte.x0b] = Ok s1
    /\ db.Get (Some s1) [Byte.x02] = Ok (Some [Byte.x0b])
    /\ (forall key', key' <> [Byte.x02] -> db.Get (Some s1) key' = db.Get (Some s) key')
    /\ db.Delete (Some s1) [Byte.x02] = Ok s2
    /\ db.Get (Some s2) [Byte.x02] = Ok None
    /\ (forall key', key' <> [Byte.x02] -> db.Get (Some s2) key' = db.Get (Some s) key').
Proof.
  intros h s.
  apply (RocksDB_Put_Get_Delete s h db.DefaultReadOptions db.DefaultWriteOptions
           [Byte.x02] [Byte.x0b]); reflexivity.
Defined.

(** ** Signature contexts *)

Lemma ToLower_signatureKey :
  metadata.ToLower client.signatureKey = client.signatureKey.
Proof. reflexivity. Qed.

(** X2. The signature put in a context by [NewIncomingSignatureContext] is
    the one [FromSignatureContext] reads back, whatever the context held
    before: its incoming metadata is replaced by the signature alone, and its
    outgoing metadata and timeout are kept. *)
Theorem FromSignatureContext_NewIncomingSignatureContext
    (ctx : gocontext.Context) (signedJWT : string) :
  let ctx' := client.NewIncomingSignatureContext ctx signedJWT in
  client.FromSignatureContext ctx' = Ok signedJWT
  /\ gocontext.incoming ctx' = Some {[ client.signatureKey := [signedJWT] ]}
  /\ gocontext.outgoing ctx' = gocontext.outgoing ctx
  /\ gocontext.timeout ctx' = gocontext.timeout ctx.
Proof.
  cbv zeta. unfold client.FromSignatureContext, client.NewIncomingSignatureContext,
    gocontext.NewIncomingContext, gocontext.FromIncomingContext, metadata.Pairs.
  cbn [gocontext.incoming gocontext.outgoing gocontext.timeout].
  rewrite ToLower_signatureKey, lookup_singleton_eq. done.
Qed.

(** X3. [FromSignatureContext] returns the first value filed under the
    signature key, and nothing else: it returns a value exactly when the
    incoming metadata has a non-empty list under that key, fails with the
    missing-metadata error exactly when there is no incoming metadata, with
    the missing-signature error exactly when the metadata has no such key,
    and panics exactly when the key is there with an empty list of values. *)
Theorem FromSignatureContext_outcomes (ctx : gocontext.Context) :
  (forall signedJWT,
      client.FromSignatureContext ctx = Ok signedJWT <->
      exists md rest, gocontext.incoming ctx = Some md
                      /\ md !! client.signatureKey = Some (signedJWT :: rest))
  /\ (forall e,
      client.FromSignatureContext ctx = Err e <->
      (gocontext.incoming ctx = None /\ e = client.errContextMissingMetadata)
      \/ (exists md, gocontext.incoming ctx = Some md
                     /\ md !! client.signatureKey = None
                     /\ e = client.errContextMissingSignature))
  /\ (is_Panic (client.FromSignatureContext ctx) = true <->
      exists md, gocontext.incoming ctx = Some md
                 /\ md !! client.signatureKey = Some []).
Proof.
  unfold client.FromSignatureContext, gocontext.FromIncomingContext.
  destruct (gocontext.incoming ctx) as [md|].
  - destruct (md !! client.signatureKey) as [[|s rest]|] eqn:Hk.
    + split; [|split].
      * intros jwt. split; [done|]. intros (md' & rest & [= <-] & Hl). congruence.
      * intros e. split; [done|].
        intros [[? _]|(md' & [= <-] & Hl & _)]; congruence.
      * split; [eauto|done].
    + split; [|split].
      * intros jwt. split.
        -- intros [= ->]. eauto.
        -- intros (md' & rest' & [= <-] & Hl). congruence.
      * intros e. split; [done|].
        intros [[? _]|(md' & [= <-] & Hl & _)]; congruence.
      * split; [done|]. intros (md' & [= <-] & Hl). congruence.
    + split; [|split].
      * intros jwt. split; [done|]. intros (md' & rest & [= <-] & Hl). congruence.
      * intros e. split.
        -- intros [= <-]. right. eauto.
        -- intros [[? _]|(md' & _ & _ & ->)]; done.
      * split; [done|]. intros (md' & [= <-] & Hl). congruence.
  - split; [|split].
    + intros jwt. split; [done|]. intros (md & rest & ? & _). done.
    + intros e. split.
      * intros [= <-]. by left.
      * intros [[_ ->]|(md & ? & _)]; done.
    + split; [done|]. intros (md & ? & _). done.
Qed.

(** [NewSignedTimeoutContext], by the outcome of the signer. *)
Lemma NewSignedTimeoutContext_cases
    (signer : client.Signer) (request : api.Message) (timeout : Z) :
  match client.Sign signer request with
  | Ok signedJWT =>
      exists ctx,
        client.NewSignedTimeoutContext signer request timeout = Ok ctx
        /\ gocontext.timeout ctx = Some timeout
        /\ client.FromSignatureContext (gocontext.transmit ctx) = Ok signedJWT
        /\ client.FromSignatureContext ctx = Err client.errContextMissingMetadata
  | Err e => client.NewSignedTimeoutContext signer request timeout = Err e
  | Panic m => client.NewSignedTimeoutContext signer request timeout = Panic m
  end.
Proof.
  unfold client.NewSignedTimeoutContext, client.NewSignedContext.
  destruct (client.Sign signer request) as [jwt|e|m]; [|done|done].
  eexists. split; [reflexivity|]. split; [reflexivity|].
  split; [|reflexivity].
  unfold client.FromSignatureContext, gocontext.transmit, gocontext.FromIncomingContext,
    client.NewSignatureContext, gocontext.NewOutgoingContext, metadata.Pairs.
  cbn [gocontext.incoming gocontext.outgoing gocontext.timeout gocontext.WithTimeout].
  rewrite ToLower_signatureKey, lookup_singleton_eq. done.
Qed.

(** X4. A context made by [NewSignedTimeoutContext] exists only if the
    signer signed the request; it then carries the timeout, and the
    signature of the signer as its outgoing metadata: the callee reads that
    signature back with [FromSignatureContext] once the context is
    transmitted, while on the caller's own context, which has no incoming
    metadata, [FromSignatureContext] fails.  An error of the signer is
    returned as it is. *)
Theorem NewSignedTimeoutContext_carries_signature
    (signer : client.Signer) (request : api.Message) (timeout : Z) :
  match client.Sign signer request with
  | Ok signedJWT =>
      exists ctx,
        client.NewSignedTimeoutContext signer request timeout = Ok ctx
        /\ gocontext.timeout ctx = Some timeout
        /\ client.FromSignatureContext (gocontext.transmit ctx) = Ok signedJWT
        /\ client.FromSignatureContext ctx = Err client.errContextMissingMetadata
  | Err e => client.NewSignedTimeoutContext signer request timeout = Err e
  | Panic m => client.NewSignedTimeoutContext signer request timeout = Panic m
  end.
Proof. exact (NewSignedTimeoutContext_cases signer request timeout). Qed.

(** ** The introduction iterator *)

Lemma seedIndex_seed (rest : string) :
  seedIndex ("seed" +:+ rest)
  = Nat.of_uint <$> DecimalString.NilEmpty.uint_of_string rest.
Proof. reflexivity. Qed.

(** A seed key is read back to its index. *)
Lemma seedIndex_seedIDStr (i : nat) : seedIndex (introduce.seedIDStr i) = Some i.
Proof.
  unfold introduce.seedIDStr, fmt.Sprintf_02d, fmt.decimal.
  rewrite seedIndex_seed.
  destruct (_ <? 2)%nat.
  - cbn [DecimalString.NilEmpty.uint_of_string].
    rewrite DecimalString.NilEmpty.usu.
    change (Some (Nat.of_uint (Nat.to_uint i)) = Some i).
    by rewrite DecimalNat.Unsigned.of_to.
  - rewrite DecimalString.NilEmpty.usu. cbn [fmap option_fmap option_map].
    by rewrite DecimalNat.Unsigned.of_to.
Qed.

Lemma seedIDStr_inj (i j : nat) :
  introduce.seedIDStr i = introduce.seedIDStr j -> i = j.
Proof.
  intros Heq. apply (f_equal seedIndex) in Heq.
  rewrite !seedIndex_seedIDStr in Heq. congruence.
Qed.

Lemma seedFrom_lookup_seed (seeds : list peer.Peer) (i : nat)
    (unqueried : gmap string peer.Peer) (j : nat) :
  introduce.seedFrom i seeds unqueried !! introduce.seedIDStr j
  = if decide (i <= j < i + length seeds)%nat then seeds !! (j - i)%nat
    else unqueried !! introduce.seedIDStr j.
Proof.
  revert i unqueried. induction seeds as [|seed seeds IH]; intros i unqueried.
  - cbn. case_decide; [lia|done].
  - cbn [introduce.seedFrom length]. rewrite IH.
    destruct (decide (j = i)) as [->|Hne].
    + rewrite decide_False by lia. rewrite decide_True by lia.
      rewrite lookup_insert_eq. by rewrite Nat.sub_diag.
    + rewrite lookup_insert_ne by (intros Heq; by apply seedIDStr_inj in Heq).
      repeat case_decide; try lia; [|done].
      replace (j - i)%nat with (S (j - S i)) by lia. done.
Qed.

Lemma seedFrom_lookup_other (seeds : list peer.Peer) (i : nat)
    (unqueried : gmap string peer.Peer) (k : string) :
  (forall j, (i <= j < i + length seeds)%nat -> k <> introduce.seedIDStr j) ->
  introduce.seedFrom i seeds unqueried !! k = unqueried !! k.
Proof.
  revert i unqueried. induction seeds as [|seed seeds IH]; intros i unqueried Hk.
  - done.
  - cbn [introduce.seedFrom]. rewrite IH.
    + rewrite lookup_insert_ne; [done|]. intros Heq. apply (Hk i); [simpl; lia|done].
    + intros j Hj. apply Hk. simpl. lia.
Qed.

Lemma seedFrom_size (seeds : list peer.Peer) (i : nat)
    (unqueried : gmap string peer.Peer) :
  (forall j, (i <= j)%nat -> unqueried !! introduce.seedIDStr j = None) ->
  size (introduce.seedFrom i seeds unqueried) = (size unqueried + length seeds)%nat.
Proof.
  revert i unqueried. induction seeds as [|seed seeds IH]; intros i unqueried Hfree.
  - cbn. lia.
  - cbn [introduce.seedFrom length]. rewrite IH.
    + rewrite map_size_insert_None by (apply Hfree; lia). lia.
    + intros j Hj. rewrite lookup_insert_ne; [apply Hfree; lia|].
      intros Heq. apply seedIDStr_inj in Heq. lia.
Qed.

(** X5. The seeding loop of [Introduce] loses no seed: the keys
    seed00, seed01, ... it makes up are pairwise different (also beyond two
    digits), so the i-th seed is found under the i-th key, every other entry
    of the unqueried map is left as it was, and from an empty map the loop
    yields exactly as many entries as there are seeds. *)
Theorem seedUnqueried_keeps_every_seed (seeds : list peer.Peer)
    (res : introduce.Result.t) :
  let res' := introduce.seedUnqueried seeds res in
  (forall i j, introduce.seedIDStr i = introduce.seedIDStr j -> i = j)
  /\ (forall i, (i < length seeds)%nat ->
        introduce.Result.Unqueried res' !! introduce.seedIDStr i = seeds !! i)
  /\ (forall k, (forall i, (i < length seeds)%nat -> k <> introduce.seedIDStr i) ->
        introduce.Result.Unqueried res' !! k = introduce.Result.Unqueried res !! k)
  /\ (introduce.Result.Unqueried res = ∅ ->
        size (introduce.Result.Unqueried res') = length seeds)
  /\ introduce.Result.Responded res' = introduce.Result.Responded res.
Proof.
  cbv zeta. unfold introduce.seedUnqueried.
  cbn [introduce.Result.Unqueried introduce.Result.Responded].
  split; [apply seedIDStr_inj|]. split; [|split; [|split; [|done]]].
  - intros i Hi. rewrite seedFrom_lookup_seed.
    rewrite decide_True by lia. by rewrite Nat.sub_0_r.
  - intros k Hk. apply seedFrom_lookup_other. intros j Hj. apply Hk. lia.
  - intros ->. rewrite seedFrom_size; [by rewrite map_size_empty|].
    intros j _. apply lookup_empty.
Qed.

Example seedIDStr_sample :
  map introduce.seedIDStr [0; 7; 10; 99; 100]%nat
  = ["seed00"; "seed07"; "seed10"; "seed99"; "seed100"].
Proof. reflexivity. Qed.

(** X6. [introducer.query] returns a response only if the querier returned
    it for a context signed by the signer for this very request, with the
    timeout given, and only if the response echoes the request ID of the
    request: a response with another request ID is turned into an error. *)
Theorem query_returns_only_echoing_responses {Conn} (i : introduce.introducer Conn)
    (pConn : Conn) (rq : api.IntroduceRequest.t) (timeout : Z)
    (rp : api.IntroduceResponse.t) :
  introduce.query i pConn rq timeout = Ok rp ->
  exists m signedJWT ctx,
    api.IntroduceRequest.Metadata rq = Some m
    /\ api.ResponseMetadata.RequestId (api.IntroduceResponse.Metadata rp)
       = api.RequestMetadata.RequestId m
    /\ client.Sign (introduce.signer i) (api.MsgIntroduce rq) = Ok signedJWT
    /\ client.FromSignatureContext (gocontext.transmit ctx) = Ok signedJWT
    /\ gocontext.timeout ctx = Some timeout
    /\ client.Query (introduce.querier i) ctx pConn rq = Ok rp.
Proof.
  unfold introduce.query. intros Hq.
  pose proof (NewSignedTimeoutContext_cases
                (introduce.signer i) (api.MsgIntroduce rq) timeout) as Hctx.
  destruct (client.Sign (introduce.signer i) (api.MsgIntroduce rq)) as [jwt|e|msg].
  2: { by rewrite Hctx in Hq. }
  2: { by rewrite Hctx in Hq. }
  destruct Hctx as (ctx & Hnew & Ht & Hfrom & _). rewrite Hnew in Hq.
  destruct (client.Query (introduce.querier i) ctx pConn rq) as [rp'|e|msg] eqn:Hquery;
    [|done|done].
  destruct (api.IntroduceRequest.Metadata rq) as [m|]; [|done].
  case_bool_decide as Hecho; [|done]. injection Hq as ->.
  exists m, jwt, ctx. done.
Qed.

(** A querier that answers with the request ID it is sent, or with a fixed
    other one. *)
Lemma query_returns_only_echoing_responses_witness :
  let answer (echo : bool) : client.IntroduceQuerier unit :=
    {| client.Query := fun _ _ rq =>
         Ok {| api.IntroduceResponse.Metadata :=
                 {| api.ResponseMetadata.RequestId :=
                      if echo
                      then from_option api.RequestMetadata.RequestId []
                             (api.IntroduceRequest.Metadata rq)
                      else [Byte.xff];
                    api.ResponseMetadata.ResponseId := [] |};
               api.IntroduceResponse.Self := Some (sampleAddress 1);
               api.IntroduceResponse.Peers := [] |} |} in
  let i echo := {| introduce.signer := {| client.Sign := fun _ => Ok "jwt" |};
                   introduce.querier := answer echo;
                   introduce.repProcessor :=
                     introduce.NewResponseProcessor peer.NewFromer |} in
  (exists rp, introduce.query (i true) tt (sampleIntroduceRequest Byte.x00) 5 = Ok rp
              /\ api.ResponseMetadata.RequestId (api.IntroduceResponse.Metadata rp)
                 = api.RequestMetadata.RequestId (sampleMetadata Byte.x00))
  /\ introduce.query (i false) tt (sampleIntroduceRequest Byte.x00) 5
     = Err "unexpected response request ID received".
Proof.
  intros answer i. split; [|vm_compute; reflexivity].
  destruct (introduce.query (i true) tt (sampleIntroduceRequest Byte.x00) 5)
    as [rp|e|msg] eqn:Hq; [|vm_compute in Hq; discriminate..].
  exists rp. split; [reflexivity|].
  destruct (query_returns_only_echoing_responses (i true) tt
              (sampleIntroduceRequest Byte.x00) 5 rp Hq)
    as (m & jwt & ctx & Hm & Hecho & _).
  injection Hm as <-. exact Hecho.
Defined.

(** What [Process] yields, field by field. *)
Lemma Process_adds_responder_and_new_peers_lemma (irp : introduce.responseProcessor)
    (rp : api.IntroduceResponse.t) (res : introduce.Result.t)
    (self : api.PeerAddress.t) :
  api.IntroduceResponse.Self rp = Some self ->
  exists res',
    introduce.Process irp rp res = Ok res'
    /\ introduce.Result.Responded res'
       = <[introduce.idStr self := peer.FromAPI (introduce.fromer irp) self]>
           (introduce.Result.Responded res)
    /\ (forall k,
          introduce.Result.Unqueried res' !! k
          = match introduce.Result.Unqueried res !! k,
                  introduce.Result.Responded res' !! k with
            | Some p, _ => Some p
            | None, Some _ => None
            | None, None =>
                peer.FromAPI (introduce.fromer irp)
                  <$> firstWithKey k (api.IntroduceResponse.Peers rp)
            end)
    /\ introduce.Result.NErrors res' = introduce.Result.NErrors res
    /\ introduce.Result.FatalErr res' = introduce.Result.FatalErr res.
Proof.
  intros Hself. unfold introduce.Process. rewrite Hself.
  eexists. split; [reflexivity|]. cbn [introduce.Result.Responded
    introduce.Result.Unqueried introduce.Result.NErrors introduce.Result.FatalErr].
  split; [done|]. split; [intros k; apply fold_addDiscovered_lookup|]. done.
Qed.

Section ProcessInvariants.
Variable irp : introduce.responseProcessor.
Implicit Types (rp : api.IntroduceResponse.t) (res : introduce.Result.t).

Local Abbreviation fromAPI' := (peer.FromAPI (introduce.fromer irp)).

Lemma firstWithKey_is_Some (k : string) (peers : list api.PeerAddress.t) :
  is_Some (firstWithKey k peers) <-> k ∈ introduce.idStr <$> peers.
Proof.
  unfold firstWithKey. induction peers as [|pa peers IH]; cbn [List.find fmap list_fmap].
  - split; [intros [? ?]; done|]. intros Hin. by apply elem_of_nil in Hin.
  - rewrite elem_of_cons. case_bool_decide as Hk.
    + split; [intros _; left; done|eauto].
    + rewrite IH. split; [by right|]. intros [Heq|Hin]; [congruence|done].
Qed.

Lemma Result_eq res1 res2 :
  introduce.Result.Unqueried res1 = introduce.Result.Unqueried res2 ->
  introduce.Result.Responded res1 = introduce.Result.Responded res2 ->
  introduce.Result.NErrors res1 = introduce.Result.NErrors res2 ->
  introduce.Result.FatalErr res1 = introduce.Result.FatalErr res2 ->
  res1 = res2.
Proof. destruct res1, res2. simpl. by intros -> -> -> ->. Qed.

(** X7. Processing a response a second time changes nothing: a duplicate of
    an introduce response leaves the result of the first processing as it
    is. *)
Theorem Process_idempotent rp res res' :
  introduce.Process irp rp res = Ok res' ->
  introduce.Process irp rp res' = Ok res'.
Proof.
  intros Hp.
  destruct (api.IntroduceResponse.Self rp) as [self|] eqn:Hself;
    [|unfold introduce.Process in Hp; by rewrite Hself in Hp].
  destruct (Process_adds_responder_and_new_peers_lemma irp rp res self Hself)
    as (r1 & Hr1 & HR1 & HU1 & HN1 & HF1).
  rewrite Hp in Hr1. injection Hr1 as <-.
  destruct (Process_adds_responder_and_new_peers_lemma irp rp res' self Hself)
    as (r2 & Hr2 & HR2 & HU2 & HN2 & HF2).
  rewrite Hr2. f_equal. apply Result_eq; [|by rewrite HR2, HR1, insert_insert_eq|done..].
  apply map_eq. intros k. rewrite HU2.
  assert (HRR : introduce.Result.Responded r2 = introduce.Result.Responded res')
    by (by rewrite HR2, HR1, insert_insert_eq).
  rewrite HRR.
  destruct (introduce.Result.Unqueried res' !! k) as [p|] eqn:Hk; [done|].
  rewrite HU1 in Hk.
  destruct (introduce.Result.Unqueried res !! k); [done|].
  destruct (introduce.Result.Responded res' !! k); done.
Qed.

(** X8. [Process] removes no key: afterwards the keys of [Responded] are the
    old ones and the key of the responder, and the keys of [Unqueried] are
    the old ones and the keys of the addresses of the response that have not
    responded.  Every entry of [Unqueried] is kept as it is, and so is every
    entry of [Responded] but the responder's: that one is overwritten with
    the peer made from the [Self] of the response, whether or not the
    responder had an entry before.  [Unqueried] grows by at most the number
    of addresses in the response. *)
Theorem Process_domains rp res res' :
  introduce.Process irp rp res = Ok res' ->
  exists self,
    api.IntroduceResponse.Self rp = Some self
    /\ dom (introduce.Result.Responded res')
       = {[ introduce.idStr self ]} ∪ dom (introduce.Result.Responded res)
    /\ introduce.Result.Responded res' !! introduce.idStr self
       = Some (peer.FromAPI (introduce.fromer irp) self)
    /\ (forall k, k <> introduce.idStr self ->
          introduce.Result.Responded res' !! k = introduce.Result.Responded res !! k)
    /\ dom (introduce.Result.Unqueried res')
       = dom (introduce.Result.Unqueried res)
         ∪ (list_to_set (introduce.idStr <$> api.IntroduceResponse.Peers rp)
            ∖ dom (introduce.Result.Responded res'))
    /\ introduce.Result.Unqueried res ⊆ introduce.Result.Unqueried res'
    /\ (size (introduce.Result.Unqueried res')
        <= size (introduce.Result.Unqueried res)
           + length (api.IntroduceResponse.Peers rp))%nat.
Proof.
  intros Hp.
  destruct (api.IntroduceResponse.Self rp) as [self|] eqn:Hself;
    [|unfold introduce.Process in Hp; by rewrite Hself in Hp].
  destruct (Process_adds_responder_and_new_peers_lemma irp rp res self Hself)
    as (r1 & Hr1 & HR & HU & _ & _).
  rewrite Hp in Hr1. injection Hr1 as <-.
  exists self. split; [done|]. split; [by rewrite HR, dom_insert_L|].
  split; [by rewrite HR, lookup_insert_eq|].
  split; [intros k Hk; by rewrite HR, lookup_insert_ne|].
  assert (Hdom : dom (introduce.Result.Unqueried res')
       = dom (introduce.Result.Unqueried res)
         ∪ (list_to_set (introduce.idStr <$> api.IntroduceResponse.Peers rp)
            ∖ dom (introduce.Result.Responded res'))).
  { apply set_eq. intros k.
    rewrite elem_of_union, elem_of_difference, !elem_of_dom, elem_of_list_to_set.
    rewrite <- firstWithKey_is_Some, HU.
    destruct (introduce.Result.Unqueried res !! k) as [p|].
    - split; [intros _; left; eauto|eauto].
    - destruct (introduce.Result.Responded res' !! k) as [q|].
      + split; [intros [? ?]; done|].
        intros [[? ?]|[_ Hn]]; [done|]. destruct Hn. eauto.
      + rewrite fmap_is_Some. split.
        * intros Hf. right. split; [done|]. intros [? ?]. done.
        * intros [[? ?]|[Hf _]]; done. }
  split; [exact Hdom|]. split.
  - apply map_subseteq_spec. intros k p Hk. by rewrite HU, Hk.
  - rewrite <- !size_dom, Hdom, size_union_alt.
    apply Nat.add_le_mono_l.
    etrans; [apply (subseteq_size _
      (list_to_set (introduce.idStr <$> api.IntroduceResponse.Peers rp)));
      set_solver|].
    rewrite <- (length_fmap introduce.idStr).
    generalize (introduce.idStr <$> api.IntroduceResponse.Peers rp).
    intros ks. induction ks as [|k ks IH]; cbn [list_to_set length].
    + by rewrite size_empty.
    + etrans; [apply (subseteq_size _ ({[k]} ∪ list_to_set ks)); done|].
      rewrite size_union_alt, size_singleton.
      apply le_n_S.
      etrans; [apply (subseteq_size _ (list_to_set ks : gset string)); set_solver|].
      exact IH.
Qed.

(** X9. A round of [introduceWork] that ends with a response moves the peer
    drawn to the responded side: after the key the peer was drawn under is
    deleted and the response processed, the responder is in [Responded], and
    the key it was drawn under is no longer in [Unqueried], provided that key
    is the responder's own or the key of none of the addresses in the
    response.  If moreover no key was in both maps before and the responder
    was not waiting under its own key elsewhere, no key is in both maps
    after. *)
Theorem processResponse_moves_responder {Conn} (i : introduce.introducer Conn)
    (nextIDStr : string) rp res (self : api.PeerAddress.t) :
  introduce.repProcessor i = irp ->
  api.IntroduceResponse.Self rp = Some self ->
  nextIDStr = introduce.idStr self
  \/ (forall pa, pa ∈ api.IntroduceResponse.Peers rp -> introduce.idStr pa <> nextIDStr) ->
  exists res',
    introduce.processResponse i nextIDStr rp res = Ok res'
    /\ introduce.Result.Responded res' !! introduce.idStr self = Some (fromAPI' self)
    /\ introduce.Result.Unqueried res' !! nextIDStr = None
    /\ ((forall k, is_Some (introduce.Result.Unqueried res !! k) ->
                   introduce.Result.Responded res !! k = None) ->
        (nextIDStr = introduce.idStr self
         \/ introduce.Result.Unqueried res !! introduce.idStr self = None) ->
        forall k, is_Some (introduce.Result.Unqueried res' !! k) ->
                  introduce.Result.Responded res' !! k = None).
Proof.
  intros Hirp Hself Hkey. unfold introduce.processResponse. rewrite Hirp.
  destruct (Process_adds_responder_and_new_peers_lemma irp rp
              {| introduce.Result.Unqueried :=
                   delete nextIDStr (introduce.Result.Unqueried res);
                 introduce.Result.Responded := introduce.Result.Responded res;
                 introduce.Result.NErrors := introduce.Result.NErrors res;
                 introduce.Result.FatalErr := introduce.Result.FatalErr res |}
              self Hself) as (res' & Hp & HR & HU & _ & _).
  cbn [introduce.Result.Unqueried introduce.Result.Responded] in HR, HU.
  exists res'. split; [exact Hp|].
  split; [by rewrite HR, lookup_insert_eq|]. split.
  - rewrite HU, lookup_delete_eq.
    destruct (introduce.Result.Responded res' !! nextIDStr) eqn:Hr; [done|].
    destruct Hkey as [->|Hkey]; [by rewrite HR, lookup_insert_eq in Hr|].
    destruct (firstWithKey nextIDStr (api.IntroduceResponse.Peers rp)) as [pa|] eqn:Hf;
      [|done].
    exfalso. unfold firstWithKey in Hf. apply find_some in Hf as [Hin Hk].
    apply bool_decide_eq_true in Hk. apply (Hkey pa); [|done].
    by apply list_elem_of_In.
  - intros Hdisj Hwait k. rewrite HU.
    destruct (decide (k = nextIDStr)) as [->|Hne].
    + rewrite lookup_delete_eq.
      destruct (introduce.Result.Responded res' !! nextIDStr); [intros [? ?]|]; done.
    + rewrite lookup_delete_ne by done.
      destruct (introduce.Result.Unqueried res !! k) as [p|] eqn:Hk.
      * intros _. rewrite HR. rewrite lookup_insert_ne; [apply Hdisj; eauto|].
        intros <-. destruct Hwait as [->|Hw]; congruence.
      * destruct (introduce.Result.Responded res' !! k); [intros [? ?]|]; done.
Qed.

End ProcessInvariants.

Lemma Process_idempotent_witness :
  exists res',
    introduce.Process (introduce.NewResponseProcessor peer.NewFromer)
      sampleIntroduceResponse sampleIntroduceResult = Ok res'
    /\ introduce.Process (introduce.NewResponseProcessor peer.NewFromer)
         sampleIntroduceResponse res' = Ok res'.
Proof.
  destruct (introduce.Process (introduce.NewResponseProcessor peer.NewFromer)
              sampleIntroduceResponse sampleIntroduceResult) as [res'|e|m] eqn:Hp;
    [|vm_compute in Hp; discriminate..].
  exists res'. split; [reflexivity|].
  exact (Process_idempotent _ _ _ _ Hp).
Defined.

Lemma Process_domains_witness :
  exists res',
    introduce.Process (introduce.NewResponseProcessor peer.NewFromer)
      sampleIntroduceResponse sampleIntroduceResult = Ok res'
    /\ dom (introduce.Result.Unqueried res')
       = dom (introduce.Result.Unqueried sampleIntroduceResult)
         ∪ (list_to_set (introduce.idStr
                           <$> api.IntroduceResponse.Peers sampleIntroduceResponse)
            ∖ dom (introduce.Result.Responded res')).
Proof.
  destruct (introduce.Process (introduce.NewResponseProcessor peer.NewFromer)
              sampleIntroduceResponse sampleIntroduceResult) as [res'|e|m] eqn:Hp;
    [|vm_compute in Hp; discriminate..].
  exists res'. split; [reflexivity|].
  destruct (Process_domains _ _ _ _ Hp) as (self & _ & _ & _ & _ & Hdom & _).
  exact Hdom.
Defined.

(** A responder that has responded before: its entry is overwritten. *)
Example Process_overwrites_responder :
  (fun res' => introduce.Result.Responded res' !! introduce.idStr (sampleAddress 1))
    <$> introduce.Process (introduce.NewResponseProcessor peer.NewFromer)
          sampleIntroduceResponse
          {| introduce.Result.Unqueried := ∅;
             introduce.Result.Responded :=
               {[ introduce.idStr (sampleAddress 1) :=
                    {| peer.ID := 1%N; peer.Name := "old"; peer.Ip := "10.0.0.1";
                       peer.Port := 9%N |} ]};
             introduce.Result.NErrors := 0%N;
             introduce.Result.FatalErr := None |}
  = Ok (Some (fixed.testPeer 1)).
Proof. vm_compute. reflexivity. Qed.

Lemma processResponse_moves_responder_witness :
  let i : introduce.introducer unit :=
    {| introduce.signer := {| client.Sign := fun _ => Ok "jwt" |};
       introduce.querier := {| client.Query := fun _ _ _ => Err "unreachable" |};
       introduce.repProcessor := introduce.NewResponseProcessor peer.NewFromer |} in
  exists res',
    introduce.processResponse i "seed00" sampleIntroduceResponse sampleIntroduceResult
    = Ok res'
    /\ introduce.Result.Responded res' !! introduce.idStr (sampleAddress 1)
       = Some (fixed.testPeer 1)
    /\ introduce.Result.Unqueried res' !! "seed00" = None.
Proof.
  intros i.
  destruct (processResponse_moves_responder
              (introduce.NewResponseProcessor peer.NewFromer) i "seed00"
              sampleIntroduceResponse sampleIntroduceResult (sampleAddress 1)
              eq_refl eq_refl) as (res' & Hp & HR & HU & _).
  - right. intros pa Hpa.
    repeat (apply elem_of_cons in Hpa as [->|Hpa]; [vm_compute; discriminate|]).
    by apply elem_of_nil in Hpa.
  - exists res'. split; [exact Hp|]. split; [|exact HU].
    rewrite HR. vm_compute. reflexivity.
Defined.

(** ** The entry packer and unpacker *)

Section PackerMore.
Context {D : Type}.
Implicit Types (docL : storage.DocumentLoader.t D) (d : D).

(** X10. Whenever [newEntryDoc] returns a document, the document is an
    entry by the given author, stamped with the time read and carrying the
    encrypted metadata; it inlines a page exactly when one page ID was given,
    and that page is the one the loader returns for this ID; otherwise it
    lists the bytes of the page IDs. *)
Theorem newEntryDoc_Ok_is_entry now authorPub (pageIDs : list id.ID) encMeta docL d doc :
  pack.newEntryDoc now authorPub pageIDs encMeta docL d = Ok doc ->
  exists e,
    api.Document.Contents doc = Some (api.Document_Entry e)
    /\ api.Entry.AuthorPublicKey e = authorPub
    /\ api.Entry.CreatedTime e = now
    /\ api.Entry.MetadataCiphertext e = enc.Ciphertext encMeta
    /\ api.Entry.MetadataCiphertextMac e = enc.CiphertextMAC encMeta
    /\ (is_Some (inlinedPageOf doc) <-> length pageIDs = 1%nat)
    /\ (forall page, inlinedPageOf doc = Some page ->
          exists pageID,
            pageIDs = [pageID]
            /\ storage.DocumentLoader.Load docL pageID d
               = Ok (Some {| api.Document.Contents := Some (api.Document_Page page) |}))
    /\ (length pageIDs <> 1%nat -> pageKeysOf doc = Some (map id.Bytes pageIDs)).
Proof.
  intros Hdoc.
  destruct (decide (length pageIDs = 1%nat)) as [Hone|Hmany].
  - destruct pageIDs as [|pageID [|? ?]]; try done.
    unfold pack.newEntryDoc, pack.newSinglePageEntry in Hdoc.
    destruct (storage.DocumentLoader.Load docL pageID d) as [[[c]|]|e|m] eqn:Hload;
      try done.
    destruct c as [[ | |page]|]; try done.
    injection Hdoc as <-. eexists. split; [reflexivity|]. cbn.
    do 4 (split; [reflexivity|]). split; [split; eauto|].
    split; [|done]. intros page' [= <-]. eauto.
  - rewrite (newEntryDoc_multi now authorPub pageIDs encMeta docL d Hmany) in Hdoc.
    injection Hdoc as <-. eexists. split; [reflexivity|]. cbn.
    do 4 (split; [reflexivity|]). split; [split; [intros [? ?]|]; done|].
    split; done.
Qed.

(** X11. With one page ID, [newEntryDoc] fails in three ways: an error of
    the loader is returned as it is; a document that is not a page (an
    envelope, an entry or a document without contents) gives the error
    "not a page"; and a nil document returned without error, which is how a
    missing key loads, makes the function dereference nil and panic. *)
Theorem newEntryDoc_single_page_failures now authorPub (pageID : id.ID) encMeta docL d :
  let out := pack.newEntryDoc now authorPub [pageID] encMeta docL d in
  match storage.DocumentLoader.Load docL pageID d with
  | Err e => out = Err e
  | Panic m => out = Panic m
  | Ok None => out = Panic nil_dereference
  | Ok (Some pageDoc) =>
      match api.Document.Contents pageDoc with
      | Some (api.Document_Page page) => inlinedPageOf <$> out = Ok (Some page)
      | _ => out = Err "not a page"
      end
  end.
Proof.
  cbv zeta. unfold pack.newEntryDoc, pack.newSinglePageEntry.
  destruct (storage.DocumentLoader.Load docL pageID d) as [[[c]|]|e|m]; try done.
  destruct c as [[ | |page]|]; done.
Qed.

(** X12. [Pack] never writes to the document store itself: in every outcome
    the store is as the printer left it.  When it returns an entry, the
    metadata returned is the printer's, and the entry is the one
    [newEntryDoc] builds from the page keys of the printer and the encrypted
    metadata against the store as the printer left it, so that a single page
    is loaded from the store the printer has just written. *)
Theorem Pack_store_as_printed (p : pack.entryPacker D) now content mediaType keys
    authorPub d :
  let out := pack.Pack p now content mediaType keys authorPub d in
  let printed := print.Print (pack.printer p) content mediaType keys authorPub d in
  snd out = snd printed
  /\ (forall doc metadata,
        fst out = Ok (doc, metadata) ->
        exists pageKeys encMetadata,
          fst printed = Ok (pageKeys, metadata)
          /\ enc.Encrypt (pack.metadataEnc p) metadata keys = Ok encMetadata
          /\ pack.newEntryDoc now authorPub pageKeys encMetadata (pack.docL p)
               (snd printed) = Ok doc)
  /\ (forall e, fst printed = Err e -> fst out = Err e).
Proof.
  cbv zeta. unfold pack.Pack.
  destruct (print.Print _ _ _ _ _ _) as [[[pageKeys metadata]|e|m] d']; cbn;
    [|split; [done|split; [done|by intros ? [= ->]]]|done].
  destruct (enc.Encrypt _ _ _) as [encMetadata|e|m] eqn:Henc; cbn; [|done..].
  destruct (pack.newEntryDoc _ _ _ _ _ _) as [doc|e|m] eqn:Hdoc; cbn; [|done..].
  split; [done|]. split; [|done]. intros doc' md [= <- <-]. eauto.
Qed.

End PackerMore.

Lemma newEntryDoc_Ok_is_entry_lemma {D} now authorPub (pageIDs : list id.ID) encMeta
    (docL : storage.DocumentLoader.t D) (d : D) doc :
  pack.newEntryDoc now authorPub pageIDs encMeta docL d = Ok doc ->
  (is_Some (inlinedPageOf doc) <-> length pageIDs = 1%nat)
  /\ (length pageIDs <> 1%nat -> pageKeysOf doc = Some (map id.Bytes pageIDs)).
Proof.
  intros Hdoc.
  destruct (decide (length pageIDs = 1%nat)) as [Hone|Hmany].
  - destruct pageIDs as [|pageID [|? ?]]; try done.
    unfold pack.newEntryDoc, pack.newSinglePageEntry in Hdoc.
    destruct (storage.DocumentLoader.Load docL pageID d) as [[[c]|]|e|m]; try done.
    destruct c as [[ | |page]|]; try done.
    injection Hdoc as <-. cbn. split; [split; eauto|done].
  - rewrite (newEntryDoc_multi now authorPub pageIDs encMeta docL d Hmany) in Hdoc.
    injection Hdoc as <-. cbn. split; [split; [intros [? ?]|]; done|done].
Qed.

Lemma newEntryDoc_Ok_is_entry_witness :
  exists doc e,
    pack.newEntryDoc 7 [Byte.x0a] [5%N]
      {| enc.Ciphertext := [Byte.x0c]; enc.CiphertextMAC := [Byte.x0d] |}
      fixed.mapDocLoader ({[ 5%N := sampleDocument ]} : gmap N api.Document.t) = Ok doc
    /\ api.Document.Contents doc = Some (api.Document_Entry e)
    /\ api.Entry.AuthorPublicKey e = [Byte.x0a]
    /\ api.Entry.CreatedTime e = 7%Z
    /\ is_Some (inlinedPageOf doc).
Proof.
  destruct (pack.newEntryDoc 7 [Byte.x0a] [5%N]
      {| enc.Ciphertext := [Byte.x0c]; enc.CiphertextMAC := [Byte.x0d] |}
      fixed.mapDocLoader ({[ 5%N := sampleDocument ]} : gmap N api.Document.t))
    as [doc|err|m] eqn:Hdoc; [|vm_compute in Hdoc; discriminate..].
  destruct (newEntryDoc_Ok_is_entry _ _ _ _ _ _ _ Hdoc)
    as (e & Hc & Ha & Ht & _ & _ & Hone & _).
  exists doc, e. repeat split; try assumption. by apply Hone.
Defined.

Section PackerComposition.
Context {D : Type}.

(** X13. If the printer files its pages, that is if every page key it
    returns loads a page from the store it leaves, then [Pack] succeeds
    whenever the printer and the metadata encrypter do: the entry cannot fail
    on a missing or foreign page, and it inlines the page when the printer
    made exactly one. *)
Theorem Pack_succeeds_when_pages_are_filed (p : pack.entryPacker D) now content
    mediaType keys authorPub d pageKeys metadata d' encMetadata :
  printerFilesPages p ->
  print.Print (pack.printer p) content mediaType keys authorPub d
    = (Ok (pageKeys, metadata), d') ->
  enc.Encrypt (pack.metadataEnc p) metadata keys = Ok encMetadata ->
  exists doc,
    pack.Pack p now content mediaType keys authorPub d = (Ok (doc, metadata), d')
    /\ (is_Some (inlinedPageOf doc) <-> length pageKeys = 1%nat)
    /\ (length pageKeys <> 1%nat -> pageKeysOf doc = Some (map id.Bytes pageKeys)).
Proof.
  intros Hfiles Hprint Henc. unfold pack.Pack. rewrite Hprint, Henc.
  assert (Hdoc : exists doc,
    pack.newEntryDoc now authorPub pageKeys encMetadata (pack.docL p) d' = Ok doc).
  { destruct (decide (length pageKeys = 1%nat)) as [Hone|Hmany].
    - destruct pageKeys as [|pageKey [|? ?]]; try done.
      destruct (Hfiles _ _ _ _ _ _ _ _ Hprint pageKey) as [page Hload];
        [by apply elem_of_cons; left|].
      eexists. by apply newEntryDoc_single.
    - eexists. by apply newEntryDoc_multi. }
  destruct Hdoc as [doc Hdoc]. rewrite Hdoc. exists doc. split; [done|].
  destruct (newEntryDoc_Ok_is_entry_lemma _ _ _ _ _ _ _ Hdoc) as [Hone Hkeys]. done.
Qed.

End PackerComposition.

Lemma Pack_succeeds_when_pages_are_filed_witness :
  exists doc,
    pack.Pack onePagePacker 7 [Byte.x61] "text/plain" sampleKeys [Byte.x0a] ∅
    = (Ok (doc, {[ "media_type" := [Byte.x01] ]}), {[ 5%N := sampleDocument ]})
    /\ is_Some (inlinedPageOf doc).
Proof.
  destruct (Pack_succeeds_when_pages_are_filed onePagePacker 7 [Byte.x61] "text/plain"
              sampleKeys [Byte.x0a] ∅ [5%N] {[ "media_type" := [Byte.x01] ]}
              (<[5%N := sampleDocument]> ∅)
              {| enc.Ciphertext := [Byte.x0c]; enc.CiphertextMAC := [Byte.x0d] |})
    as (doc & Hpack & Hone & _).
  - intros content mediaType keys authorPub d pageKeys metadata d' Hprint pageKey Hin.
    injection Hprint as <- _ <-. apply list_elem_of_singleton in Hin as ->.
    eexists. cbn. rewrite lookup_insert_eq. reflexivity.
  - reflexivity.
  - reflexivity.
  - exists doc. split; [exact Hpack|]. by apply Hone.
Defined.

Section UnpackerProperties.
Context {D W : Type}.

(** X14. [Unpack] touches the content writer only through the scanner.  On
    a document that is not an entry (nil, an envelope, a page, or without
    contents) its type assertion panics; when the encrypted metadata cannot
    be built or decrypted, or the page keys cannot be resolved, it returns
    that error; in all these cases the writer is as it was.  When it returns
    metadata, the metadata is what the decrypter made of the entry's
    ciphertext and MAC, the scanner has run once, on the page keys of the
    entry (for an inlined page, the one key computed for that page), and its
    error is returned beside the metadata. *)
Theorem Unpack_writes_only_by_scanning (u : pack.entryUnpacker D W)
    (h : pack.unpackHelpers) (entry : option api.Document.t) (keys : enc.Keys)
    (d : D) (content : W) :
  let out := pack.Unpack u h entry keys d content in
  ((forall e, entry <> Some {| api.Document.Contents := Some (api.Document_Entry e) |}) ->
     is_Panic (fst out) = true /\ snd out = content)
  /\ (forall err, fst out = Err err -> snd out = content)
  /\ (forall metadata scanErr,
        fst out = Ok (metadata, scanErr) ->
        exists doc e encMetadata pageKeys,
          entry = Some doc
          /\ api.Document.Contents doc = Some (api.Document_Entry e)
          /\ pack.NewEncryptedMetadata h (api.Entry.MetadataCiphertext e)
               (api.Entry.MetadataCiphertextMac e) = Ok encMetadata
          /\ enc.Decrypt (pack.metadataDec u) encMetadata keys = Ok metadata
          /\ pack.unpackPageKeys h doc e = Ok pageKeys
          /\ (forall page, api.Entry.Contents e = api.Entry_Page page ->
                length pageKeys = 1%nat)
          /\ print.Scan (pack.scanner u) pageKeys keys metadata d content
             = (scanErr, snd out)).
Proof.
  cbv zeta. unfold pack.Unpack.
  destruct entry as [[[[env|e|page]|]]|]; cbn;
    try (split; [done|split; [done|done]]).
  destruct (pack.NewEncryptedMetadata h _ _) as [encMetadata|err|m] eqn:Hnew; cbn;
    [|split; [intros Hn; by destruct (Hn e)|done]..].
  destruct (enc.Decrypt _ _ _) as [metadata|err|m] eqn:Hdec; cbn;
    [|split; [intros Hn; by destruct (Hn e)|done]..].
  destruct (pack.unpackPageKeys h _ e) as [pageKeys|err|m] eqn:Hkeys; cbn;
    [|split; [intros Hn; by destruct (Hn e)|done]..].
  destruct (print.Scan _ _ _ _ _ _) as [scanErr content'] eqn:Hscan. cbn.
  split; [intros Hn; by destruct (Hn e)|]. split; [done|].
  intros md se [= <- <-]. eexists _, e, encMetadata, pageKeys.
  repeat split; try done.
  intros page Hpage. unfold pack.unpackPageKeys in Hkeys. rewrite Hpage in Hkeys.
  destruct (pack.GetPageDocument h page) as [[? docKey]|?|?]; [|done..].
  by injection Hkeys as <-.
Qed.

End UnpackerProperties.

(** ** The health clients of an author *)

Section HealthClientProperties.
Context {Addr Conn Client : Type}.
Variable addrString : Addr -> string.
Variable grpc_Dial : string -> result Conn.
Variable NewHealthClient : Conn -> Client.

Local Abbreviation dialEach := (author.dialEach addrString grpc_Dial NewHealthClient).

Lemma dialEach_Ok (addrs : list Addr) (acc m : gmap string Client) :
  dialEach addrs acc = Ok m ->
  dom m = dom acc ∪ list_to_set (addrString <$> addrs)
  /\ (forall k, k ∉ addrString <$> addrs -> m !! k = acc !! k)
  /\ (forall a, a ∈ addrs ->
        exists conn, grpc_Dial (addrString a) = Ok conn
                     /\ m !! addrString a = Some (NewHealthClient conn)).
Proof.
  revert acc. induction addrs as [|a addrs IH]; intros acc Hrun.
  - injection Hrun as <-. cbn. split; [set_solver|]. split; [done|].
    intros a Ha. by apply elem_of_nil in Ha.
  - cbn [author.dialEach] in Hrun.
    destruct (grpc_Dial (addrString a)) as [conn|e|msg] eqn:Hdial; [|done..].
    apply IH in Hrun as (Hdom & Hother & Hin).
    split; [|split].
    + rewrite Hdom, dom_insert_L. cbn [fmap list_fmap list_to_set]. set_solver.
    + intros k Hk. cbn [fmap list_fmap] in Hk. apply not_elem_of_cons in Hk as [Hne Hk].
      rewrite Hother by done. by rewrite lookup_insert_ne.
    + intros b Hb. apply elem_of_cons in Hb as [->|Hb]; [|by apply Hin].
      destruct (decide (addrString a ∈ addrString <$> addrs)) as [Hdup|Hfresh].
      * apply list_elem_of_fmap in Hdup as (b & Heq & Hb).
        destruct (Hin b Hb) as (conn' & Hd & Hl). rewrite <- Heq in Hd, Hl.
        rewrite Hdial in Hd. injection Hd as <-. eauto.
      * exists conn. split; [done|]. rewrite Hother by done.
        by rewrite lookup_insert_eq.
Qed.

Lemma dialEach_all_Ok (addrs : list Addr) (acc : gmap string Client) :
  (forall a, a ∈ addrs -> is_Ok (grpc_Dial (addrString a)) = true) ->
  exists m, dialEach addrs acc = Ok m.
Proof.
  revert acc. induction addrs as [|a addrs IH]; intros acc Hall.
  - by eexists.
  - cbn [author.dialEach].
    pose proof (Hall a (list_elem_of_here _ _)) as Ha.
    destruct (grpc_Dial (addrString a)) as [conn|e|msg]; [|done..].
    apply IH. intros b Hb. apply Hall. by apply list_elem_of_further.
Qed.

Lemma dialEach_Err (addrs : list Addr) (acc : gmap string Client) (e : error) :
  dialEach addrs acc = Err e ->
  exists before a after,
    addrs = before ++ a :: after
    /\ grpc_Dial (addrString a) = Err e
    /\ (forall b, b ∈ before -> is_Ok (grpc_Dial (addrString b)) = true).
Proof.
  revert acc. induction addrs as [|a addrs IH]; intros acc Hrun; [done|].
  cbn [author.dialEach] in Hrun.
  destruct (grpc_Dial (addrString a)) as [conn|e'|msg] eqn:Hdial; [| |done].
  - apply IH in Hrun as (before & b & after & -> & Hb & Hbefore).
    exists (a :: before), b, after. split; [done|]. split; [done|].
    intros c Hc. apply elem_of_cons in Hc as [->|Hc]; [by rewrite Hdial|by apply Hbefore].
  - injection Hrun as ->. exists [], a, addrs. split; [done|]. split; [done|].
    intros b Hb. by apply elem_of_nil in Hb.
Qed.

(** X15. [getLibrarianHealthClients] dials the addresses in order.  If
    every dial succeeds it returns a map whose keys are exactly the strings
    of the addresses, each holding the health client of a connection dialled
    for that string, so that addresses with the same string share one entry
    and the map has at most as many entries as there are addresses.  If a
    dial fails it returns the error of the first dial that fails, and no
    map. *)
Theorem getLibrarianHealthClients_one_client_per_address (addrs : list Addr) :
  let out := author.getLibrarianHealthClients addrString grpc_Dial NewHealthClient addrs in
  ((forall a, a ∈ addrs -> is_Ok (grpc_Dial (addrString a)) = true) ->
     exists m,
       out = Ok m
       /\ dom m = list_to_set (addrString <$> addrs)
       /\ (size m <= length addrs)%nat
       /\ (forall a, a ∈ addrs ->
             exists conn, grpc_Dial (addrString a) = Ok conn
                          /\ m !! addrString a = Some (NewHealthClient conn)))
  /\ (forall e, out = Err e ->
        exists before a after,
          addrs = before ++ a :: after
          /\ grpc_Dial (addrString a) = Err e
          /\ (forall b, b ∈ before -> is_Ok (grpc_Dial (addrString b)) = true)).
Proof.
  cbv zeta. unfold author.getLibrarianHealthClients. split.
  - intros Hall. destruct (dialEach_all_Ok addrs ∅ Hall) as [m Hm].
    exists m. split; [done|].
    apply dialEach_Ok in Hm as (Hdom & _ & Hin).
    rewrite dom_empty_L, (left_id_L ∅ (∪)) in Hdom.
    split; [done|]. split; [|done].
    rewrite <- size_dom, Hdom. rewrite <- (length_fmap addrString).
    generalize (addrString <$> addrs). intros ks.
    induction ks as [|k ks IH]; cbn [list_to_set length].
    + by rewrite size_empty.
    + rewrite size_union_alt, size_singleton. apply le_n_S.
      etrans; [apply (subseteq_size _ (list_to_set ks : gset string)); set_solver|].
      exact IH.
  - intros e. apply dialEach_Err.
Qed.

End HealthClientProperties.

Lemma getLibrarianHealthClients_one_client_per_address_witness :
  let dial (a : string) : result string :=
    if bool_decide (a = "down:1") then Err "connection refused" else Ok ("conn to " +:+ a) in
  (exists m,
      author.getLibrarianHealthClients (fun a : string => a) dial (fun c => c)
        ["a:1"; "b:2"; "a:1"] = Ok m
      /\ dom m = list_to_set ["a:1"; "b:2"; "a:1"]
      /\ (size m <= 3)%nat)
  /\ author.getLibrarianHealthClients (fun a : string => a) dial (fun c => c)
       ["a:1"; "down:1"; "b:2"] = Err "connection refused".
Proof.
  intros dial. split; [|vm_compute; reflexivity].
  destruct (proj1 (getLibrarianHealthClients_one_client_per_address
                     (fun a : string => a) dial (fun c => c) ["a:1"; "b:2"; "a:1"]))
    as (m & Hm & Hdom & Hsize & _).
  - intros a Ha.
    repeat (apply elem_of_cons in Ha as [->|Ha]; [vm_compute; reflexivity|]).
    by apply elem_of_nil in Ha.
  - exists m. split; [exact Hm|]. split; [exact Hdom|exact Hsize].
Defined.

(** ** The seed of the Introduce sample *)

Lemma FromBytes_bound (b : bytes) : (id.FromBytes b < 256 ^ N.of_nat (length b))%N.
Proof.
  induction b as [|x b IH] using rev_ind.
  - cbn. lia.
  - rewrite FromBytes_snoc, length_app. cbn [length].
    replace (N.of_nat (length b + 1)) with (N.succ (N.of_nat (length b))) by lia.
    rewrite N.pow_succ_r by lia.
    pose proof (Byte.to_N_bounded x). lia.
Qed.

Lemma byte_of_N_to_N (y : N) (x : byte) : id.byte_of_N (y * 256 + Byte.to_N x) = x.
Proof.
  unfold id.byte_of_N. pose proof (Byte.to_N_bounded x).
  replace ((y * 256 + Byte.to_N x) mod 256)%N with (Byte.to_N x).
  - by rewrite Byte.of_to_N.
  - rewrite N.add_comm, N.Div0.mod_add. symmetry. apply N.mod_small. lia.
Qed.

(** The bytes of a string are read back from its big-endian integer. *)
Lemma big_endian_FromBytes (b : bytes) : id.big_endian (length b) (id.FromBytes b) = b.
Proof.
  induction b as [|x b IH] using rev_ind; [done|].
  rewrite FromBytes_snoc, length_app. cbn [length].
  replace (length b + 1)%nat with (S (length b)) by lia.
  cbn [id.big_endian]. rewrite byte_of_N_to_N. f_equal.
  replace ((id.FromBytes b * 256 + Byte.to_N x) / 256)%N with (id.FromBytes b); [done|].
  pose proof (Byte.to_N_bounded x).
  rewrite N.add_comm, N.div_add by lia. rewrite N.div_small by lia. lia.
Qed.

Lemma FromBytes_inj (b1 b2 : bytes) :
  length b1 = length b2 -> id.FromBytes b1 = id.FromBytes b2 -> b1 = b2.
Proof.
  intros Hlen Heq. rewrite <- (big_endian_FromBytes b1), <- (big_endian_FromBytes b2).
  by rewrite Hlen, Heq.
Qed.

Lemma int64_range (x : N) : (- 2 ^ 63 <= int64 x < 2 ^ 63)%Z.
Proof.
  unfold int64. pose proof (Z.mod_pos_bound (Z.of_N x) (2 ^ 64) ltac:(lia)).
  case_decide; lia.
Qed.

Lemma int64_inj (x y : N) :
  (x < 2 ^ 64)%N -> (y < 2 ^ 64)%N -> int64 x = int64 y -> x = y.
Proof.
  unfold int64. intros Hx Hy.
  rewrite !Z.mod_small by lia.
  repeat case_decide; lia.
Qed.

(** X16. For request IDs of at least eight bytes the seed of the Introduce
    sample is a 64-bit signed integer that is the same for two request IDs
    exactly when their first eight bytes are the same: the later bytes of
    the request ID never matter, and every bit of the first eight does. *)
Theorem sampleSeed_same_iff_same_first_8_bytes (rid1 rid2 : bytes) :
  (8 <= length rid1)%nat -> (8 <= length rid2)%nat ->
  exists seed1 seed2,
    server.sampleSeed rid1 = Ok seed1
    /\ server.sampleSeed rid2 = Ok seed2
    /\ (- 2 ^ 63 <= seed1 < 2 ^ 63)%Z
    /\ (seed1 = seed2 <-> take 8 rid1 = take 8 rid2).
Proof.
  intros H1 H2. rewrite !sampleSeed_unfold, !decide_True by done.
  eexists _, _. split; [reflexivity|]. split; [reflexivity|].
  split; [apply int64_range|]. split; [|by intros ->].
  intros Hseed.
  assert (Hl : forall rid : bytes, (8 <= length rid)%nat -> length (take 8 rid) = 8%nat)
    by (intros rid ?; rewrite length_take; lia).
  apply FromBytes_inj; [by rewrite !Hl|].
  apply int64_inj; [| |done].
  - pose proof (FromBytes_bound (take 8 rid1)) as Hb. rewrite Hl in Hb by done.
    exact Hb.
  - pose proof (FromBytes_bound (take 8 rid2)) as Hb. rewrite Hl in Hb by done.
    exact Hb.
Qed.

Lemma sampleSeed_same_iff_same_first_8_bytes_witness :
  exists seed1 seed2,
    server.sampleSeed (api.RequestMetadata.RequestId (sampleMetadata Byte.x00)) = Ok seed1
    /\ server.sampleSeed (api.RequestMetadata.RequestId (sampleMetadata Byte.xff)) = Ok seed2
    /\ (- 2 ^ 63 <= seed1 < 2 ^ 63)%Z
    /\ (seed1 = seed2 <->
        take 8 (api.RequestMetadata.RequestId (sampleMetadata Byte.x00))
        = take 8 (api.RequestMetadata.RequestId (sampleMetadata Byte.xff))).
Proof.
  apply (sampleSeed_same_iff_same_first_8_bytes
           (api.RequestMetadata.RequestId (sampleMetadata Byte.x00))
           (api.RequestMetadata.RequestId (sampleMetadata Byte.xff)));
    vm_compute; lia.
Defined.

Example sampleSeed_negative :
  server.sampleSeed (replicate 8 Byte.xff) = Ok (-1)%Z.
Proof. vm_compute. reflexivity. Qed.

(** ** More on the handlers *)

Section HandlerEffects.
Context {RT DS : Type} `{Primitives}.
Variable searchPredicates : search.Predicates.
Implicit Types (l : server.Librarian RT DS) (w : server.World RT DS).

Local Abbreviation recorded' requesterID w :=
  (server.set_outcomes
     (server.w_outcomes w ++ [(requesterID, peer.Request, peer.Success)]) w).

Lemma Cmp_zero (a b : id.ID) : (id.Cmp a b =? 0)%Z = bool_decide (a = b).
Proof.
  unfold id.Cmp. destruct (N.compare_spec a b) as [->|Hlt|Hgt].
  - by rewrite bool_decide_eq_true_2.
  - rewrite bool_decide_eq_false_2 by lia. done.
  - rewrite bool_decide_eq_false_2 by lia. done.
Qed.

(** X17. An Introduce request that passes the request check but states, in
    its [Self], a peer ID other than the one derived from its signature is
    refused with an error, before anything is recorded or pushed: the state
    of the server is unchanged. *)
Theorem Introduce_refuses_mismatched_peer_id
    l ctx (rq : api.IntroduceRequest.t) w requesterID :
  server.checkRequest l ctx (api.MsgIntroduce rq) (api.IntroduceRequest.Metadata rq) w
    = (Ok requesterID, w) ->
  peer.ID (peer.FromAPI (server.fromer l) (api.IntroduceRequest.Self rq)) <> requesterID ->
  server.Introduce l ctx rq w
  = (Err "stated client peer ID does not match signature", w).
Proof.
  intros Hc Hne. unfold server.Introduce. rewrite (bind_Ok _ _ _ _ _ Hc).
  rewrite Cmp_zero, bool_decide_eq_false_2 by done. done.
Qed.

(** X18. A successful Introduce has pushed the requester, and nothing
    else, into the routing table, has recorded one successful request against
    the requester, whose stated ID is the one derived from the public key of
    the request, and has left the documents and the queue of publications
    alone; the response carries the librarian's own address. *)
Theorem Introduce_pushes_the_requester
    l ctx (rq : api.IntroduceRequest.t) w rp w' :
  server.Introduce l ctx rq w = (Ok rp, w') ->
  let requester := peer.FromAPI (server.fromer l) (api.IntroduceRequest.Self rq) in
  server.checkRequest l ctx (api.MsgIntroduce rq) (api.IntroduceRequest.Metadata rq) w
    = (Ok (peer.ID requester), w)
  /\ server.w_rt w' = routing.Table.Push (server.rt l) requester (server.w_rt w)
  /\ server.w_outcomes w'
     = server.w_outcomes w ++ [(peer.ID requester, peer.Request, peer.Success)]
  /\ server.w_docs w' = server.w_docs w
  /\ server.w_newPubs w' = server.w_newPubs w
  /\ api.IntroduceResponse.Self rp = server.apiSelf l.
Proof.
  intros Hrun requester. unfold server.Introduce in Hrun.
  pose proof (checkRequest_state l ctx (api.MsgIntroduce rq)
                (api.IntroduceRequest.Metadata rq) w) as Hst.
  destruct (server.checkRequest l ctx (api.MsgIntroduce rq)
              (api.IntroduceRequest.Metadata rq) w) as [[i|e|msg] w0] eqn:Hc;
    simpl in Hst; subst w0.
  2: { by rewrite (bind_Err _ _ _ _ _ Hc) in Hrun. }
  2: { by rewrite (bind_Panic _ _ _ _ _ Hc) in Hrun. }
  rewrite (bind_Ok _ _ _ _ _ Hc) in Hrun. fold requester in Hrun.
  rewrite Cmp_zero in Hrun. case_bool_decide as Hid; [|done]. subst i.
  cbn [negb] in Hrun.
  rewrite (bind_Ok _ _ _ _ _ (record_run l _ w)) in Hrun.
  rewrite (bind_Ok _ _ _ _ _ (rt_Push_run l _ _)) in Hrun.
  destruct (api.IntroduceRequest.Metadata rq) as [m|] eqn:Hm; [|done].
  destruct (server.sampleSeed (api.RequestMetadata.RequestId m)) as [seed|e|msg].
  2: { by rewrite (bind_Err (liftResult (Err e)) _ _ e _ eq_refl) in Hrun. }
  2: { by rewrite (bind_Panic (liftResult (Panic msg)) _ _ msg _ eq_refl) in Hrun. }
  rewrite (bind_Ok (liftResult (Ok seed)) _ _ seed _ eq_refl) in Hrun.
  rewrite (bind_Ok _ _ _ _ _ (rt_Sample_run l _ _ _)) in Hrun.
  rewrite (bind_Ok _ _ _ _ _ (NewResponseMetadata_Some l m _)) in Hrun.
  injection Hrun as <- <-. done.
Qed.

(** *** Find, Get and Put leave the local store alone *)

Lemma rt_PushAll_set_rt l ps (f : RT -> RT) w :
  server.rt_PushAll l ps (server.set_rt f w)
  = (Ok tt, server.set_rt (fun t => pushedAll (server.rt l) ps (f t)) w).
Proof.
  revert f. induction ps as [|p ps IH]; intros f; [done|].
  cbn [server.rt_PushAll].
  rewrite (bind_Ok _ _ _ _ _ (rt_Push_run l p _)).
  exact (IH (fun t => routing.Table.Push (server.rt l) p (f t))).
Qed.

(** [Get] once the checks have passed and the searcher has returned. *)
Lemma Get_run l ctx (rq : api.GetRequest.t) w requesterID m err s t :
  server.checkRequestAndKey l ctx (api.MsgGet rq) (api.GetRequest.Metadata rq)
    (api.GetRequest.Key rq) w = (Ok requesterID, w) ->
  api.GetRequest.Metadata rq = Some m ->
  search.Search (server.searcher l)
    (search.NewSearch (server.selfID l) (id.FromBytes (api.GetRequest.Key rq))
       (server.Config.Search (server.config l)))
    (routing.Table.Peak (server.rt l) (id.FromBytes (api.GetRequest.Key rq))
       (search.Parameters.Concurrency (server.Config.Search (server.config l)))
       (server.w_rt w))
    (server.w_rt w) = (err, s, t) ->
  exists r w2,
    server.Get searchPredicates l ctx rq w = (r, w2)
    /\ server.w_docs w2 = server.w_docs w
    /\ server.w_newPubs w2 = server.w_newPubs w
    /\ server.w_outcomes w2
       = server.w_outcomes w ++ [(requesterID, peer.Request, peer.Success)]
    /\ server.w_rt w2
       = match err with
         | Some _ => t
         | None => pushedAll (server.rt l)
                     (search.Result.Closest (search.Search.Result s)) t
         end
    /\ (forall e, err = Some e -> r = Err e).
Proof.
  intros Hc Hm Hsearch. unfold server.Get.
  rewrite (bind_Ok _ _ _ _ _ Hc), Hm.
  rewrite (bind_Ok _ _ _ _ _ (record_run l requesterID w)).
  rewrite (bind_Ok _ _ _ _ _ (rt_Peak_run l _ _ _)).
  pose proof (searcher_Search_run l _ _ (recorded' requesterID w) err s t Hsearch)
    as Hrun.
  destruct err as [e|].
  { rewrite (bind_Err _ _ _ _ _ Hrun). eexists _, _. split; [reflexivity|].
    cbn. repeat split; try done. by intros ? [= ->]. }
  rewrite (bind_Ok _ _ _ _ _ Hrun).
  rewrite (bind_Ok _ _ _ _ _ (rt_PushAll_set_rt l _ _ _)).
  destruct (search.FoundValue searchPredicates s).
  { rewrite (bind_Ok _ _ _ _ _ (NewResponseMetadata_Some l m _)).
    eexists _, _. split; [reflexivity|]. by cbn. }
  destruct (search.FoundClosestPeers searchPredicates s).
  { rewrite (bind_Ok _ _ _ _ _ (NewResponseMetadata_Some l m _)).
    eexists _, _. split; [reflexivity|]. by cbn. }
  destruct (search.Errored searchPredicates s);
    [|destruct (search.Exhausted searchPredicates s)];
    (eexists _, _; split; [reflexivity|]; by cbn).
Qed.

(** [Put] once the checks have passed and the storer has returned. *)
Lemma Put_run l ctx (rq : api.PutRequest.t) w requesterID m err s t :
  server.checkRequestAndKeyValue l ctx (api.MsgPut rq) (api.PutRequest.Metadata rq)
    (api.PutRequest.Key rq) (api.PutRequest.Value rq) w = (Ok requesterID, w) ->
  api.PutRequest.Metadata rq = Some m ->
  store.Store (server.storer l)
    (store.NewStore (server.selfID l) (id.FromBytes (api.PutRequest.Key rq))
       (api.PutRequest.Value rq) (server.Config.Search (server.config l))
       (server.Config.Store (server.config l)))
    (routing.Table.Peak (server.rt l) (id.FromBytes (api.PutRequest.Key rq))
       (search.Parameters.Concurrency (server.Config.Search (server.config l)))
       (server.w_rt w))
    (server.w_rt w) = (err, s, t) ->
  exists r w2,
    server.Put l ctx rq w = (r, w2)
    /\ server.w_docs w2 = server.w_docs w
    /\ server.w_newPubs w2 = server.w_newPubs w
    /\ server.w_outcomes w2
       = server.w_outcomes w ++ [(requesterID, peer.Request, peer.Success)]
    /\ server.w_rt w2
       = match err with
         | Some _ => t
         | None => pushedAll (server.rt l)
                     (store.Result.Responded (store.Store.Result s)) t
         end
    /\ (forall e, err = Some e -> r = Err e).
Proof.
  intros Hc Hm Hstore. unfold server.Put.
  rewrite (bind_Ok _ _ _ _ _ Hc), Hm.
  rewrite (bind_Ok _ _ _ _ _ (record_run l requesterID w)).
  rewrite (bind_Ok _ _ _ _ _ (rt_Peak_run l _ _ _)).
  pose proof (storer_Store_run l _ _ (recorded' requesterID w) err s t Hstore)
    as Hrun.
  destruct err as [e|].
  { rewrite (bind_Err _ _ _ _ _ Hrun). eexists _, _. split; [reflexivity|].
    cbn. repeat split; try done. by intros ? [= ->]. }
  rewrite (bind_Ok _ _ _ _ _ Hrun).
  rewrite (bind_Ok _ _ _ _ _ (rt_PushAll_set_rt l _ _ _)).
  destruct (store.Stored s).
  { rewrite (bind_Ok _ _ _ _ _ (NewResponseMetadata_Some l m _)).
    eexists _, _. split; [reflexivity|]. by cbn. }
  destruct (store.Exists s).
  { rewrite (bind_Ok _ _ _ _ _ (NewResponseMetadata_Some l m _)).
    eexists _, _. split; [reflexivity|]. by cbn. }
  destruct (store.Errored s); [|destruct (store.Exhausted s)];
    (eexists _, _; split; [reflexivity|]; by cbn).
Qed.

(** X19. Find writes no document and publishes nothing: whatever the request
    and whatever the outcome, the documents the librarian stores and the
    queue of publications are after the call what they were before it. *)
Theorem Find_keeps_the_local_store l ctx (rq : api.FindRequest.t) w :
  let w' := snd (server.Find l ctx rq w) in
  server.w_docs w' = server.w_docs w
  /\ server.w_newPubs w' = server.w_newPubs w.
Proof.
  destruct (checkRequestAndKey_cases l ctx (api.MsgFind rq)
              (api.FindRequest.Metadata rq) (api.FindRequest.Key rq) w)
    as [(i & Hk & _ & _)|[e He]].
  - destruct (checkRequestAndKey_Ok _ _ _ _ _ _ _ _ Hk) as [_ [m Hm]].
    rewrite (Find_checked l ctx rq w i m Hk Hm). cbn zeta.
    by destruct (storage.DocumentStorerLoader.Load _ _ _) as [[v|]|e|msg].
  - unfold server.Find. by rewrite (bind_Err _ _ _ _ _ He).
Qed.

(** X20. Get and Put work on the network only: neither changes the
    documents the librarian stores itself nor the queue of publications, in
    any outcome. In particular Put does not keep a local copy of the value. *)
Theorem Get_and_Put_keep_the_local_store l ctx w :
  (forall rq : api.GetRequest.t,
     let w' := snd (server.Get searchPredicates l ctx rq w) in
     server.w_docs w' = server.w_docs w /\ server.w_newPubs w' = server.w_newPubs w)
  /\ (forall rq : api.PutRequest.t,
     let w' := snd (server.Put l ctx rq w) in
     server.w_docs w' = server.w_docs w /\ server.w_newPubs w' = server.w_newPubs w).
Proof.
  split; intros rq.
  - destruct (checkRequestAndKey_cases l ctx (api.MsgGet rq)
                (api.GetRequest.Metadata rq) (api.GetRequest.Key rq) w)
      as [(i & Hk & _ & _)|[e He]].
    + destruct (checkRequestAndKey_Ok _ _ _ _ _ _ _ _ Hk) as [_ [m Hm]].
      destruct (search.Search (server.searcher l)
                  (search.NewSearch (server.selfID l)
                     (id.FromBytes (api.GetRequest.Key rq))
                     (server.Config.Search (server.config l)))
                  (routing.Table.Peak (server.rt l)
                     (id.FromBytes (api.GetRequest.Key rq))
                     (search.Parameters.Concurrency
                        (server.Config.Search (server.config l)))
                     (server.w_rt w))
                  (server.w_rt w)) as [[err s] t] eqn:Hs.
      destruct (Get_run l ctx rq w i m err s t Hk Hm Hs)
        as (r & w2 & -> & Hd & Hq & _). done.
    + unfold server.Get. by rewrite (bind_Err _ _ _ _ _ He).
  - destruct (checkRequestAndKeyValue_cases l ctx (api.MsgPut rq)
                (api.PutRequest.Metadata rq) (api.PutRequest.Key rq)
                (api.PutRequest.Value rq) w)
      as [(i & Hk & _ & _)|[e He]].
    + destruct (checkRequestAndKeyValue_Ok _ _ _ _ _ _ _ _ _ Hk) as [_ [m Hm]].
      destruct (store.Store (server.storer l)
                  (store.NewStore (server.selfID l)
                     (id.FromBytes (api.PutRequest.Key rq))
                     (api.PutRequest.Value rq)
                     (server.Config.Search (server.config l))
                     (server.Config.Store (server.config l)))
                  (routing.Table.Peak (server.rt l)
                     (id.FromBytes (api.PutRequest.Key rq))
                     (search.Parameters.Concurrency
                        (server.Config.Search (server.config l)))
                     (server.w_rt w))
                  (server.w_rt w)) as [[err s] t] eqn:Hs.
      destruct (Put_run l ctx rq w i m err s t Hk Hm Hs)
        as (r & w2 & -> & Hd & Hq & _). done.
    + unfold server.Put. by rewrite (bind_Err _ _ _ _ _ He).
Qed.

(** X21. When the searcher of a checked Get returns without error, the
    routing table the handler leaves is the one the searcher left with the
    closest peers of the result pushed, first to last, and this whether Get
    then answers or fails on an errored or exhausted search. When the
    searcher returns an error, Get returns that error and pushes nothing. *)
Theorem Get_pushes_closest_peers_in_every_outcome
    l ctx (rq : api.GetRequest.t) w requesterID err s t :
  server.checkRequestAndKey l ctx (api.MsgGet rq) (api.GetRequest.Metadata rq)
    (api.GetRequest.Key rq) w = (Ok requesterID, w) ->
  search.Search (server.searcher l)
    (search.NewSearch (server.selfID l) (id.FromBytes (api.GetRequest.Key rq))
       (server.Config.Search (server.config l)))
    (routing.Table.Peak (server.rt l) (id.FromBytes (api.GetRequest.Key rq))
       (search.Parameters.Concurrency (server.Config.Search (server.config l)))
       (server.w_rt w))
    (server.w_rt w) = (err, s, t) ->
  let out := server.Get searchPredicates l ctx rq w in
  match err with
  | Some e => fst out = Err e /\ server.w_rt (snd out) = t
  | None =>
      server.w_rt (snd out)
      = pushedAll (server.rt l) (search.Result.Closest (search.Search.Result s)) t
  end.
Proof.
  intros Hk Hs out.
  destruct (checkRequestAndKey_Ok _ _ _ _ _ _ _ _ Hk) as [_ [m Hm]].
  destruct (Get_run l ctx rq w requesterID m err s t Hk Hm Hs)
    as (r & w2 & Hrun & _ & _ & _ & Hrt & He).
  subst out. rewrite Hrun. cbn [fst snd].
  destruct err as [e|]; [|done]. split; [by apply He|done].
Qed.

(** X22. When the storer of a checked Put returns without error, the
    routing table the handler leaves is the one the storer left with the
    peers that responded pushed, first to last, in every outcome of the
    store. When the storer returns an error, Put returns that error and
    pushes nothing. *)
Theorem Put_pushes_responded_peers_in_every_outcome
    l ctx (rq : api.PutRequest.t) w requesterID err s t :
  server.checkRequestAndKeyValue l ctx (api.MsgPut rq) (api.PutRequest.Metadata rq)
    (api.PutRequest.Key rq) (api.PutRequest.Value rq) w = (Ok requesterID, w) ->
  store.Store (server.storer l)
    (store.NewStore (server.selfID l) (id.FromBytes (api.PutRequest.Key rq))
       (api.PutRequest.Value rq) (server.Config.Search (server.config l))
       (server.Config.Store (server.config l)))
    (routing.Table.Peak (server.rt l) (id.FromBytes (api.PutRequest.Key rq))
       (search.Parameters.Concurrency (server.Config.Search (server.config l)))
       (server.w_rt w))
    (server.w_rt w) = (err, s, t) ->
  let out := server.Put l ctx rq w in
  match err with
  | Some e => fst out = Err e /\ server.w_rt (snd out) = t
  | None =>
      server.w_rt (snd out)
      = pushedAll (server.rt l) (store.Result.Responded (store.Store.Result s)) t
  end.
Proof.
  intros Hk Hs out.
  destruct (checkRequestAndKeyValue_Ok _ _ _ _ _ _ _ _ _ Hk) as [_ [m Hm]].
  destruct (Put_run l ctx rq w requesterID m err s t Hk Hm Hs)
    as (r & w2 & Hrun & _ & _ & _ & Hrt & He).
  subst out. rewrite Hrun. cbn [fst snd].
  destruct err as [e|]; [|done]. split; [by apply He|done].
Qed.

(** *** Store *)

(** [Store] once the checks have passed. *)
Lemma Store_run l ctx (rq : api.StoreRequest.t) w requesterID m :
  server.checkRequestAndKeyValue l ctx (api.MsgStore rq) (api.StoreRequest.Metadata rq)
    (api.StoreRequest.Key rq) (api.StoreRequest.Value rq) w = (Ok requesterID, w) ->
  api.StoreRequest.Metadata rq = Some m ->
  server.Store l ctx rq w
  = let w1 := recorded' requesterID w in
    match storage.DocumentStorerLoader.Store (server.documentSL l)
            (id.FromBytes (api.StoreRequest.Key rq)) (api.StoreRequest.Value rq)
            (server.w_docs w) with
    | (Some e, d) => (Err e, server.set_docs d w1)
    | (None, d) =>
        match subscribe.Send (server.subscribeTo l)
                (api.GetPublication (api.StoreRequest.Key rq) (api.StoreRequest.Value rq))
                (server.w_newPubs w) with
        | (Some e, q) => (Err e, server.set_newPubs q (server.set_docs d w1))
        | (None, q) =>
            (Ok {| api.StoreResponse.Metadata :=
                     {| api.ResponseMetadata.RequestId := api.RequestMetadata.RequestId m;
                        api.ResponseMetadata.ResponseId :=
                          server.w_entropy w (server.w_drawn w) |} |},
             server.set_drawn (S (server.w_drawn w))
               (server.set_newPubs q (server.set_docs d w1)))
        end
    end.
Proof.
  intros Hc Hm. unfold server.Store. rewrite (bind_Ok _ _ _ _ _ Hc), Hm.
  unfold bind, server.record, modify, server.documentSL_Store,
    server.subscribeTo_Send. cbn.
  destruct (storage.DocumentStorerLoader.Store _ _ _ _) as [[e|] d]; [done|]. cbn.
  by destruct (subscribe.Send _ _ _) as [[e|] q].
Qed.

(** X23. What Store has stored, Find finds: with a storer/loader that
    loads what it stores, after a Store of a value that returned without
    error a checked Find for the same key answers with that value and with no
    peers. *)
Theorem Find_after_Store_returns_the_value
    l ctx (rq : api.StoreRequest.t) w rp w1 v ctx' (rq' : api.FindRequest.t) requesterID' :
  loadsWhatItStores (server.documentSL l) ->
  server.Store l ctx rq w = (Ok rp, w1) ->
  api.StoreRequest.Value rq = Some v ->
  api.FindRequest.Key rq' = api.StoreRequest.Key rq ->
  server.checkRequestAndKey l ctx' (api.MsgFind rq') (api.FindRequest.Metadata rq')
    (api.FindRequest.Key rq') w1 = (Ok requesterID', w1) ->
  exists rp' w2,
    server.Find l ctx' rq' w1 = (Ok rp', w2)
    /\ api.FindResponse.Value rp' = Some v
    /\ api.FindResponse.Peers rp' = [].
Proof.
  intros Hsl Hstore Hv Hkey Hk'.
  destruct (checkRequestAndKeyValue_cases l ctx (api.MsgStore rq)
              (api.StoreRequest.Metadata rq) (api.StoreRequest.Key rq)
              (api.StoreRequest.Value rq) w)
    as [(i & Hk & _ & _)|[e He]].
  2: { unfold server.Store in Hstore. by rewrite (bind_Err _ _ _ _ _ He) in Hstore. }
  destruct (checkRequestAndKeyValue_Ok _ _ _ _ _ _ _ _ _ Hk) as [_ [m Hm]].
  rewrite (Store_run l ctx rq w i m Hk Hm) in Hstore. cbn zeta in Hstore.
  destruct (storage.DocumentStorerLoader.Store _ _ _ _) as [[e|] d] eqn:Hs; [done|].
  destruct (subscribe.Send _ _ _) as [[e|] q]; [done|].
  injection Hstore as <- <-.
  rewrite Hv in Hs. apply Hsl in Hs.
  destruct (checkRequestAndKey_Ok _ _ _ _ _ _ _ _ Hk') as [_ [m' Hm']].
  rewrite (Find_checked l ctx' rq' _ requesterID' m' Hk' Hm'). cbn zeta.
  rewrite Hkey. cbn [server.w_docs server.set_drawn server.set_newPubs
                       server.set_docs server.set_outcomes].
  rewrite Hs. eexists _, _. split; [reflexivity|]. done.
Qed.

(** X24. Store does not undo what it stored: when the document was stored
    but handing its publication to the subscriptions fails, Store returns that
    error and the document stays in the store, where a storer/loader that
    loads what it stores still finds it. *)
Theorem Store_keeps_the_document_when_publishing_fails
    l ctx (rq : api.StoreRequest.t) w requesterID v d e q :
  loadsWhatItStores (server.documentSL l) ->
  server.checkRequestAndKeyValue l ctx (api.MsgStore rq) (api.StoreRequest.Metadata rq)
    (api.StoreRequest.Key rq) (api.StoreRequest.Value rq) w = (Ok requesterID, w) ->
  api.StoreRequest.Value rq = Some v ->
  storage.DocumentStorerLoader.Store (server.documentSL l)
    (id.FromBytes (api.StoreRequest.Key rq)) (Some v) (server.w_docs w) = (None, d) ->
  subscribe.Send (server.subscribeTo l)
    (api.GetPublication (api.StoreRequest.Key rq) (Some v)) (server.w_newPubs w)
    = (Some e, q) ->
  exists w',
    server.Store l ctx rq w = (Err e, w')
    /\ server.w_docs w' = d
    /\ storage.DocumentStorerLoader.Load (server.documentSL l)
         (id.FromBytes (api.StoreRequest.Key rq)) (server.w_docs w') = Ok (Some v).
Proof.
  intros Hsl Hk Hv Hs Hsend.
  destruct (checkRequestAndKeyValue_Ok _ _ _ _ _ _ _ _ _ Hk) as [_ [m Hm]].
  rewrite (Store_run l ctx rq w requesterID m Hk Hm). cbn zeta.
  rewrite Hv, Hs, Hsend. eexists. split; [reflexivity|].
  split; [done|]. by apply (Hsl _ _ _ _ Hs).
Qed.

(** X25. When the storer/loader fails to store the document, Store returns
    its error and hands nothing to the subscriptions: the queue of
    publications is as before, and the documents are as the failed store
    left them. *)
Theorem Store_publishes_nothing_when_storing_fails
    l ctx (rq : api.StoreRequest.t) w requesterID e d :
  server.checkRequestAndKeyValue l ctx (api.MsgStore rq) (api.StoreRequest.Metadata rq)
    (api.StoreRequest.Key rq) (api.StoreRequest.Value rq) w = (Ok requesterID, w) ->
  storage.DocumentStorerLoader.Store (server.documentSL l)
    (id.FromBytes (api.StoreRequest.Key rq)) (api.StoreRequest.Value rq)
    (server.w_docs w) = (Some e, d) ->
  exists w',
    server.Store l ctx rq w = (Err e, w')
    /\ server.w_newPubs w' = server.w_newPubs w
    /\ server.w_docs w' = d.
Proof.
  intros Hk Hs.
  destruct (checkRequestAndKeyValue_Ok _ _ _ _ _ _ _ _ _ Hk) as [_ [m Hm]].
  rewrite (Store_run l ctx rq w requesterID m Hk Hm). cbn zeta.
  rewrite Hs. eexists. split; [reflexivity|]. done.
Qed.

End HandlerEffects.

(** ** The loop of Subscribe *)

Section SubscribeStream.
Context {RT DS : Type} `{Primitives}.
Variable l : server.Librarian RT DS.

(** On a stream whose [Send] succeeds the loop hands the publications that
    pass both filters, in the order of the channel, and no other. *)
Lemma sendEach_healthy pubs af rf md (f : server.Fanout) :
  server.failure (server.from f) = None ->
  server.sendEach l pubs af rf md f
  = (Ok tt,
     {| server.from :=
          {| server.stream_Context := server.stream_Context (server.from f);
             server.handed :=
               server.handed (server.from f)
               ++ map (responseFor md) (List.filter (bothPositive af rf) pubs);
             server.failure := None |};
        server.done := server.done f |}).
Proof.
  revert f. induction pubs as [|pub pubs IH]; intros [[c h fl] dn] Hf;
    cbn in Hf; subst fl.
  - cbn. by rewrite app_nil_r.
  - cbn [server.sendEach List.filter]. unfold bind. rewrite maybeSend_unfold.
    destruct (bothPositive af rf pub); cbn.
    + rewrite IH by done. cbn. by rewrite <- app_assoc.
    + by rewrite IH.
Qed.

(** X26. A checked Subscribe on a stream whose [Send] succeeds returns no
    error after handing to the stream exactly the publications of the channel
    that pass both filters of the subscription, in the order of the channel,
    each with the same response metadata; the [done] channel is closed at the
    end, whether or not it was closed before; and, unlike the other handlers,
    Subscribe records no outcome against the requester and leaves the
    routing table, the documents and the queue of publications alone. *)
Theorem Subscribe_hands_matching_publications_in_order
    (rq : api.SubscribeRequest.t) w (f : server.Fanout)
    requesterID m sub af rf pubs isClosed :
  server.failure (server.from f) = None ->
  server.checkRequest l (server.stream_Context (server.from f))
    (api.MsgSubscribe rq) (api.SubscribeRequest.Metadata rq) w = (Ok requesterID, w) ->
  api.SubscribeRequest.Metadata rq = Some m ->
  api.SubscribeRequest.Subscription rq = Some sub ->
  subscribe.FromAPI (api.Subscription.AuthorPublicKeys sub) = Ok af ->
  subscribe.FromAPI (api.Subscription.ReaderPublicKeys sub) = Ok rf ->
  subscribe.New (server.subscribeFrom l) = Ok (pubs, isClosed) ->
  exists md w' f',
    server.Subscribe l rq (w, f) = (Ok tt, (w', f'))
    /\ server.handed (server.from f')
       = server.handed (server.from f)
         ++ map (responseFor md) (List.filter (bothPositive af rf) pubs)
    /\ server.done f' = true
    /\ server.w_rt w' = server.w_rt w
    /\ server.w_docs w' = server.w_docs w
    /\ server.w_newPubs w' = server.w_newPubs w
    /\ server.w_outcomes w' = server.w_outcomes w.
Proof.
  intros Hf Hc Hm Hsub Haf Hrf Hnew. unfold server.Subscribe.
  rewrite (bind_Ok (onSnd (gets (fun f => server.stream_Context (server.from f))))
             _ (w, f) (server.stream_Context (server.from f)) (w, f) eq_refl).
  rewrite (bind_Ok (onFst (server.checkRequest l _ _ _)) _ (w, f) requesterID (w, f)).
  2: { unfold onFst. cbn [fst snd]. by rewrite Hc. }
  rewrite Hsub, Haf, Hrf, Hnew, Hm.
  unfold bind, liftResult, onSnd, onFst, modify. cbn [fst snd].
  rewrite NewResponseMetadata_Some. cbn [fst snd].
  rewrite sendEach_healthy by done. cbn [server.done server.from].
  destruct isClosed; unfold server.close_done; cbn;
    (eexists _, _, _; split; [reflexivity|]; by cbn).
Qed.

(** X27. On a stream whose [Send] fails the loop stops at the first
    publication that passes both filters: that one publication is handed to
    the stream, no later one is looked at, the [done] channel is closed and
    the error of [Send] is returned. The close is unguarded: when [done] is
    closed already the run ends in the panic of closing a closed channel.
    When no publication passes, the loop returns no error and leaves the
    stream and the channel as they were. *)
Theorem sendEach_stops_at_the_first_failed_send
    pubs af rf md (f : server.Fanout) e :
  server.failure (server.from f) = Some e ->
  server.sendEach l pubs af rf md f
  = match List.find (bothPositive af rf) pubs with
    | None => (Ok tt, f)
    | Some pub =>
        (if server.done f then Panic "close of closed channel" else Err e,
         {| server.from := afterSend (responseFor md pub) (server.from f);
            server.done := true |})
    end.
Proof.
  intros Hf. induction pubs as [|pub pubs IH]; [done|].
  cbn [server.sendEach List.find]. unfold bind. rewrite maybeSend_unfold, Hf.
  destruct (bothPositive af rf pub).
  - by destruct (server.done f).
  - exact IH.
Qed.

End SubscribeStream.

(** ** The handlers on the sample librarian *)

Lemma mapDocStorerLoader_loads : loadsWhatItStores fixed.mapDocStorerLoader.
Proof.
  intros key v d d' [= <-]. cbn. by rewrite lookup_insert_eq.
Qed.

Lemma Introduce_refuses_mismatched_peer_id_witness :
  server.Introduce (H:=fixed.primitives)
    (sampleLibrarian (sampleSearchResult None []) (sampleStoreResult []))
    None
    {| api.IntroduceRequest.Metadata := Some (sampleMetadata Byte.x00);
       api.IntroduceRequest.Self := sampleAddress 4%N;
       api.IntroduceRequest.NumPeers := 3%N |}
    (sampleWorld ∅)
  = (Err "stated client peer ID does not match signature", sampleWorld ∅).
Proof.
  apply (Introduce_refuses_mismatched_peer_id (H:=fixed.primitives)
           (sampleLibrarian (sampleSearchResult None []) (sampleStoreResult []))
           None _ (sampleWorld ∅) 5%N).
  - vm_compute. reflexivity.
  - vm_compute. discriminate.
Defined.

Lemma Introduce_pushes_the_requester_witness :
  server.w_rt (snd (server.Introduce (H:=fixed.primitives)
     (sampleLibrarian (sampleSearchResult None []) (sampleStoreResult []))
     None (sampleIntroduceRequest Byte.x00) (sampleWorld ∅)))
  = samplePeers ++ [fixed.testPeer 5].
Proof.
  destruct (server.Introduce (H:=fixed.primitives)
     (sampleLibrarian (sampleSearchResult None []) (sampleStoreResult []))
     None (sampleIntroduceRequest Byte.x00) (sampleWorld ∅))
    as [[rp|e|msg] w'] eqn:Hrun.
  - exact (proj1 (proj2 (Introduce_pushes_the_requester (H:=fixed.primitives)
                           _ _ _ _ _ _ Hrun))).
  - vm_compute in Hrun. discriminate.
  - vm_compute in Hrun. discriminate.
Defined.

Lemma Find_after_Store_returns_the_value_witness :
  exists rp' w2,
    server.Find (H:=fixed.primitives)
      (sampleLibrarian (sampleSearchResult None []) (sampleStoreResult []))
      None sampleFindRequest
      (snd (server.Store (H:=fixed.primitives)
              (sampleLibrarian (sampleSearchResult None []) (sampleStoreResult []))
              None (sampleStoreRequest sampleKey) (sampleWorld ∅)))
    = (Ok rp', w2)
    /\ api.FindResponse.Value rp' = Some sampleDocument
    /\ api.FindResponse.Peers rp' = [].
Proof.
  destruct (server.Store (H:=fixed.primitives)
              (sampleLibrarian (sampleSearchResult None []) (sampleStoreResult []))
              None (sampleStoreRequest sampleKey) (sampleWorld ∅))
    as [[rp|e|msg] w1] eqn:Hrun.
  - apply (Find_after_Store_returns_the_value (H:=fixed.primitives)
             (sampleLibrarian (sampleSearchResult None []) (sampleStoreResult []))
             None (sampleStoreRequest sampleKey) (sampleWorld ∅) rp w1
             sampleDocument None sampleFindRequest 5%N
             mapDocStorerLoader_loads Hrun); reflexivity.
  - vm_compute in Hrun. discriminate.
  - vm_compute in Hrun. discriminate.
Defined.

Lemma Store_keeps_the_document_when_publishing_fails_witness :
  exists w',
    server.Store (H:=fixed.primitives)
      (librarianWith fixed.mapDocStorerLoader (fixed.fixedTo (Some "some send error"))
         (fixed.fixedFrom [] false None))
      None (sampleStoreRequest sampleKey) (sampleWorld ∅)
    = (Err "some send error", w')
    /\ server.w_docs w' = {[ id.FromBytes sampleKey := sampleDocument ]}
    /\ storage.DocumentStorerLoader.Load fixed.mapDocStorerLoader
         (id.FromBytes sampleKey) (server.w_docs w') = Ok (Some sampleDocument).
Proof.
  apply (Store_keeps_the_document_when_publishing_fails (H:=fixed.primitives)
           (librarianWith fixed.mapDocStorerLoader (fixed.fixedTo (Some "some send error"))
              (fixed.fixedFrom [] false None))
           None (sampleStoreRequest sampleKey) (sampleWorld ∅) 5%N sampleDocument
           {[ id.FromBytes sampleKey := sampleDocument ]} "some send error" []
           mapDocStorerLoader_loads).
  - vm_compute. reflexivity.
  - reflexivity.
  - vm_compute. reflexivity.
  - vm_compute. reflexivity.
Defined.

Lemma Store_publishes_nothing_when_storing_fails_witness :
  exists w',
    server.Store (H:=fixed.primitives)
      (librarianWith fixed.errDocStorerLoader (fixed.fixedTo None)
         (fixed.fixedFrom [] false None))
      None (sampleStoreRequest sampleKey) (sampleWorld ∅)
    = (Err "some store error", w')
    /\ server.w_newPubs w' = []
    /\ server.w_docs w' = ∅.
Proof.
  apply (Store_publishes_nothing_when_storing_fails (H:=fixed.primitives)
           (librarianWith fixed.errDocStorerLoader (fixed.fixedTo None)
              (fixed.fixedFrom [] false None))
           None (sampleStoreRequest sampleKey) (sampleWorld ∅) 5%N
           "some store error" ∅).
  - vm_compute. reflexivity.
  - vm_compute. reflexivity.
Defined.

Lemma Get_pushes_closest_peers_in_every_outcome_witness :
  server.w_rt (snd (server.Get (H:=fixed.primitives) fixed.predicates
     (sampleLibrarian (sampleSearchResult None [fixed.testPeer 20; fixed.testPeer 21])
        (sampleStoreResult []))
     None sampleGetRequest (sampleWorld ∅)))
  = samplePeers ++ [fixed.testPeer 20; fixed.testPeer 21].
Proof.
  exact (Get_pushes_closest_peers_in_every_outcome (H:=fixed.primitives)
           fixed.predicates
           (sampleLibrarian (sampleSearchResult None [fixed.testPeer 20; fixed.testPeer 21])
              (sampleStoreResult []))
           None sampleGetRequest (sampleWorld ∅) 5%N None _ _
           ltac:(vm_compute; reflexivity) ltac:(vm_compute; reflexivity)).
Defined.

Lemma Put_pushes_responded_peers_in_every_outcome_witness :
  server.w_rt (snd (server.Put (H:=fixed.primitives)
     (sampleLibrarian (sampleSearchResult None [])
        (sampleStoreResult [fixed.testPeer 20]))
     None samplePutRequest (sampleWorld ∅)))
  = samplePeers ++ [fixed.testPeer 20].
Proof.
  exact (Put_pushes_responded_peers_in_every_outcome (H:=fixed.primitives)
           (sampleLibrarian (sampleSearchResult None [])
              (sampleStoreResult [fixed.testPeer 20]))
           None samplePutRequest (sampleWorld ∅) 5%N None _ _
           ltac:(vm_compute; reflexivity) ltac:(vm_compute; reflexivity)).
Defined.

Lemma Subscribe_hands_matching_publications_in_order_witness :
  exists md w' f',
    server.Subscribe (H:=fixed.primitives)
      (librarianWith fixed.mapDocStorerLoader (fixed.fixedTo None)
         (fixed.fixedFrom samplePubs false None))
      sampleSubscribeRequest (sampleWorld ∅, sampleStream None false)
    = (Ok tt, (w', f'))
    /\ server.handed (server.from f')
       = map (responseFor md)
           [samplePub 1 Byte.x0a Byte.x0b; samplePub 4 Byte.x0a Byte.x0b]
    /\ server.done f' = true.
Proof.
  destruct (Subscribe_hands_matching_publications_in_order (H:=fixed.primitives)
              (librarianWith fixed.mapDocStorerLoader (fixed.fixedTo None)
                 (fixed.fixedFrom samplePubs false None))
              sampleSubscribeRequest (sampleWorld ∅) (sampleStream None false)
              5%N (sampleMetadata Byte.x00)
              {| api.Subscription.AuthorPublicKeys :=
                   {| api.BloomFilter.Encoded := Some [Byte.x0a] |};
                 api.Subscription.ReaderPublicKeys :=
                   {| api.BloomFilter.Encoded := Some [Byte.x0b] |} |}
              (sampleFilter [Byte.x0a]) (sampleFilter [Byte.x0b]) samplePubs false
              eq_refl ltac:(vm_compute; reflexivity) eq_refl eq_refl eq_refl eq_refl
              eq_refl)
    as (md & w' & f' & Hrun & Hhanded & Hdone & _).
  exists md, w', f'. split; [exact Hrun|]. split; [exact Hhanded|exact Hdone].
Defined.

Lemma sendEach_stops_at_the_first_failed_send_witness :
  let md := {| api.ResponseMetadata.RequestId := [Byte.x01];
               api.ResponseMetadata.ResponseId := [Byte.x02] |} in
  server.sendEach
    (sampleLibrarian (sampleSearchResult None []) (sampleStoreResult []))
    samplePubs (sampleFilter [Byte.x0a]) (sampleFilter [Byte.x0c]) md
    (sampleStream (Some "stream is broken") false)
  = (Err "stream is broken",
     {| server.from :=
          {| server.stream_Context := None;
             server.handed := [responseFor md (samplePub 2 Byte.x0a Byte.x0c)];
             server.failure := Some "stream is broken" |};
        server.done := true |}).
Proof.
  exact (sendEach_stops_at_the_first_failed_send
           (sampleLibrarian (sampleSearchResult None []) (sampleStoreResult []))
           samplePubs (sampleFilter [Byte.x0a]) (sampleFilter [Byte.x0c])
           {| api.ResponseMetadata.RequestId := [Byte.x01];
              api.ResponseMetadata.ResponseId := [Byte.x02] |}
           (sampleStream (Some "stream is broken") false) "stream is broken" eq_refl).
Defined.
